(** * Burnout risk prediction services: a shallow embedding

    The development follows the four Python modules of the repository:
    - [simple_model.py]  (class [BurnoutPredictionModel]),
    - [predict.py]       (class [PredictionService]),
    - [train.py]         (class [TrainingService]),
    - [evaluate.py]      (class [EvaluationService]).

    Conventions of the embedding:
    - a Python [float] is a rational number of [Q]: infinities and NaN
      are outside the model, and so is the rounding of a reported value;
      the overflow of [float(n)] on a large [int] is modelled, and the
      float arithmetic of numpy that decides a label is left to the
      library ([Lib.fl_mul], [Lib.fl_add]);
    - a Python [int] is an integer of [Z];
    - a Python [dict] with string keys is a [gmap string _];
    - a call that may raise returns a [result]: [Ok v] or [Raise e];
    - what the interpreter, the operating system, the libraries (numpy,
      pandas, scikit-learn, joblib, uuid, datetime) and the modules of
      the repository that the four files import (the advanced training
      pipeline, the comprehensive evaluator, the SHAP analyzer) provide
      is a field of an environment record or a variable of a section,
      so every statement holds for any behaviour of those;
    - an [async] method is one sequential computation: what other tasks
      do between two [await]s is outside the model. *)

From Stdlib Require Import ZArith QArith Ascii String List Lia Lqa.
From stdpp Require Import gmap strings list fin_maps.

Open Scope string_scope.

(** ** Python values, exceptions and fallible computations *)

(** The values a feature mapping of type [Dict[str, Any]] may hold.
    [PObj ty ordered] stands for an object of another type, named [ty]:
    it is neither an [int] nor a [float]. [ordered] is [Some q] when [>]
    and [<] against an [int] answer as they do for the number [q] (a
    [Decimal], a [Fraction], a numpy integer), and [None] when they raise
    [TypeError] (a list, a dict, ...). An object that answers such a
    comparison in another way (a numpy array, say) is outside the
    model. *)
Inductive pyval : Type :=
| PNone
| PBool (b : bool)
| PInt (z : Z)
| PFloat (q : Q)
| PStr (s : string)
| PObj (ty : string) (ordered : option Q).

(** The name [type(v).__name__] prints. *)
Definition type_name (v : pyval) : string :=
  match v with
  | PNone => "NoneType"
  | PBool _ => "bool"
  | PInt _ => "int"
  | PFloat _ => "float"
  | PStr _ => "str"
  | PObj ty _ => ty
  end.

Inductive exn : Type :=
| ValueError (msg : string)
| TypeError (msg : string)
| KeyError (key : string)
| IndexError (msg : string)
| AttributeError (msg : string)
| OverflowError (msg : string)
| OtherError (msg : string).

(** [str(e)] *)
Definition exn_str (e : exn) : string :=
  match e with
  | ValueError m | TypeError m | IndexError m
  | AttributeError m | OverflowError m | OtherError m => m
  | KeyError k => "'" ++ k ++ "'"
  end.

Inductive result (A : Type) : Type :=
| Ok (a : A)
| Raise (e : exn).
Arguments Ok {A} a.
Arguments Raise {A} e.

#[global] Instance result_ret : MRet result := fun A a => Ok a.
#[global] Instance result_bind : MBind result := fun A B f m =>
  match m with
  | Ok a => f a
  | Raise e => Raise e
  end.

(** [try: body  except Exception as e: handler(e)] *)
Definition try_except {A} (body : result A) (handler : exn → result A) : result A :=
  match body with
  | Ok a => Ok a
  | Raise e => handler e
  end.

(** ** Numbers *)

Definition Qltb (x y : Q) : bool := negb (Qle_bool y x).

(** [isinstance(value, (int, float))]: [bool] is a subclass of [int]. *)
Definition isinstance_int_float (v : pyval) : bool :=
  match v with
  | PBool _ | PInt _ | PFloat _ => true
  | PNone | PStr _ | PObj _ _ => false
  end.

(** The number an [int], a [bool] or a [float] denotes ([True] is 1,
    [False] is 0). *)
Definition as_number (v : pyval) : option Q :=
  match v with
  | PBool b => Some (if b then 1 else 0)%Q
  | PInt z => Some (inject_Z z)
  | PFloat q => Some q
  | PNone | PStr _ | PObj _ _ => None
  end.

(** The number a value orders as against an [int]; [None] when the
    comparison raises [TypeError]. *)
Definition comparable_as (v : pyval) : option Q :=
  match v with
  | PObj _ ordered => ordered
  | _ => as_number v
  end.

(** The double [float(n)] makes of an [int]: [n] itself up to 53 bits;
    beyond, the 53 leading bits, rounded to the nearest on the bits
    dropped, a tie going to the even one. *)
Definition nearest_double (n : Z) : Z :=
  let a := Z.abs n in
  let e := (Z.log2 a - 52)%Z in
  if (e <=? 0)%Z then n
  else
    let q := (a / 2 ^ e)%Z in
    let r := (a mod 2 ^ e)%Z in
    let half := (2 ^ (e - 1))%Z in
    let q := if (half <? r)%Z || ((r =? half)%Z && Z.odd q) then (q + 1)%Z else q in
    (Z.sgn n * (q * 2 ^ e))%Z.

(** [float(n)] raises [OverflowError] when that double would be beyond
    the largest one, [2^1024 - 2^971]: for [n] from [2^1024 - 2^970]
    on. *)
Definition float_overflows (n : Z) : bool :=
  (2 ^ 1024 <=? Z.abs (nearest_double n))%Z.

(** [float(value)] on a value that passed [isinstance_int_float]. *)
Definition py_float (v : pyval) : result Q :=
  match v with
  | PInt n =>
      if float_overflows n
      then Raise (OverflowError "int too large to convert to float")
      else Ok (inject_Z (nearest_double n))
  | _ => Ok (default 0%Q (as_number v))
  end.

Definition cmp_error (op : string) (v : pyval) (other : string) : exn :=
  TypeError ("'" ++ op ++ "' not supported between instances of '"
             ++ type_name v ++ "' and '" ++ other ++ "'").

(** [v > n] and [v < n] for an integer literal [n]. *)
Definition py_gt (v : pyval) (n : Z) : result bool :=
  match comparable_as v with
  | Some q => Ok (Qltb (inject_Z n) q)
  | None => Raise (cmp_error ">" v "int")
  end.

Definition py_lt (v : pyval) (n : Z) : result bool :=
  match comparable_as v with
  | Some q => Ok (Qltb q (inject_Z n))
  | None => Raise (cmp_error "<" v "int")
  end.

(** [max((p0, p1))]: the first of the largest items. *)
Definition py_max2 (p : Q * Q) : Q :=
  if Qltb (fst p) (snd p) then snd p else fst p.

(** [l[0]] *)
Definition first {A} (l : list A) : result A :=
  match l with
  | x :: _ => Ok x
  | [] => Raise (IndexError "index 0 is out of bounds for axis 0 with size 0")
  end.

(** [l.append(x)] *)
Definition append {A} (l : list A) (x : A) : list A := l ++ [x].

(** [k in d] for a dict [d]. *)
Definition contains {V} (k : string) (d : gmap string V) : bool :=
  match d !! k with
  | Some _ => true
  | None => false
  end.

(** A matrix of features: one row per sample. *)
Abbreviation matrix := (list (list Q)).

(** ** simple_model.py *)

Module BurnoutPredictionModel.

(** [self.feature_names] as set by [__init__]. *)
Definition feature_names : list string :=
  [ "work_hours_per_week";
    "meeting_hours_per_week";
    "email_count_per_day";
    "stress_level";
    "workload_score";
    "work_life_balance";
    "overtime_hours";
    "deadline_pressure";
    "team_size";
    "remote_work_percentage" ].

(** What a scikit-learn estimator answers to a matrix: a result, or
    [ValueError] when it rejects the matrix (no row, another number of
    columns than it was fitted with) or is not fitted. *)
Inductive checked (A : Type) : Type :=
| Accepted (a : A)
| Rejected (msg : string).
Arguments Accepted {A} a.
Arguments Rejected {A} msg.

Definition validated {A} (c : checked A) : result A :=
  match c with
  | Accepted a => Ok a
  | Rejected msg => Raise (ValueError msg)
  end.

(** The object: the scaler and the forest are what scikit-learn makes
    them answer, [scaler.transform], [model.predict] and
    [model.predict_proba]. *)
Record t : Type := {
  is_trained : bool;
  (** [self.feature_names]: [feature_names] above, until [load_model]
      replaces it *)
  names : list string;
  scaler_transform : matrix → checked matrix;
  model_predict : matrix → checked (list Z);
  model_predict_proba : matrix → checked (list (Q * Q))
}.

Record single_prediction : Type := {
  prediction : Z;
  risk_score : Q;
  risk_level : string;
  confidence : Q
}.

(** [[features[f] for f in self.feature_names]] *)
Fixpoint feature_array (features : gmap string Q) (fs : list string)
  : result (list Q) :=
  match fs with
  | [] => Ok []
  | f :: fs' =>
      match features !! f with
      | Some v => vs ← feature_array features fs'; Ok (v :: vs)
      | None => Raise (KeyError f)
      end
  end.

Definition predict_single (self : t) (features : gmap string Q)
  : result single_prediction :=
  if negb (is_trained self) then
    Raise (ValueError "Model must be trained before making predictions")
  else
    row ← feature_array features (names self);
    let feature_array := [row] in
    feature_array_scaled ← validated (scaler_transform self feature_array);
    predictions ← validated (model_predict self feature_array_scaled);
    prediction ← first predictions;
    probabilities ← validated (model_predict_proba self feature_array_scaled);
    probability ← first probabilities;
    let risk_score := snd probability in
    let risk_level :=
      if Qltb risk_score (3 # 10) then "low"
      else if Qltb risk_score (6 # 10) then "medium"
      else if Qltb risk_score (8 # 10) then "high"
      else "critical" in
    Ok {| prediction := prediction;
          risk_score := risk_score;
          risk_level := risk_level;
          confidence := py_max2 probability |}.

(** The scaler and the forest of an object, as [fit] finds them and
    leaves them. *)
Abbreviation scaler := (matrix → checked matrix).
Abbreviation forest :=
  ((matrix → checked (list Z)) * (matrix → checked (list (Q * Q))))%type.

(** What scikit-learn computes. A fit works on the estimator in place:
    it returns or raises, and in both cases leaves an estimator, which
    need not be the one it found ([StandardScaler.fit] resets the scaler
    before it looks at the data). *)
Record Sk : Type := {
  (** [self.scaler.fit_transform(X)] *)
  fit_transform : scaler → matrix → result matrix * scaler;
  (** [self.model.fit(X_scaled, y)] *)
  fit : forest → matrix → list Z → result unit * forest;
  accuracy_score : list Z → list Z → result Q;
  precision_score : list Z → list Z → result Q;
  recall_score : list Z → list Z → result Q;
  f1_score : list Z → list Z → result Q;
  classification_report : list Z → list Z → result string
}.

(** [train]: the scaler is fitted in place before the forest, and
    [is_trained] is set last. *)
Definition train (K : Sk) (self : t) (X : matrix) (y : list Z) : result unit * t :=
  let '(X_scaled, scaler') := fit_transform K (scaler_transform self) X in
  let self :=
    {| is_trained := is_trained self; names := names self;
       scaler_transform := scaler';
       model_predict := model_predict self;
       model_predict_proba := model_predict_proba self |} in
  match X_scaled with
  | Raise e => (Raise e, self)
  | Ok X_scaled =>
      let '(fitted, (predict', predict_proba')) :=
        fit K (model_predict self, model_predict_proba self) X_scaled y in
      let self :=
        {| is_trained := is_trained self; names := names self;
           scaler_transform := scaler_transform self;
           model_predict := predict';
           model_predict_proba := predict_proba' |} in
      match fitted with
      | Raise e => (Raise e, self)
      | Ok _ =>
          (Ok tt,
           {| is_trained := true; names := names self;
              scaler_transform := scaler_transform self;
              model_predict := model_predict self;
              model_predict_proba := model_predict_proba self |})
      end
  end.

Definition predict (self : t) (X : matrix) : result (list Z * list (Q * Q)) :=
  if negb (is_trained self) then
    Raise (ValueError "Model must be trained before making predictions")
  else
    X_scaled ← validated (scaler_transform self X);
    predictions ← validated (model_predict self X_scaled);
    probabilities ← validated (model_predict_proba self X_scaled);
    Ok (predictions, probabilities).

Record evaluation : Type := {
  accuracy : Q;
  precision : Q;
  recall : Q;
  f1 : Q;
  report : string
}.

Definition evaluate (K : Sk) (self : t) (X : matrix) (y : list Z)
  : result evaluation :=
  if negb (is_trained self) then
    Raise (ValueError "Model must be trained before evaluation")
  else
    X_scaled ← validated (scaler_transform self X);
    y_pred ← validated (model_predict self X_scaled);
    a ← accuracy_score K y y_pred;
    p ← precision_score K y y_pred;
    r ← recall_score K y y_pred;
    f ← f1_score K y y_pred;
    c ← classification_report K y y_pred;
    Ok {| accuracy := a; precision := p; recall := r; f1 := f; report := c |}.

(** [joblib.dump] and [joblib.load] on a disk of type [D]; what is
    written is the dictionary of the model's four entries, that is the
    object itself. *)
Record Joblib (D : Type) : Type := {
  dump : t → string → D → result D;
  load : string → D → result t
}.
Arguments dump {D}.
Arguments load {D}.

Definition save_model {D} (J : Joblib D) (self : t) (filepath : string) (disk : D)
  : result unit * D :=
  if negb (is_trained self) then
    (Raise (ValueError "Model must be trained before saving"), disk)
  else
    let model_data :=
      {| is_trained := is_trained self; names := names self;
         scaler_transform := scaler_transform self;
         model_predict := model_predict self;
         model_predict_proba := model_predict_proba self |} in
    match dump J model_data filepath disk with
    | Ok disk' => (Ok tt, disk')
    | Raise e => (Raise e, disk)
    end.

(** [load_model]: the four entries of the file replace those of [self]. *)
Definition load_model {D} (J : Joblib D) (self : t) (filepath : string) (disk : D)
  : result unit * t :=
  match load J filepath disk with
  | Raise e => (Raise e, self)
  | Ok model_data =>
      (Ok tt,
       {| is_trained := is_trained model_data; names := names model_data;
          scaler_transform := scaler_transform model_data;
          model_predict := model_predict model_data;
          model_predict_proba := model_predict_proba model_data |})
  end.

End BurnoutPredictionModel.

(** ** predict.py *)

(** What the prediction service asks of a loaded model object. *)
Module Model.
Record t : Type := {
  predict : matrix → result (list Q);
  predict_proba : matrix → result (list (Q * Q))
}.
End Model.

Module PredictionService.

Record t : Type := {
  models : gmap string Model.t;
  model_versions : list string
}.

Record Factor : Type := {
  value : pyval;
  impact : string;
  description : string
}.

Record Prediction : Type := {
  prediction_id : string;
  user_id : string;
  risk_level : string;
  risk_score : Q;
  confidence : Q;
  factors : gmap string Factor;
  recommendations : list string;
  model_version : string;
  prediction_date : Z
}.

Definition expected_features : list string :=
  [ "work_hours_per_week";
    "meeting_hours_per_week";
    "email_count_per_day";
    "stress_level";
    "workload_score";
    "work_life_balance";
    "team_size";
    "remote_work_percentage";
    "overtime_hours";
    "deadline_pressure" ].

(** The body of the [for feature in expected_features] loop. *)
Definition prepare_step (features : gmap string pyval)
    (feature_vector : list Q) (feature : string) : result (list Q) :=
  let value := default (PFloat 0) (features !! feature) in
  if isinstance_int_float value then
    x ← py_float value; Ok (append feature_vector x)
  else Ok (append feature_vector 0%Q).

(** The loop: it stops at the first step that raises. *)
Fixpoint prepare_loop (features : gmap string pyval) (fs : list string)
    (feature_vector : list Q) : result (list Q) :=
  match fs with
  | [] => Ok feature_vector
  | feature :: fs' =>
      feature_vector ← prepare_step features feature_vector feature;
      prepare_loop features fs' feature_vector
  end.

Definition _prepare_features (features : gmap string pyval) : result (list Q) :=
  prepare_loop features expected_features [].

Definition _determine_risk_level (risk_score : Q) : string :=
  if Qltb risk_score (3 # 10) then "low"
  else if Qltb risk_score (6 # 10) then "medium"
  else if Qltb risk_score (8 # 10) then "high"
  else "critical".

Definition _analyze_factors (features : gmap string pyval) (risk_score : Q)
  : result (gmap string Factor) :=
  let factors : gmap string Factor := ∅ in
  let work_hours := default (PInt 0) (features !! "work_hours_per_week") in
  c ← py_gt work_hours 50;
  let factors :=
    if c : bool then
      <["excessive_hours" :=
          {| value := work_hours; impact := "high";
             description := "Working more than 50 hours per week" |}]> factors
    else factors in
  let stress_level := default (PInt 0) (features !! "stress_level") in
  c ← py_gt stress_level 7;
  let factors :=
    if c : bool then
      <["high_stress" :=
          {| value := stress_level; impact := "high";
             description := "High stress level reported" |}]> factors
    else factors in
  let workload := default (PInt 0) (features !! "workload_score") in
  c ← py_gt workload 8;
  let factors :=
    if c : bool then
      <["heavy_workload" :=
          {| value := workload; impact := "medium";
             description := "Heavy workload reported" |}]> factors
    else factors in
  let work_life_balance := default (PInt 0) (features !! "work_life_balance") in
  c ← py_lt work_life_balance 3;
  let factors :=
    if c : bool then
      <["poor_work_life_balance" :=
          {| value := work_life_balance; impact := "high";
             description := "Poor work-life balance" |}]> factors
    else factors in
  Ok factors.

Definition _generate_recommendations (risk_level : string)
    (factors : gmap string Factor) : list string :=
  let recommendations : list string := [] in
  let recommendations :=
    if String.eqb risk_level "low" then
      let r := append recommendations "Continue maintaining healthy work habits" in
      append r "Regularly monitor your stress levels"
    else if String.eqb risk_level "medium" then
      let r := append recommendations "Consider reducing work hours if possible" in
      let r := append r "Take regular breaks throughout the day" in
      append r "Practice stress management techniques"
    else if String.eqb risk_level "high" then
      let r := append recommendations "Urgent: Reduce workload and work hours" in
      let r := append r "Schedule regular time off" in
      let r := append r "Consider speaking with your manager about workload" in
      append r "Seek professional help if needed"
    else
      let r := append recommendations "Immediate action required: Take time off" in
      let r := append r "Contact HR or management immediately" in
      let r := append r "Consider professional counseling" in
      append r "Review and adjust work responsibilities" in
  let recommendations :=
    if contains "excessive_hours" factors then
      append recommendations "Set strict work hour boundaries"
    else recommendations in
  let recommendations :=
    if contains "high_stress" factors then
      append recommendations "Implement daily stress reduction activities"
    else recommendations in
  let recommendations :=
    if contains "poor_work_life_balance" factors then
      append recommendations "Create clear boundaries between work and personal time"
    else recommendations in
  recommendations.

Section predict.
(** [str(uuid.uuid4())] and [datetime.utcnow()] at the time of the call. *)
Variable uuid4 : string.
Variable utcnow : Z.

Definition predict_body (self : t) (user_id : string)
    (features : gmap string pyval) (model_version : string)
  : result Prediction :=
  let model_version :=
    if String.eqb model_version "latest" then
      List.last (model_versions self) "dummy"
    else model_version in
  match models self !! model_version with
  | None => Raise (ValueError ("Model version " ++ model_version ++ " not found"))
  | Some model =>
      feature_vector ← _prepare_features features;
      p ← Model.predict model [feature_vector];
      risk_score ← first p;
      pp ← Model.predict_proba model [feature_vector];
      risk_prob ← first pp;
      let risk_level := _determine_risk_level risk_score in
      factors ← _analyze_factors features risk_score;
      let recommendations := _generate_recommendations risk_level factors in
      Ok {| prediction_id := uuid4;
            user_id := user_id;
            risk_level := risk_level;
            risk_score := risk_score;
            confidence := py_max2 risk_prob;
            factors := factors;
            recommendations := recommendations;
            model_version := model_version;
            prediction_date := utcnow |}
  end.

(** The [except Exception] clause logs and re-raises. *)
Definition predict (self : t) (user_id : string)
    (features : gmap string pyval) (model_version : string)
  : result Prediction :=
  try_except (predict_body self user_id features model_version)
             (fun e => Raise e).
End predict.

End PredictionService.

(** ** Tasks: fallible steps over a service state *)

(** A step of a task over a state [S]: it may raise, and always leaves a
    state (what was written before an exception stays written). *)
Definition task (S A : Type) : Type := S → result A * S.

Definition ret {S A} (a : A) : task S A := fun s => (Ok a, s).
Definition raise {S A} (e : exn) : task S A := fun s => (Raise e, s).
Definition bind {S A B} (m : task S A) (f : A → task S B) : task S B := fun s =>
  match m s with
  | (Ok a, s') => f a s'
  | (Raise e, s') => (Raise e, s')
  end.
Definition lift {S A} (r : result A) : task S A := fun s => (r, s).
(** [try: body  except Exception as e: handler(e)] *)
Definition try_ {S A} (body : task S A) (handler : exn → task S A) : task S A :=
  fun s =>
  match body s with
  | (Ok a, s') => (Ok a, s')
  | (Raise e, s') => handler e s'
  end.

Declare Scope task_scope.
Delimit Scope task_scope with task.
Notation "x <- m ;; k" := (bind m (fun x => k))
  (at level 100, m at next level, right associativity) : task_scope.
Notation "m ;;; k" := (bind m (fun _ => k))
  (at level 100, right associativity) : task_scope.

(** ** What pandas, numpy and the file system provide to the loaders *)

Module Lib.
Record t : Type := {
  DataFrame : Type;
  (** [os.path.exists] *)
  path_exists : string → bool;
  (** [pd.read_csv], [pd.read_json] *)
  read_csv : string → result DataFrame;
  read_json : string → result DataFrame;
  (** [df[columns].fillna(0).values] *)
  select_fillna_values : DataFrame → list string → result matrix;
  (** [column in df.columns] and [df[column].values] *)
  has_column : DataFrame → string → bool;
  column_values : DataFrame → string → result (list Z);
  (** the entry [i, j] of [np.random.rand(n, m)] after
      [np.random.seed(seed)] *)
  uniform : Z → nat → nat → Q;
  (** the product and the sum of two float64 entries, as numpy rounds
      them (the second factor may be a literal such as [0.3], which
      stands for the double nearest to it) *)
  fl_mul : Q → Q → Q;
  fl_add : Q → Q → Q
}.

(** [np.random.seed(seed); np.random.rand(n, m)] *)
Definition random_rand (L : t) (seed : Z) (n m : nat) : matrix :=
  map (fun i => map (fun j => uniform L seed i j) (seq 0 m)) (seq 0 n).
End Lib.

(** [s.endswith(suffix)] *)
Definition endswith (s suffix : string) : bool :=
  let n := String.length s in
  let k := String.length suffix in
  if (k <=? n)%nat then String.eqb (substring (n - k) k s) suffix else false.

(** [row[i]] for a row of a numpy matrix. *)
Definition item (row : list Q) (i : nat) : result Q :=
  match row !! i with
  | Some x => Ok x
  | None => Raise (IndexError "index is out of bounds for axis 1")
  end.

(** [mapM]: run a fallible function over a list, stopping at the first
    exception. *)
Fixpoint for_each {A B} (f : A → result B) (l : list A) : result (list B) :=
  match l with
  | [] => Ok []
  | x :: l' => y ← f x; ys ← for_each f l'; Ok (y :: ys)
  end.

(** [os.path.join(a, b)] on a POSIX system: an absolute [b] replaces
    [a]. *)
Definition os_path_join (a b : string) : string :=
  if String.prefix "/" b then b
  else if String.eqb a "" || endswith a "/" then a ++ b
  else a ++ "/" ++ b.

(** The rule shared by the dummy data and [_generate_target]:
    [(X[:, 0] * 0.3 + X[:, 3] * 0.4 + X[:, 4] * 0.3 > 0.5).astype(int)],
    the products and the sums being those of float64. *)
Definition target_of_row (L : Lib.t) (row : list Q) : result Z :=
  x0 ← item row 0;
  x3 ← item row 3;
  x4 ← item row 4;
  let burnout_risk :=
    Lib.fl_add L
      (Lib.fl_add L (Lib.fl_mul L x0 (3 # 10)) (Lib.fl_mul L x3 (4 # 10)))
      (Lib.fl_mul L x4 (3 # 10)) in
  Ok (if Qltb (5 # 10) burnout_risk then 1 else 0)%Z.

(** ** train.py *)

Module TrainingService.

(** What [train_comprehensive_model] of the advanced pipeline hands back,
    as far as [_train_model] looks into it: an object with or without a
    [get] method, whose ['best_model'] entry is missing or falsy, a
    mapping (with or without ['metrics']), or some other truthy object.
    An object without [get] comes with the name of its type. *)
Inductive best_model : Type :=
| BestAbsent
| BestMapping (metrics : option (gmap string Q))
| BestNotMapping (ty : string).

Inductive pipeline_results : Type :=
| ResultsMapping (best : best_model)
| ResultsNotMapping (ty : string).

Record Job : Type := {
  status : string;
  model_type : string;
  dataset_path : string;
  hyperparameters : gmap string pyval;
  start_time : Z;
  progress : Z;
  metrics : gmap string Q;
  training_results : option pipeline_results;
  model_version : option string;
  end_time : option Z;
  error : option string
}.

(** [RandomForestClassifier(...)] before fitting. *)
Record forest : Type := {
  n_estimators : pyval;
  max_depth : pyval;
  min_samples_split : pyval;
  min_samples_leaf : pyval;
  random_state : Z
}.

(** The collaborators of the training task. *)
Record Env : Type := {
  lib : Lib.t;
  Fitted : Type;
  (** [await self.advanced_pipeline.feature_pipeline.initialize()] *)
  pipeline_initialize : result unit;
  (** [await self.advanced_pipeline.train_comprehensive_model(...)] *)
  train_comprehensive_model : list string → Z → bool → result pipeline_results;
  (** [train_test_split(X, y, test_size=0.2, random_state=42, stratify=y)] *)
  train_test_split : matrix → list Z → result (matrix * matrix * list Z * list Z);
  (** [model.fit(X_train, y_train)] and [model.predict(X_test)] *)
  fit : forest → matrix → list Z → result Fitted;
  fitted_predict : Fitted → matrix → result (list Z);
  (** scikit-learn's scores, the last three with [average='weighted'] *)
  accuracy_score : list Z → list Z → result Q;
  precision_score : list Z → list Z → result Q;
  recall_score : list Z → list Z → result Q;
  f1_score : list Z → list Z → result Q;
  (** [joblib.dump(model, model_path)] *)
  joblib_dump : Fitted → string → result unit;
  (** the successive readings of [datetime.utcnow()] in a task and
      [strftime('%Y%m%d_%H%M%S')] *)
  utcnow_version : Z;
  utcnow_end : Z;
  strftime : Z → string
}.

Definition models_dir : string := "models".

Definition path_join (a b : string) : string := os_path_join a b.

(** The service state: the job table, and, as a record of the execution,
    every value written to a job's ["status"], oldest first. *)
Record t : Type := {
  training_jobs : gmap string Job;
  status_writes : list (string * string)
}.

Abbreviation M := (task t).

(** [self.training_jobs[training_id]] *)
Definition get_job (training_id : string) : M Job := fun s =>
  match training_jobs s !! training_id with
  | Some job => (Ok job, s)
  | None => (Raise (KeyError training_id), s)
  end.

(** [job[key] = v] through the alias [job] of the table's entry. *)
Definition update (training_id : string) (f : Job → Job) : M unit := fun s =>
  (Ok tt, {| training_jobs := alter f training_id (training_jobs s);
             status_writes := status_writes s |}).

Definition with_status (v : string) (j : Job) : Job :=
  {| status := v; model_type := model_type j; dataset_path := dataset_path j;
     hyperparameters := hyperparameters j; start_time := start_time j;
     progress := progress j; metrics := metrics j;
     training_results := training_results j;
     model_version := model_version j; end_time := end_time j;
     error := error j |}.

Definition with_progress (v : Z) (j : Job) : Job :=
  {| status := status j; model_type := model_type j; dataset_path := dataset_path j;
     hyperparameters := hyperparameters j; start_time := start_time j;
     progress := v; metrics := metrics j;
     training_results := training_results j;
     model_version := model_version j; end_time := end_time j;
     error := error j |}.

Definition with_metrics (v : gmap string Q) (j : Job) : Job :=
  {| status := status j; model_type := model_type j; dataset_path := dataset_path j;
     hyperparameters := hyperparameters j; start_time := start_time j;
     progress := progress j; metrics := v;
     training_results := training_results j;
     model_version := model_version j; end_time := end_time j;
     error := error j |}.

Definition with_results (v : pipeline_results) (j : Job) : Job :=
  {| status := status j; model_type := model_type j; dataset_path := dataset_path j;
     hyperparameters := hyperparameters j; start_time := start_time j;
     progress := progress j; metrics := metrics j;
     training_results := Some v;
     model_version := model_version j; end_time := end_time j;
     error := error j |}.

Definition with_model_version (v : string) (j : Job) : Job :=
  {| status := status j; model_type := model_type j; dataset_path := dataset_path j;
     hyperparameters := hyperparameters j; start_time := start_time j;
     progress := progress j; metrics := metrics j;
     training_results := training_results j;
     model_version := Some v; end_time := end_time j;
     error := error j |}.

Definition with_end_time (v : Z) (j : Job) : Job :=
  {| status := status j; model_type := model_type j; dataset_path := dataset_path j;
     hyperparameters := hyperparameters j; start_time := start_time j;
     progress := progress j; metrics := metrics j;
     training_results := training_results j;
     model_version := model_version j; end_time := Some v;
     error := error j |}.

Definition with_error (v : string) (j : Job) : Job :=
  {| status := status j; model_type := model_type j; dataset_path := dataset_path j;
     hyperparameters := hyperparameters j; start_time := start_time j;
     progress := progress j; metrics := metrics j;
     training_results := training_results j;
     model_version := model_version j; end_time := end_time j;
     error := Some v |}.

(** [job["status"] = v]: the write is recorded. *)
Definition set_status (training_id v : string) : M unit := fun s =>
  (Ok tt, {| training_jobs := alter (with_status v) training_id (training_jobs s);
             status_writes := status_writes s ++ [(training_id, v)] |}).

(** [job["status"] = v; job["progress"] = p] *)
Definition stage (training_id v : string) (p : Z) : M unit :=
  (set_status training_id v ;;; update training_id (with_progress p))%task.

(** [f"{i:03d}"] for [i < 1000]. *)
Definition digit (n : nat) : string :=
  String (Ascii.ascii_of_nat (48 + n)) EmptyString.

Definition format_03d (i : nat) : string :=
  digit (i / 100 mod 10) ++ digit (i / 10 mod 10) ++ digit (i mod 10).

(** The [try] body cannot raise, so the [except] clause is never taken. *)
Definition _get_training_user_ids (dataset_path : string) : result (list string) :=
  Ok (map (fun i => "user_" ++ format_03d i) (seq 1 50)).

Definition feature_columns : list string :=
  [ "work_hours_per_week"; "meeting_hours_per_week"; "email_count_per_day";
    "stress_level"; "workload_score"; "work_life_balance"; "team_size";
    "remote_work_percentage"; "overtime_hours"; "deadline_pressure" ].

Definition _generate_target (L : Lib.t) (X : matrix) : result (list Z) :=
  for_each (target_of_row L) X.

Definition _generate_dummy_data (L : Lib.t) : result (matrix * list Z) :=
  let n_samples := 1000%nat in
  let X := Lib.random_rand L 42 n_samples 10 in
  y ← for_each (target_of_row L) X;
  Ok (X, y).

(** The [try] block of [_load_training_data]. *)
Definition load_training_body (L : Lib.t) (dataset_path : string)
  : result (matrix * list Z) :=
  if negb (Lib.path_exists L dataset_path) then _generate_dummy_data L
  else
    df ← (if endswith dataset_path ".csv" then Lib.read_csv L dataset_path
          else if endswith dataset_path ".json" then Lib.read_json L dataset_path
          else Raise (ValueError ("Unsupported file format: " ++ dataset_path)));
    X ← Lib.select_fillna_values L df feature_columns;
    y ← (if Lib.has_column L df "burnout_risk"
         then Lib.column_values L df "burnout_risk"
         else _generate_target L X);
    Ok (X, y).

(** [except Exception]: log, then fall back to the dummy data. *)
Definition _load_training_data (L : Lib.t) (dataset_path : string)
  : result (matrix * list Z) :=
  try_except (load_training_body L dataset_path)
             (fun e => _generate_dummy_data L).

(** [hyperparameters.get(key, default)] *)
Definition get_default (d : gmap string pyval) (key : string) (v : pyval) : pyval :=
  default v (d !! key).

(** [min_samples_split] and [min_samples_leaf] of the baseline are
    scikit-learn's own defaults, 2 and 1. *)
Definition _create_model (model_type : string) (hyperparameters : gmap string pyval)
  : result forest :=
  if String.eqb model_type "baseline" then
    Ok {| n_estimators := get_default hyperparameters "n_estimators" (PInt 100);
          max_depth := get_default hyperparameters "max_depth" (PInt 10);
          min_samples_split := PInt 2;
          min_samples_leaf := PInt 1;
          random_state := 42 |}
  else if String.eqb model_type "advanced" then
    Ok {| n_estimators := get_default hyperparameters "n_estimators" (PInt 200);
          max_depth := get_default hyperparameters "max_depth" (PInt 15);
          min_samples_split := get_default hyperparameters "min_samples_split" (PInt 5);
          min_samples_leaf := get_default hyperparameters "min_samples_leaf" (PInt 2);
          random_state := 42 |}
  else Raise (ValueError ("Unknown model type: " ++ model_type)).

Definition _calculate_metrics (E : Env) (y_true y_pred : list Z)
  : result (gmap string Q) :=
  a ← accuracy_score E y_true y_pred;
  p ← precision_score E y_true y_pred;
  r ← recall_score E y_true y_pred;
  f ← f1_score E y_true y_pred;
  Ok (<["f1_score" := f]> (<["recall" := r]> (<["precision" := p]>
        (<["accuracy" := a]> (∅ : gmap string Q))))).

(** [training_id[:8]] *)
Definition prefix8 (training_id : string) : string := substring 0 8 training_id.

Open Scope task_scope.

(** The branch [if job["model_type"] == "comprehensive"]. *)
Definition comprehensive_branch (E : Env) (training_id : string)
    (user_ids : list string) : M unit :=
  training_results <- lift (train_comprehensive_model E user_ids 30 true) ;;
  stage training_id "completed" 100 ;;;
  update training_id (with_results training_results) ;;;
  update training_id (with_model_version
    ("comprehensive_" ++ prefix8 training_id ++ "_" ++ strftime E (utcnow_version E))) ;;;
  update training_id (with_end_time (utcnow_end E)) ;;;
  match training_results with
  | ResultsNotMapping ty =>
      raise (AttributeError ("'" ++ ty ++ "' object has no attribute 'get'"))
  | ResultsMapping BestAbsent => ret tt
  | ResultsMapping (BestNotMapping ty) =>
      raise (AttributeError ("'" ++ ty ++ "' object has no attribute 'get'"))
  | ResultsMapping (BestMapping m) =>
      update training_id (with_metrics (default ∅ m))
  end.

(** The [else] branch: the legacy training. *)
Definition legacy_branch (E : Env) (training_id : string) : M unit :=
  stage training_id "loading_data" 20 ;;;
  job <- get_job training_id ;;
  d <- lift (_load_training_data (lib E) (dataset_path job)) ;;
  let '(X, y) := d in
  stage training_id "preprocessing" 40 ;;;
  sp <- lift (train_test_split E X y) ;;
  let '(X_train, X_test, y_train, y_test) := sp in
  stage training_id "training" 60 ;;;
  job <- get_job training_id ;;
  model <- lift (_create_model (model_type job) (hyperparameters job)) ;;
  model <- lift (fit E model X_train y_train) ;;
  stage training_id "evaluating" 80 ;;;
  y_pred <- lift (fitted_predict E model X_test) ;;
  metrics <- lift (_calculate_metrics E y_test y_pred) ;;
  update training_id (with_metrics metrics) ;;;
  stage training_id "saving" 90 ;;;
  let model_version :=
    "legacy_" ++ prefix8 training_id ++ "_" ++ strftime E (utcnow_version E) in
  let model_path := path_join models_dir (model_version ++ ".joblib") in
  lift (joblib_dump E model model_path) ;;;
  stage training_id "completed" 100 ;;;
  update training_id (with_model_version model_version) ;;;
  update training_id (with_end_time (utcnow_end E)).

(** The [try] block of [_train_model]. *)
Definition train_body (E : Env) (training_id : string) : M unit :=
  job <- get_job training_id ;;
  stage training_id "initializing" 5 ;;;
  lift (pipeline_initialize E) ;;;
  stage training_id "loading_data" 10 ;;;
  job <- get_job training_id ;;
  user_ids <- lift (_get_training_user_ids (dataset_path job)) ;;
  stage training_id "feature_engineering" 30 ;;;
  job <- get_job training_id ;;
  if String.eqb (model_type job) "comprehensive"
  then comprehensive_branch E training_id user_ids
  else legacy_branch E training_id.

(** [except Exception as e]: the job is marked failed, nothing is
    re-raised unless the table has lost the job. *)
Definition train_handler (training_id : string) (e : exn) : M unit :=
  _ <- get_job training_id ;;
  set_status training_id "failed" ;;;
  update training_id (with_error (exn_str e)).

Definition _train_model (E : Env) (training_id : string) : M unit :=
  try_ (train_body E training_id) (train_handler training_id).

(** [start_training], up to the creation of the background task; the
    argument [training_id] is [str(uuid.uuid4())]. *)
Definition start_training (training_id : string) (now : Z)
    (dataset_path model_type : string)
    (hyperparameters : option (gmap string pyval)) : M string := fun s =>
  let job :=
    {| status := "started"; model_type := model_type;
       dataset_path := dataset_path;
       hyperparameters := default ∅ hyperparameters;
       start_time := now; progress := 0; metrics := ∅;
       training_results := None; model_version := None; end_time := None;
       error := None |} in
  (Ok training_id,
   {| training_jobs := <[training_id := job]> (training_jobs s);
      status_writes := status_writes s ++ [(training_id, "started")] |}).

(** A job from its creation to the end of its background task. *)
Definition run_job (E : Env) (training_id : string) (now : Z)
    (dataset_path model_type : string)
    (hyperparameters : option (gmap string pyval)) : M unit :=
  id <- start_training training_id now dataset_path model_type hyperparameters ;;
  _train_model E id.

Close Scope task_scope.

(** The values written to the status of one job, oldest first. *)
Definition statuses_of (training_id : string) (s : t) : list string :=
  map snd (filter (fun w => String.eqb (fst w) training_id) (status_writes s)).

Definition init : t := {| training_jobs := ∅; status_writes := [] |}.

(** A task that leaves every status already written in place and only
    adds to the record. *)
Definition only_appends {A} (m : M A) : Prop :=
  ∀ s, ∃ w, status_writes (m s).2 = (status_writes s ++ w)%list.

(** [runs training_id m j Q]: from every state whose table holds [j]
    under [training_id], the task [m] ends with a result [r] in a state
    whose table differs from the first one at most under [training_id],
    where it holds a job [j'], and [Q r j'] holds. *)
Definition runs {A} (training_id : string) (m : M A) (j : Job)
    (Q : result A → Job → Prop) : Prop :=
  ∀ J W, ∃ r j' W',
    m {| training_jobs := <[training_id := j]> J; status_writes := W |}
    = (r, {| training_jobs := <[training_id := j']> J; status_writes := W' |})
    ∧ Q r j'.

(** What a finished task leaves of the job [j] it was given: the
    request is as it was, and the job is either completed, at 100 with a
    model version and an end time, or failed with an error message. *)
Definition settled (j j' : Job) : Prop :=
  model_type j' = model_type j
  ∧ dataset_path j' = dataset_path j
  ∧ hyperparameters j' = hyperparameters j
  ∧ start_time j' = start_time j
  ∧ ((status j' = "completed" ∧ progress j' = 100%Z
      ∧ is_Some (model_version j') ∧ is_Some (end_time j')
      ∧ error j' = error j)
     ∨ (status j' = "failed" ∧ is_Some (error j'))).

(** What [get_training_status] returns. *)
Record status_view : Type := {
  view_training_id : string;
  view_status : string;
  view_progress : Z;
  view_model_type : string;
  view_start_time : Z;
  view_end_time : option Z;
  view_metrics : gmap string Q;
  view_model_version : option string;
  view_error : option string
}.

Definition get_training_status (training_id : string) : M status_view := fun s =>
  match training_jobs s !! training_id with
  | None =>
      (Raise (ValueError ("Training job " ++ training_id ++ " not found")), s)
  | Some job =>
      (Ok {| view_training_id := training_id;
             view_status := status job;
             view_progress := progress job;
             view_model_type := model_type job;
             view_start_time := start_time job;
             view_end_time := end_time job;
             view_metrics := metrics job;
             view_model_version := model_version job;
             view_error := error job |}, s)
  end.

(** [self.training_jobs.clear()] *)
Definition cleanup : M unit := fun s =>
  (Ok tt, {| training_jobs := ∅; status_writes := status_writes s |}).

End TrainingService.

(** ** evaluate.py *)

(** scikit-learn's [confusion_matrix(y_true, y_pred)]: rows and columns
    are the labels that occur in either list, in increasing order; the
    entry [(i, j)] counts the samples whose true label is the [i]-th and
    whose prediction is the [j]-th. Lists of different lengths are
    refused, and so is the absence of any sample; the texts of the two
    errors are scikit-learn's and play no part below. *)
Module Sklearn.

Fixpoint insert_label (x : Z) (l : list Z) : list Z :=
  match l with
  | [] => [x]
  | y :: l' =>
      if (x <? y)%Z then x :: l
      else if (x =? y)%Z then l
      else y :: insert_label x l'
  end.

Definition unique_labels (ys : list Z) : list Z :=
  fold_right insert_label [] ys.

Fixpoint zip_labels (y_true y_pred : list Z) : list (Z * Z) :=
  match y_true, y_pred with
  | t :: ts, p :: ps => (t, p) :: zip_labels ts ps
  | _, _ => []
  end.

Fixpoint count_pair (t p : Z) (samples : list (Z * Z)) : Z :=
  match samples with
  | [] => 0
  | (a, b) :: rest =>
      (if (a =? t)%Z && (b =? p)%Z then 1 else 0) + count_pair t p rest
  end%Z.

Definition confusion_matrix (y_true y_pred : list Z) : result (list (list Z)) :=
  if negb (length y_true =? length y_pred)%nat then
    Raise (ValueError "Found input variables with inconsistent numbers of samples")
  else if (length y_true =? 0)%nat then
    Raise (ValueError "Found empty input array while a minimum of 1 is required")
  else
    let labels := unique_labels (y_true ++ y_pred) in
    let samples := zip_labels y_true y_pred in
    Ok (map (fun t => map (fun p => count_pair t p samples) labels) labels).

(** [cm.ravel()] and [cm.size] *)
Definition ravel (cm : list (list Z)) : list Z := concat cm.
Definition size (cm : list (list Z)) : nat := length (ravel cm).

End Sklearn.

Module EvaluationService.

(** What the service asks of the object [joblib.load] returns;
    [predict_proba] is [None] when [hasattr(model, 'predict_proba')] is
    false. *)
Record Classifier : Type := {
  class_name : string;
  predict : matrix → result (list Z);
  predict_proba : option (matrix → result (list (Q * Q)))
}.

Record business_metrics : Type := {
  true_positive_rate : Q;
  false_positive_rate : Q;
  precision : Q;
  total_cost : Z;
  cost_per_prediction : Q;
  (** high, medium and low risk counts *)
  risk_distribution : option (Z * Z * Z);
  high_risk_percentage : option Q;
  avg_confidence_positive : option Q;
  avg_confidence_negative : option Q
}.

Record summary : Type := {
  target_recall_met : bool;
  recall_gap : Q;
  performance_grade : string;
  recommendation : string;
  strengths : list string;
  weaknesses : list string
}.

Record Evaluation : Type := {
  evaluation_id : string;
  model_version : string;
  evaluation_date : Z;
  test_samples : nat;
  model_type : string;
  target_recall : Q;
  metrics : gmap string pyval;
  business : business_metrics;
  shap_analysis : option (gmap string pyval);
  evaluation_summary : summary
}.

(** The collaborators of an evaluation. *)
Record Env : Type := {
  lib : Lib.t;
  (** [str(uuid.uuid4())], [datetime.utcnow()] *)
  uuid4 : string;
  utcnow : Z;
  (** [joblib.load(model_path)] *)
  joblib_load : string → result Classifier;
  (** [await self.comprehensive_evaluator.evaluate_model(...)] *)
  evaluate_model : Classifier → matrix → list Z → list Z →
                   option (list (Q * Q)) → Q → result (gmap string pyval);
  (** [await self.shap_analyzer.analyze_model(...)] *)
  analyze_model : Classifier → matrix → list string → result (gmap string pyval);
  (** [f"{x:.3f}"] and [f"{x}"] for a float *)
  format_3f : Q → string;
  format_float : Q → string
}.

Record t : Type := {
  evaluation_jobs : gmap string Evaluation
}.

Definition models_dir : string := "models".
Definition path_join (a b : string) : string := os_path_join a b.

Definition _get_feature_names : list string :=
  [ "work_hours_per_week"; "meeting_hours_per_week"; "email_count_per_day";
    "stress_level"; "workload_score"; "work_life_balance"; "team_size";
    "remote_work_percentage"; "overtime_hours"; "deadline_pressure" ].

(** [a / b] for two numpy integers, as a float. *)
Definition ratio (a b : Z) : Q := (inject_Z a / inject_Z b)%Q.

Definition count_if {A} (f : A → bool) (l : list A) : Z :=
  Z.of_nat (length (List.filter f l)).

Definition Qsum (l : list Q) : Q := fold_right Qplus 0%Q l.

(** [float(np.mean(l))] for a non-empty [l]. *)
Definition mean (l : list Q) : Q := (Qsum l / inject_Z (Z.of_nat (length l)))%Q.

(** [y_pred_proba[y_pred == label, col]]: a boolean mask needs as many
    entries as the matrix has rows. *)
Fixpoint masked (y_pred : list Z) (proba : list (Q * Q)) (label : Z)
    (col : Q * Q → Q) : result (list Q) :=
  match y_pred, proba with
  | [], [] => Ok []
  | y :: ys, p :: ps =>
      rest ← masked ys ps label col;
      Ok (if (y =? label)%Z then col p :: rest else rest)
  | _, _ => Raise (IndexError "boolean index did not match indexed array")
  end.

(** [cm.ravel() if cm.size == 4 else (0, 0, 0, 0)], unpacked into
    [tn, fp, fn, tp]. *)
Definition unpack (cm : list (list Z)) : Z * Z * Z * Z :=
  if (Sklearn.size cm =? 4)%nat then
    match Sklearn.ravel cm with
    | [a; b; c; d] => (a, b, c, d)
    | _ => (0, 0, 0, 0)%Z
    end
  else (0, 0, 0, 0)%Z.

Definition _calculate_business_metrics (y_true y_pred : list Z)
    (y_pred_proba : option (list (Q * Q))) : result business_metrics :=
  cm ← Sklearn.confusion_matrix y_true y_pred;
  let '(tn, fp, fn, tp) := unpack cm in
  let true_positive_rate := if (0 <? tp + fn)%Z then ratio tp (tp + fn) else 0%Q in
  let false_positive_rate := if (0 <? fp + tn)%Z then ratio fp (fp + tn) else 0%Q in
  let precision := if (0 <? tp + fp)%Z then ratio tp (tp + fp) else 0%Q in
  let cost_false_negative := 100%Z in
  let cost_false_positive := 10%Z in
  let total_cost := (fn * cost_false_negative + fp * cost_false_positive)%Z in
  let len := Z.of_nat (length y_true) in
  let cost_per_prediction := if (0 <? len)%Z then ratio total_cost len else 0%Q in
  match y_pred_proba with
  | None =>
      Ok {| true_positive_rate := true_positive_rate;
            false_positive_rate := false_positive_rate;
            precision := precision;
            total_cost := total_cost;
            cost_per_prediction := cost_per_prediction;
            risk_distribution := None;
            high_risk_percentage := None;
            avg_confidence_positive := None;
            avg_confidence_negative := None |}
  | Some proba =>
      let high_risk_threshold := (7 # 10)%Q in
      let medium_risk_threshold := (4 # 10)%Q in
      let high_risk_count :=
        count_if (fun p => Qle_bool high_risk_threshold (snd p)) proba in
      let medium_risk_count :=
        count_if (fun p => Qle_bool medium_risk_threshold (snd p)
                           && Qltb (snd p) high_risk_threshold) proba in
      let low_risk_count :=
        count_if (fun p => Qltb (snd p) medium_risk_threshold) proba in
      let high_risk_percentage :=
        if (0 <? len)%Z then (ratio high_risk_count len * 100)%Q else 0%Q in
      positive_predictions ← masked y_pred proba 1 snd;
      negative_predictions ← masked y_pred proba 0 fst;
      Ok {| true_positive_rate := true_positive_rate;
            false_positive_rate := false_positive_rate;
            precision := precision;
            total_cost := total_cost;
            cost_per_prediction := cost_per_prediction;
            risk_distribution :=
              Some (high_risk_count, medium_risk_count, low_risk_count);
            high_risk_percentage := Some high_risk_percentage;
            avg_confidence_positive :=
              Some (if (0 <? length positive_predictions)%nat
                    then mean positive_predictions else 0%Q);
            avg_confidence_negative :=
              Some (if (0 <? length negative_predictions)%nat
                    then mean negative_predictions else 0%Q) |}
  end.

(** The number behind a metric that is compared with a float: the
    evaluator's metrics are Python numbers, and a metric of any other
    type is taken not to compare. *)
Definition number (op : string) (v : pyval) : result Q :=
  match as_number v with
  | Some q => Ok q
  | None => Raise (cmp_error op v "float")
  end.

Definition _generate_evaluation_summary (E : Env) (metrics : gmap string pyval)
    (target_recall : Q) : result summary :=
  recall ← number ">=" (default (PFloat 0) (metrics !! "recall"));
  let target_recall_met := Qle_bool target_recall recall in
  let recall_gap :=
    if Qltb recall target_recall then (target_recall - recall)%Q else 0%Q in
  accuracy ← number ">=" (default (PFloat 0) (metrics !! "accuracy"));
  let '(performance_grade, recommendation) :=
    if Qle_bool (9 # 10) accuracy && Qle_bool target_recall recall then
      ("A", "Model ready for production")
    else if Qle_bool (8 # 10) accuracy
            && Qle_bool (target_recall * (9 # 10)) recall then
      ("B", "Model acceptable with monitoring")
    else if Qle_bool (7 # 10) accuracy then
      ("C", "Model needs improvement")
    else
      ("D", "Model not suitable for production") in
  let strengths : list string := [] in
  let weaknesses : list string := [] in
  let '(strengths, weaknesses) :=
    if Qle_bool target_recall recall then
      (append strengths "Meets recall target", weaknesses)
    else
      (strengths,
       append weaknesses ("Below recall target (" ++ format_3f E recall ++ " < "
                          ++ format_float E target_recall ++ ")")) in
  let '(strengths, weaknesses) :=
    if Qle_bool (85 # 100) accuracy then
      (append strengths "High accuracy", weaknesses)
    else if Qltb accuracy (7 # 10) then
      (strengths, append weaknesses "Low accuracy")
    else (strengths, weaknesses) in
  f1 ← number ">=" (default (PFloat 0) (metrics !! "f1_score"));
  let '(strengths, weaknesses) :=
    if Qle_bool (8 # 10) f1 then
      (append strengths "Good F1 score", weaknesses)
    else if Qltb f1 (6 # 10) then
      (strengths, append weaknesses "Poor F1 score")
    else (strengths, weaknesses) in
  Ok {| target_recall_met := target_recall_met;
        recall_gap := recall_gap;
        performance_grade := performance_grade;
        recommendation := recommendation;
        strengths := strengths;
        weaknesses := weaknesses |}.

Definition feature_columns : list string :=
  [ "work_hours_per_week"; "meeting_hours_per_week"; "email_count_per_day";
    "stress_level"; "workload_score"; "work_life_balance"; "team_size";
    "remote_work_percentage"; "overtime_hours"; "deadline_pressure" ].

Definition _generate_target (L : Lib.t) (X : matrix) : result (list Z) :=
  for_each (target_of_row L) X.

Definition _generate_dummy_test_data (L : Lib.t) : result (matrix * list Z) :=
  let n_samples := 200%nat in
  let X := Lib.random_rand L 123 n_samples 10 in
  y ← for_each (target_of_row L) X;
  Ok (X, y).

(** The [try] block of [_load_test_data]. *)
Definition load_test_body (L : Lib.t) (test_dataset_path : string)
  : result (matrix * list Z) :=
  if negb (Lib.path_exists L test_dataset_path) then _generate_dummy_test_data L
  else
    df ← (if endswith test_dataset_path ".csv" then Lib.read_csv L test_dataset_path
          else if endswith test_dataset_path ".json"
               then Lib.read_json L test_dataset_path
          else Raise (ValueError ("Unsupported file format: " ++ test_dataset_path)));
    X ← Lib.select_fillna_values L df feature_columns;
    y ← (if Lib.has_column L df "burnout_risk"
         then Lib.column_values L df "burnout_risk"
         else _generate_target L X);
    Ok (X, y).

(** [except Exception]: log, then fall back to the dummy data. *)
Definition _load_test_data (L : Lib.t) (test_dataset_path : string)
  : result (matrix * list Z) :=
  try_except (load_test_body L test_dataset_path)
             (fun e => _generate_dummy_test_data L).

Open Scope task_scope.

(** The [try] block of [evaluate]. *)
Definition evaluate_body (E : Env) (model_version test_dataset_path : string)
    (include_shap : bool) (target_recall : Q) : task t Evaluation :=
  let evaluation_id := uuid4 E in
  let model_path := path_join models_dir (model_version ++ ".joblib") in
  if negb (Lib.path_exists (lib E) model_path) then
    raise (ValueError ("Model " ++ model_version ++ " not found"))
  else
    model <- lift (joblib_load E model_path) ;;
    d <- lift (_load_test_data (lib E) test_dataset_path) ;;
    let '(X_test, y_test) := d in
    y_pred <- lift (predict model X_test) ;;
    y_pred_proba <- lift (match predict_proba model with
                          | Some f => p ← f X_test; Ok (Some p)
                          | None => Ok None
                          end) ;;
    comprehensive_metrics <-
      lift (evaluate_model E model X_test y_test y_pred y_pred_proba target_recall) ;;
    let shap_results :=
      if include_shap && bool_decide (is_Some (predict_proba model)) then
        Some (match analyze_model E model X_test _get_feature_names with
              | Ok r => r
              | Raise e => {[ "error" := PStr (exn_str e) ]}
              end)
      else None in
    business_metrics <-
      lift (_calculate_business_metrics y_test y_pred y_pred_proba) ;;
    evaluation_summary <-
      lift (_generate_evaluation_summary E comprehensive_metrics target_recall) ;;
    let evaluation :=
      {| evaluation_id := evaluation_id;
         model_version := model_version;
         evaluation_date := utcnow E;
         test_samples := length X_test;
         model_type := class_name model;
         target_recall := target_recall;
         metrics := comprehensive_metrics;
         business := business_metrics;
         shap_analysis := shap_results;
         evaluation_summary := evaluation_summary |} in
    (fun s => (Ok tt,
       {| evaluation_jobs := <[evaluation_id := evaluation]> (evaluation_jobs s) |})) ;;;
    ret evaluation.

(** The [except Exception] clause logs and re-raises. *)
Definition evaluate (E : Env) (model_version test_dataset_path : string)
    (include_shap : bool) (target_recall : Q) : task t Evaluation :=
  try_ (evaluate_body E model_version test_dataset_path include_shap target_recall)
       (fun e => raise e).

Definition get_evaluation (evaluation_id : string) : task t Evaluation := fun s =>
  match evaluation_jobs s !! evaluation_id with
  | Some evaluation => (Ok evaluation, s)
  | None => (Raise (ValueError ("Evaluation " ++ evaluation_id ++ " not found")), s)
  end.

(** [d[key]] on a stored metrics dictionary. *)
Definition getitem (d : gmap string pyval) (key : string) : result pyval :=
  match d !! key with
  | Some v => Ok v
  | None => Raise (KeyError key)
  end.

Record listing : Type := {
  listed_id : string;
  listed_model_version : string;
  listed_date : Z;
  listed_accuracy : pyval;
  listed_performance_level : pyval
}.

(** One round of the loop of [list_evaluations]. *)
Definition list_entry (entry : string * Evaluation) : result listing :=
  let '(eval_id, evaluation) := entry in
  a ← getitem (metrics evaluation) "accuracy";
  l ← getitem (metrics evaluation) "performance_level";
  Ok {| listed_id := eval_id;
        listed_model_version := model_version evaluation;
        listed_date := evaluation_date evaluation;
        listed_accuracy := a;
        listed_performance_level := l |}.

(** [list_evaluations]. Python walks the dictionary in insertion order,
    [map_to_list] in the order of the keys: the entries are the same, their
    order in the answer is not modelled. *)
Definition list_evaluations : task t (list listing) := fun s =>
  (for_each list_entry (map_to_list (evaluation_jobs s)), s).

(** [self.evaluation_jobs.clear()] *)
Definition cleanup : task t unit := fun s =>
  (Ok tt, {| evaluation_jobs := ∅ |}).

Close Scope task_scope.

End EvaluationService.

(** ** predict.py, continued: the registry of loaded models *)

(** [s.replace(old, "")] for a non-empty [old]: the occurrences of [old]
    are removed from left to right, without overlap. [skip] counts the
    characters of an occurrence still to drop. *)
Fixpoint remove_from (old : string) (skip : nat) (s : string) : string :=
  match s with
  | EmptyString => EmptyString
  | String c s' =>
      match skip with
      | S k => remove_from old k s'
      | O =>
          if String.prefix old s
          then remove_from old (String.length old - 1) s'
          else String c (remove_from old 0 s')
      end
  end.

Definition remove_all (old s : string) : string := remove_from old 0 s.

Module PredictionServiceRegistry.

(** What the registry asks of the machine. [dummy] is the instance of
    [DummyModel], whose answers are random draws. *)
Record Env : Type := {
  (** [os.makedirs(self.models_dir, exist_ok=True)] *)
  makedirs : string → result unit;
  (** [os.path.exists], [os.listdir] *)
  path_exists : string → bool;
  listdir : string → result (list string);
  (** [joblib.load(model_path)] *)
  joblib_load : string → result Model.t;
  dummy : Model.t;
  (** [datetime.utcnow().isoformat()] *)
  utcnow_isoformat : string
}.

Abbreviation t := PredictionService.t.
Abbreviation M := (task PredictionService.t).

Definition models_dir : string := "models".
Definition path_join (a b : string) : string := os_path_join a b.

(** [self.models[model_version] = model;
     self.model_versions.append(model_version)] *)
Definition register (model_version : string) (model : Model.t) : M unit := fun s =>
  (Ok tt,
   {| PredictionService.models :=
        <[model_version := model]> (PredictionService.models s);
      PredictionService.model_versions :=
        append (PredictionService.model_versions s) model_version |}).

Definition _create_dummy_model (E : Env) : M unit := register "dummy" (dummy E).

Open Scope task_scope.

(** One round of the loop over [os.listdir(self.models_dir)]: a file
    that does not load is logged and skipped. *)
Definition load_file (E : Env) (filename : string) : M unit :=
  if endswith filename ".joblib" then
    let model_path := path_join models_dir filename in
    let model_version := remove_all ".joblib" filename in
    try_ (model <- lift (joblib_load E model_path) ;;
          register model_version model)
         (fun e => ret tt)
  else ret tt.

Fixpoint load_files (E : Env) (filenames : list string) : M unit :=
  match filenames with
  | [] => ret tt
  | filename :: rest => load_file E filename ;;; load_files E rest
  end.

(** [not self.models] *)
Definition no_models (s : t) : bool :=
  match map_to_list (PredictionService.models s) with
  | [] => true
  | _ :: _ => false
  end.

Definition _load_models (E : Env) : M unit :=
  try_ ((if path_exists E models_dir
         then filenames <- lift (listdir E models_dir) ;; load_files E filenames
         else ret tt) ;;;
        (fun s => if no_models s then _create_dummy_model E s else (Ok tt, s)))
       (fun e => _create_dummy_model E).

Definition initialize (E : Env) : M unit :=
  lift (makedirs E models_dir) ;;; _load_models E.

Record model_entry : Type := {
  version : string;
  entry_status : string;
  created_at : string
}.

Definition list_models (E : Env) : M (list model_entry) := fun s =>
  (Ok (map (fun version =>
              {| version := version; entry_status := "available";
                 created_at := utcnow_isoformat E |})
           (PredictionService.model_versions s)), s).

Record model_info : Type := {
  info_version : string;
  info_status : string;
  info_type : string;
  info_created_at : string;
  performance_metrics : gmap string Q
}.

Definition get_model_info (E : Env) (model_version : string) : M model_info := fun s =>
  match PredictionService.models s !! model_version with
  | None => (Raise (ValueError ("Model version " ++ model_version ++ " not found")), s)
  | Some _ =>
      (Ok {| info_version := model_version;
             info_status := "available";
             info_type := "burnout_risk_classifier";
             info_created_at := utcnow_isoformat E;
             performance_metrics :=
               <["f1_score" := (80 # 100)%Q]> (<["recall" := (78 # 100)%Q]>
                 (<["precision" := (82 # 100)%Q]>
                    (<["accuracy" := (85 # 100)%Q]> (∅ : gmap string Q)))) |}, s)
  end.

(** [self.models.clear(); self.model_versions.clear()] *)
Definition cleanup : M unit := fun s =>
  (Ok tt, {| PredictionService.models := ∅;
             PredictionService.model_versions := [] |}).

(** The state [__init__] builds. *)
Definition fresh : t :=
  {| PredictionService.models := ∅; PredictionService.model_versions := [] |}.

Close Scope task_scope.

End PredictionServiceRegistry.

(** ** Concrete objects used in the examples *)

Module Examples.

(** A fitted classifier as scikit-learn's forests behave: the predicted
    label is the class of largest probability. Here every sample gets
    the probabilities (0.45, 0.55), hence the label 1. *)
Definition leaning_positive : Model.t :=
  {| Model.predict := fun X => Ok (map (fun _ => 1%Q) X);
     Model.predict_proba := fun X => Ok (map (fun _ => (45 # 100, 55 # 100)%Q) X) |}.

(** A prediction service that has loaded this model from
    [models/legacy_0a1b2c3d_20240101_000000.joblib]. *)
Definition one_model_service : PredictionService.t :=
  {| PredictionService.models :=
       {[ "legacy_0a1b2c3d_20240101_000000" := leaning_positive ]};
     PredictionService.model_versions := ["legacy_0a1b2c3d_20240101_000000"] |}.

(** A scaler and a forest fitted on ten columns, as scikit-learn checks
    a matrix: at least one row, ten entries per row. *)
Definition ten_columns {A} (X : matrix) (answer : A)
  : BurnoutPredictionModel.checked A :=
  match X with
  | [] => BurnoutPredictionModel.Rejected
            "Found array with 0 sample(s) while a minimum of 1 is required"
  | _ =>
      if forallb (fun row => (length row =? 10)%nat) X
      then BurnoutPredictionModel.Accepted answer
      else BurnoutPredictionModel.Rejected
             "X has another number of features than the estimator is expecting"
  end.

(** A trained [BurnoutPredictionModel] whose forest gives every row the
    probabilities (1 - p1, p1), and the label 1 when p1 exceeds 1/2. *)
Definition trained_answering (p1 : Q) : BurnoutPredictionModel.t :=
  {| BurnoutPredictionModel.is_trained := true;
     BurnoutPredictionModel.names := BurnoutPredictionModel.feature_names;
     BurnoutPredictionModel.scaler_transform := fun X => ten_columns X X;
     BurnoutPredictionModel.model_predict := fun X =>
       ten_columns X (map (fun _ => if Qltb (1 # 2) p1 then 1%Z else 0%Z) X);
     BurnoutPredictionModel.model_predict_proba := fun X =>
       ten_columns X (map (fun _ => ((1 - p1)%Q, p1)) X) |}.

(** A trained [BurnoutPredictionModel] whose forest answers (0.3, 0.7). *)
Definition trained_model : BurnoutPredictionModel.t :=
  {| BurnoutPredictionModel.is_trained := true;
     BurnoutPredictionModel.names := BurnoutPredictionModel.feature_names;
     BurnoutPredictionModel.scaler_transform := fun X => ten_columns X X;
     BurnoutPredictionModel.model_predict := fun X =>
       ten_columns X (map (fun _ => 1%Z) X);
     BurnoutPredictionModel.model_predict_proba := fun X =>
       ten_columns X (map (fun _ => (3 # 10, 7 # 10)%Q) X) |}.

(** The low-risk employee of [train_and_evaluate_model]. *)
Definition low_risk_features : gmap string Q :=
  list_to_map
    [ ("work_hours_per_week", 40%Q); ("meeting_hours_per_week", 10%Q);
      ("email_count_per_day", 20%Q); ("stress_level", 4%Q);
      ("workload_score", 5%Q); ("work_life_balance", 8%Q);
      ("overtime_hours", 0%Q); ("deadline_pressure", 3%Q);
      ("team_size", 6%Q); ("remote_work_percentage", 80%Q) ].

(** A request that reports long hours and nothing else. *)
Definition long_hours : gmap string pyval :=
  {[ "work_hours_per_week" := PInt 60 ]}.

(** A machine whose only file is a spreadsheet, whose random generator
    draws 1/2 every time, and whose float products and sums happen to
    be exact. *)
Definition spreadsheet_only : Lib.t :=
  {| Lib.DataFrame := unit;
     Lib.path_exists := fun p => String.eqb p "data/burnout.xlsx";
     Lib.read_csv := fun _ => Raise (OtherError "No such file or directory");
     Lib.read_json := fun _ => Raise (OtherError "File does not exist");
     Lib.select_fillna_values := fun _ _ => Ok [];
     Lib.has_column := fun _ _ => false;
     Lib.column_values := fun _ _ => Ok [];
     Lib.uniform := fun _ _ _ => (1 # 2)%Q;
     Lib.fl_mul := Qmult;
     Lib.fl_add := Qplus |}.

(** Collaborators of a training task that all succeed. *)
Definition smooth : TrainingService.Env :=
  {| TrainingService.lib := spreadsheet_only;
     TrainingService.Fitted := unit;
     TrainingService.pipeline_initialize := Ok tt;
     TrainingService.train_comprehensive_model := fun _ _ _ =>
       Ok (TrainingService.ResultsMapping
             (TrainingService.BestMapping (Some {[ "accuracy" := (9 # 10)%Q ]})));
     TrainingService.train_test_split := fun X y =>
       Ok (take 800 X, drop 800 X, take 800 y, drop 800 y);
     TrainingService.fit := fun _ _ _ => Ok tt;
     TrainingService.fitted_predict := fun _ X => Ok (map (fun _ => 0%Z) X);
     TrainingService.accuracy_score := fun _ _ => Ok 1%Q;
     TrainingService.precision_score := fun _ _ => Ok 1%Q;
     TrainingService.recall_score := fun _ _ => Ok 1%Q;
     TrainingService.f1_score := fun _ _ => Ok 1%Q;
     TrainingService.joblib_dump := fun _ _ => Ok tt;
     TrainingService.utcnow_version := 1704067200;
     TrainingService.utcnow_end := 1704067201;
     TrainingService.strftime := fun _ => "20240101_000000" |}.

(** The same, with a comprehensive pipeline that hands back [None]. *)
Definition pipeline_returns_none : TrainingService.Env :=
  {| TrainingService.lib := spreadsheet_only;
     TrainingService.Fitted := unit;
     TrainingService.pipeline_initialize := Ok tt;
     TrainingService.train_comprehensive_model := fun _ _ _ =>
       Ok (TrainingService.ResultsNotMapping "NoneType");
     TrainingService.train_test_split := fun X y =>
       Ok (take 800 X, drop 800 X, take 800 y, drop 800 y);
     TrainingService.fit := fun _ _ _ => Ok tt;
     TrainingService.fitted_predict := fun _ X => Ok (map (fun _ => 0%Z) X);
     TrainingService.accuracy_score := fun _ _ => Ok 1%Q;
     TrainingService.precision_score := fun _ _ => Ok 1%Q;
     TrainingService.recall_score := fun _ _ => Ok 1%Q;
     TrainingService.f1_score := fun _ _ => Ok 1%Q;
     TrainingService.joblib_dump := fun _ _ => Ok tt;
     TrainingService.utcnow_version := 1704067200;
     TrainingService.utcnow_end := 1704067201;
     TrainingService.strftime := fun _ => "20240101_000000" |}.

Definition job_id : string := "0a1b2c3d-1111-4222-8333-444455556666".

(** An evaluation service on that machine: the models directory holds
    no model file. *)
Definition no_model_file : EvaluationService.Env :=
  {| EvaluationService.lib := spreadsheet_only;
     EvaluationService.uuid4 := "9f8e7d6c-1111-4222-8333-444455556666";
     EvaluationService.utcnow := 1704067200;
     EvaluationService.joblib_load := fun _ =>
       Raise (OtherError "No such file or directory");
     EvaluationService.evaluate_model := fun _ _ _ _ _ _ => Ok ∅;
     EvaluationService.analyze_model := fun _ _ _ => Ok ∅;
     EvaluationService.format_3f := fun _ => "0.000";
     EvaluationService.format_float := fun _ => "0.85" |}.

(** A machine that has the model file of a legacy job and no dataset. *)
Definition one_model_machine : Lib.t :=
  {| Lib.DataFrame := unit;
     Lib.path_exists := fun p =>
       String.eqb p "models/legacy_0a1b2c3d_20240101_000000.joblib";
     Lib.read_csv := fun _ => Raise (OtherError "No such file or directory");
     Lib.read_json := fun _ => Raise (OtherError "File does not exist");
     Lib.select_fillna_values := fun _ _ => Ok [];
     Lib.has_column := fun _ _ => false;
     Lib.column_values := fun _ _ => Ok [];
     Lib.uniform := fun _ _ _ => (1 # 2)%Q;
     Lib.fl_mul := Qmult;
     Lib.fl_add := Qplus |}.

(** A classifier that answers 0 to every sample, with the
    probabilities (0.8, 0.2). *)
Definition cautious : EvaluationService.Classifier :=
  {| EvaluationService.class_name := "RandomForestClassifier";
     EvaluationService.predict := fun X => Ok (map (fun _ => 0%Z) X);
     EvaluationService.predict_proba :=
       Some (fun X => Ok (map (fun _ => (8 # 10, 2 # 10)%Q) X)) |}.

(** An evaluation on that machine; [metrics] is what the comprehensive
    evaluator hands back, and the SHAP analyzer fails. *)
Definition evaluating (metrics : gmap string pyval) : EvaluationService.Env :=
  {| EvaluationService.lib := one_model_machine;
     EvaluationService.uuid4 := "9f8e7d6c-1111-4222-8333-444455556666";
     EvaluationService.utcnow := 1704067200;
     EvaluationService.joblib_load := fun _ => Ok cautious;
     EvaluationService.evaluate_model := fun _ _ _ _ _ _ => Ok metrics;
     EvaluationService.analyze_model := fun _ _ _ =>
       Raise (OtherError "Additivity check failed");
     EvaluationService.format_3f := fun _ => "0.900";
     EvaluationService.format_float := fun _ => "0.85" |}.

(** The same evaluation on a machine whose only model file lies outside
    the models directory, at [/srv/elsewhere/m.joblib]. *)
Definition evaluating_elsewhere : EvaluationService.Env :=
  {| EvaluationService.lib :=
       {| Lib.DataFrame := unit;
          Lib.path_exists := fun p => String.eqb p "/srv/elsewhere/m.joblib";
          Lib.read_csv := fun _ => Raise (OtherError "No such file or directory");
          Lib.read_json := fun _ => Raise (OtherError "File does not exist");
          Lib.select_fillna_values := fun _ _ => Ok [];
          Lib.has_column := fun _ _ => false;
          Lib.column_values := fun _ _ => Ok [];
          Lib.uniform := fun _ _ _ => (1 # 2)%Q;
          Lib.fl_mul := Qmult;
          Lib.fl_add := Qplus |};
     EvaluationService.uuid4 := "9f8e7d6c-1111-4222-8333-444455556666";
     EvaluationService.utcnow := 1704067200;
     EvaluationService.joblib_load := fun _ => Ok cautious;
     EvaluationService.evaluate_model := fun _ _ _ _ _ _ => Ok ∅;
     EvaluationService.analyze_model := fun _ _ _ =>
       Raise (OtherError "Additivity check failed");
     EvaluationService.format_3f := fun _ => "0.000";
     EvaluationService.format_float := fun _ => "0.85" |}.

Definition full_metrics : gmap string pyval :=
  list_to_map
    [ ("accuracy", PFloat (95 # 100)); ("recall", PFloat (9 # 10));
      ("f1_score", PFloat (9 # 10)); ("performance_level", PStr "excellent") ].

Definition recall_only : gmap string pyval := {[ "recall" := PFloat (9 # 10) ]}.

(** A models directory with the file of a legacy job, a text file and a
    file that does not unpickle. *)
Definition models_directory : PredictionServiceRegistry.Env :=
  {| PredictionServiceRegistry.makedirs := fun _ => Ok tt;
     PredictionServiceRegistry.path_exists := fun _ => true;
     PredictionServiceRegistry.listdir := fun _ =>
       Ok [ "legacy_0a1b2c3d_20240101_000000.joblib"; "notes.txt";
            "broken.joblib" ];
     PredictionServiceRegistry.joblib_load := fun p =>
       if String.eqb p "models/legacy_0a1b2c3d_20240101_000000.joblib"
       then Ok leaning_positive
       else Raise (OtherError "invalid load key");
     PredictionServiceRegistry.dummy := leaning_positive;
     PredictionServiceRegistry.utcnow_isoformat := "2024-01-01T00:00:00" |}.

(** A disk that keeps what [joblib.dump] writes. *)
Definition disk_joblib : BurnoutPredictionModel.Joblib (gmap string BurnoutPredictionModel.t) :=
  {| BurnoutPredictionModel.dump := fun data path disk => Ok (<[path := data]> disk);
     BurnoutPredictionModel.load := fun path disk =>
       match disk !! path with
       | Some data => Ok data
       | None => Raise (OtherError "No such file or directory")
       end |}.

(** A model as [__init__] leaves it: nothing is fitted. *)
Definition untrained_model : BurnoutPredictionModel.t :=
  {| BurnoutPredictionModel.is_trained := false;
     BurnoutPredictionModel.names := BurnoutPredictionModel.feature_names;
     BurnoutPredictionModel.scaler_transform := fun X =>
       BurnoutPredictionModel.Rejected "This StandardScaler instance is not fitted yet";
     BurnoutPredictionModel.model_predict := fun X =>
       BurnoutPredictionModel.Rejected
         "This RandomForestClassifier instance is not fitted yet";
     BurnoutPredictionModel.model_predict_proba := fun X =>
       BurnoutPredictionModel.Rejected
         "This RandomForestClassifier instance is not fitted yet" |}.

(** A scikit-learn whose fits refuse an empty matrix, resetting the
    scaler, and otherwise succeed: the scaler fitted leaves a matrix of
    ten columns as it is, the forest fitted answers class 0 with
    probability 0.9 on every row. *)
Definition constant_fit : BurnoutPredictionModel.Sk :=
  {| BurnoutPredictionModel.fit_transform := fun scaler X =>
       match X with
       | [] =>
           (Raise (ValueError
                     "Found array with 0 sample(s) while a minimum of 1 is required"),
            fun X' => BurnoutPredictionModel.Rejected
                        "This StandardScaler instance is not fitted yet")
       | _ => (Ok X, fun X' => ten_columns X' X')
       end;
     BurnoutPredictionModel.fit := fun forest X y =>
       (Ok tt,
        (fun X' => ten_columns X' (map (fun _ => 0%Z) X'),
         fun X' => ten_columns X' (map (fun _ => (9 # 10, 1 # 10)%Q) X')));
     BurnoutPredictionModel.accuracy_score := fun y y_pred => Ok 1%Q;
     BurnoutPredictionModel.precision_score := fun y y_pred => Ok 1%Q;
     BurnoutPredictionModel.recall_score := fun y y_pred => Ok 1%Q;
     BurnoutPredictionModel.f1_score := fun y y_pred => Ok 1%Q;
     BurnoutPredictionModel.classification_report := fun y y_pred => Ok "report" |}.

(** Seven samples with three false negatives and two false positives. *)
Definition seven_true : list Z := [1; 1; 1; 0; 0; 1; 0]%Z.
Definition seven_pred : list Z := [0; 0; 0; 1; 1; 1; 0]%Z.

End Examples.

(** * Properties *)

(** ** The helpers compute as Python does *)

Example endswith_examples :
  endswith "data/train.csv" ".csv" = true
  ∧ endswith "data/train.json" ".json" = true
  ∧ endswith "csv" ".csv" = false
  ∧ endswith "data/train.csv.bak" ".csv" = false.
Proof. repeat split. Qed.

Example user_ids_examples :
  ∃ rest, TrainingService._get_training_user_ids "any"
          = Ok ("user_001" :: "user_002" :: rest)
          ∧ last rest = Some "user_050" ∧ length rest = 48%nat.
Proof. eexists. split; [reflexivity|]. split; reflexivity. Qed.

Example confusion_matrix_examples :
  Sklearn.confusion_matrix Examples.seven_true Examples.seven_pred
    = Ok [[1; 2]; [3; 1]]%Z
  ∧ Sklearn.confusion_matrix [0; 0]%Z [0; 0]%Z = Ok [[2]]%Z
  ∧ (∃ msg, Sklearn.confusion_matrix [] [] = Raise (ValueError msg))
  ∧ (∃ msg, Sklearn.confusion_matrix [1]%Z [] = Raise (ValueError msg))
  ∧ EvaluationService.unpack [[1; 2]; [3; 1]]%Z = (1, 2, 3, 1)%Z
  ∧ EvaluationService.unpack [[2]]%Z = (0, 0, 0, 0)%Z.
Proof. repeat split; by eexists. Qed.

Example os_path_join_examples :
  os_path_join "models" "legacy_0a1b2c3d.joblib" = "models/legacy_0a1b2c3d.joblib"
  ∧ os_path_join "models" "/srv/elsewhere/m.joblib" = "/srv/elsewhere/m.joblib"
  ∧ os_path_join "models/" "m.joblib" = "models/m.joblib"
  ∧ os_path_join "" "m.joblib" = "m.joblib".
Proof. repeat split. Qed.

Example float_of_int_examples :
  nearest_double (2 ^ 53 + 1) = (2 ^ 53)%Z
  ∧ nearest_double (2 ^ 53 + 3) = (2 ^ 53 + 4)%Z
  ∧ nearest_double (- (2 ^ 60 + 1)) = (- 2 ^ 60)%Z
  ∧ nearest_double (2 ^ 1024 - 2 ^ 970 - 1) = (2 ^ 1024 - 2 ^ 971)%Z
  ∧ float_overflows (2 ^ 1024 - 2 ^ 970 - 1) = false
  ∧ float_overflows (2 ^ 1024 - 2 ^ 970) = true
  ∧ float_overflows (- 10 ^ 400) = true
  ∧ py_float (PInt (10 ^ 400))
    = Raise (OverflowError "int too large to convert to float")
  ∧ py_float (PBool true) = Ok 1%Q.
Proof. repeat (split; [vm_compute; reflexivity|]). reflexivity. Qed.

Lemma nearest_double_exact (n : Z) :
  (Z.abs n < 2 ^ 53)%Z → nearest_double n = n ∧ float_overflows n = false.
Proof.
  intros H.
  assert (E : nearest_double n = n).
  { unfold nearest_double.
    destruct (Z.eq_dec (Z.abs n) 0%Z) as [Z0|NZ]; [by rewrite Z0|].
    assert (L : (Z.log2 (Z.abs n) < 53)%Z) by (apply Z.log2_lt_pow2; lia).
    destruct (Z.log2 (Z.abs n) - 52 <=? 0)%Z eqn:C; [reflexivity|].
    apply Z.leb_gt in C. lia. }
  split; [exact E|]. unfold float_overflows. rewrite E.
  apply Z.leb_gt. eapply Z.lt_trans; [exact H|]. reflexivity.
Qed.

(** ** Comparisons *)

Lemma Qltb_lt (x y : Q) : Qltb x y = true ↔ (x < y)%Q.
Proof.
  unfold Qltb. rewrite negb_true_iff. split.
  - intros H. apply Qnot_le_lt. intros Hle.
    apply Qle_bool_iff in Hle. congruence.
  - intros H. destruct (Qle_bool y x) eqn:E; [|reflexivity].
    apply Qle_bool_iff in E. exfalso. exact (Qlt_not_le _ _ H E).
Qed.

Lemma Qltb_ge (x y : Q) : Qltb x y = false ↔ (y <= x)%Q.
Proof.
  unfold Qltb. rewrite negb_false_iff. apply Qle_bool_iff.
Qed.

(** ** The feature contract *)

Import PredictionService.

Lemma prepare_step_cases (features : gmap string pyval) (acc : list Q)
    (name : string) :
  prepare_step features acc name =
  match features !! name with
  | Some (PInt z) =>
      if float_overflows z
      then Raise (OverflowError "int too large to convert to float")
      else Ok (acc ++ [inject_Z (nearest_double z)])%list
  | Some (PBool b) => Ok (acc ++ [if b then 1%Q else 0%Q])%list
  | Some (PFloat q) => Ok (acc ++ [q])%list
  | Some PNone | Some (PStr _) | Some (PObj _ _) | None => Ok (acc ++ [0%Q])%list
  end.
Proof.
  unfold prepare_step, append.
  destruct (features !! name) as [[| | z | | |]|]; simpl; try reflexivity.
  by destruct (float_overflows z).
Qed.

Lemma prepare_loop_in_range (features : gmap string pyval) (fs : list string)
    (acc : list Q) :
  (∀ name z, name ∈ fs → features !! name = Some (PInt z) →
             float_overflows z = false) →
  prepare_loop features fs acc =
  Ok (acc ++ map (fun name =>
                    match features !! name with
                    | Some (PBool b) => if b then 1%Q else 0%Q
                    | Some (PInt z) => inject_Z (nearest_double z)
                    | Some (PFloat q) => q
                    | Some PNone | Some (PStr _) | Some (PObj _ _) | None => 0%Q
                    end) fs)%list.
Proof.
  revert acc. induction fs as [|name fs IH]; intros acc H; simpl.
  - by rewrite app_nil_r.
  - rewrite prepare_step_cases.
    assert (H' : ∀ name z, name ∈ fs → features !! name = Some (PInt z) →
                           float_overflows z = false)
      by (intros n z Hn; apply H; by right).
    destruct (features !! name) as [[| | z | | |]|] eqn:E; simpl;
      try (rewrite (IH _ H'), <- app_assoc; reflexivity).
    rewrite (H name z); [|by left|exact E]. simpl.
    rewrite (IH _ H'), <- app_assoc. reflexivity.
Qed.

Lemma prepare_loop_overflow (features : gmap string pyval) (fs : list string)
    (acc : list Q) (name : string) (z : Z) :
  name ∈ fs → features !! name = Some (PInt z) → float_overflows z = true →
  prepare_loop features fs acc
  = Raise (OverflowError "int too large to convert to float").
Proof.
  intros Hin Hz Ho. revert acc.
  induction fs as [|a fs IH]; intros acc; [by apply elem_of_nil in Hin|].
  simpl. rewrite prepare_step_cases.
  destruct (decide (a = name)) as [->|Hne].
  - by rewrite Hz, Ho.
  - apply elem_of_cons in Hin as [->|Hin]; [done|].
    destruct (features !! a) as [[| | z' | | |]|]; simpl; try apply (IH Hin).
    destruct (float_overflows z'); simpl; [reflexivity|apply (IH Hin)].
Qed.

(** C6 does not hold as stated: [float] raises [OverflowError] on an
    [int] beyond the range of a double, so a mapping that holds one
    gets no vector. *)
Lemma prepare_features_overflows :
  _prepare_features {[ "work_hours_per_week" := PInt (10 ^ 400) ]}
  = Raise (OverflowError "int too large to convert to float")
  ∧ ¬ ∃ vector,
        _prepare_features {[ "work_hours_per_week" := PInt (10 ^ 400) ]}
        = Ok vector.
Proof.
  assert (E : _prepare_features {[ "work_hours_per_week" := PInt (10 ^ 400) ]}
              = Raise (OverflowError "int too large to convert to float"))
    by reflexivity.
  split; [exact E|]. intros [vector H]. rewrite E in H. discriminate H.
Qed.

(** C6, amended. For every mapping whose [int] values in the ten fields
    are within the range of a double, [_prepare_features] returns the
    vector of the ten canonical fields, in the fixed order; a field that
    is missing or whose value is neither an [int] nor a [float] gives
    0.0, a number gives its value as a float: a [float] itself, an [int]
    the double nearest
    to it (the [int] itself below 2^53), [True] and [False], being
    [int]s in Python, 1.0 and 0.0. When one of the ten fields holds an
    [int] beyond the range of a double, it raises [OverflowError]. *)
Theorem prepare_features_within_float_range (features : gmap string pyval) :
  let field name :=
    match features !! name with
    | Some (PBool b) => if b then 1%Q else 0%Q
    | Some (PInt z) => inject_Z (nearest_double z)
    | Some (PFloat q) => q
    | Some PNone | Some (PStr _) | Some (PObj _ _) | None => 0%Q
    end in
  ((∀ name z, name ∈ expected_features → features !! name = Some (PInt z) →
              float_overflows z = false) →
   _prepare_features features =
     Ok [ field "work_hours_per_week"; field "meeting_hours_per_week";
          field "email_count_per_day"; field "stress_level";
          field "workload_score"; field "work_life_balance";
          field "team_size"; field "remote_work_percentage";
          field "overtime_hours"; field "deadline_pressure" ])
  ∧ (∀ name z, name ∈ expected_features → features !! name = Some (PInt z) →
               float_overflows z = true →
     _prepare_features features
     = Raise (OverflowError "int too large to convert to float"))
  ∧ (∀ z, (Z.abs z < 2 ^ 53)%Z →
          nearest_double z = z ∧ float_overflows z = false)
  ∧ _prepare_features ∅ = Ok [0; 0; 0; 0; 0; 0; 0; 0; 0; 0]%Q.
Proof.
  intros field. split; [|split; [|split]].
  - intros H. unfold _prepare_features.
    by rewrite (prepare_loop_in_range features expected_features [] H).
  - intros name z Hin Hz Ho. unfold _prepare_features.
    exact (prepare_loop_overflow features expected_features [] name z Hin Hz Ho).
  - exact nearest_double_exact.
  - reflexivity.
Qed.

(** A request that mixes a number, a word and a flag. *)
Lemma prepare_features_within_float_range_witness :
  _prepare_features
    (<["work_hours_per_week" := PInt 60]>
       (<["stress_level" := PStr "high"]> {[ "team_size" := PBool true ]}))
  = Ok [60; 0; 0; 0; 0; 0; 1; 0; 0; 0]%Q.
Proof.
  destruct (prepare_features_within_float_range
              (<["work_hours_per_week" := PInt 60]>
                 (<["stress_level" := PStr "high"]> {[ "team_size" := PBool true ]})))
    as (H & _).
  rewrite H; [reflexivity|].
  intros name z Hin. unfold expected_features in Hin.
  repeat (apply elem_of_cons in Hin as [->|Hin];
          [intros Hz; vm_compute in Hz;
           first [discriminate Hz | injection Hz as <-; vm_compute; reflexivity]|]).
  by apply elem_of_nil in Hin.
Defined.

(** C2 does not hold as stated: at index 6 the inference order has
    [team_size] where [BurnoutPredictionModel.feature_names] has
    [overtime_hours], so the three lists are not equal. *)
Lemma feature_orders_differ :
  expected_features !! 6%nat = Some "team_size"
  ∧ BurnoutPredictionModel.feature_names !! 6%nat = Some "overtime_hours"
  ∧ ¬ (expected_features = TrainingService.feature_columns
       ∧ expected_features = BurnoutPredictionModel.feature_names).
Proof.
  split; [reflexivity|]. split; [reflexivity|].
  intros [_ H]. discriminate H.
Qed.

(** C2, amended. The order used at inference is, element by element,
    the order of [TrainingService._load_training_data] (and of the
    evaluation service); [BurnoutPredictionModel.feature_names] holds the
    same ten names, agrees on the first six and orders the last four as
    overtime_hours, deadline_pressure, team_size, remote_work_percentage. *)
Theorem feature_order_contract :
  expected_features = TrainingService.feature_columns
  ∧ expected_features = EvaluationService.feature_columns
  ∧ expected_features = EvaluationService._get_feature_names
  ∧ length expected_features = 10%nat
  ∧ take 6 BurnoutPredictionModel.feature_names = take 6 expected_features
  ∧ drop 6 expected_features =
      ["team_size"; "remote_work_percentage"; "overtime_hours"; "deadline_pressure"]
  ∧ drop 6 BurnoutPredictionModel.feature_names =
      ["overtime_hours"; "deadline_pressure"; "team_size"; "remote_work_percentage"]
  ∧ BurnoutPredictionModel.feature_names ≡ₚ expected_features.
Proof.
  repeat (split; [reflexivity|]).
  unfold BurnoutPredictionModel.feature_names, expected_features.
  do 6 apply Permutation_skip.
  exact (Permutation_app_comm
           ["overtime_hours"; "deadline_pressure"]
           ["team_size"; "remote_work_percentage"]).
Qed.

(** ** Risk levels *)

Lemma level_chain_steps (score : Q) :
  let level :=
    if Qltb score (3 # 10) then "low"
    else if Qltb score (6 # 10) then "medium"
    else if Qltb score (8 # 10) then "high"
    else "critical" in
  ((0 <= score < 3 # 10)%Q → level = "low")
  ∧ ((3 # 10 <= score < 6 # 10)%Q → level = "medium")
  ∧ ((6 # 10 <= score < 8 # 10)%Q → level = "high")
  ∧ ((8 # 10 <= score)%Q → level = "critical").
Proof.
  assert (M36 : (3 # 10 < 6 # 10)%Q) by reflexivity.
  assert (M68 : (6 # 10 < 8 # 10)%Q) by reflexivity.
  cbv zeta. repeat split.
  - intros [_ H]. apply Qltb_lt in H. by rewrite H.
  - intros [H1 H2]. apply Qltb_ge in H1. apply Qltb_lt in H2. by rewrite H1, H2.
  - intros [H1 H2].
    assert (H0 : (3 # 10 <= score)%Q)
      by (apply Qlt_le_weak; eapply Qlt_le_trans; eauto).
    apply Qltb_ge in H0, H1. apply Qltb_lt in H2. by rewrite H0, H1, H2.
  - intros H.
    assert (H1 : (6 # 10 <= score)%Q)
      by (apply Qlt_le_weak; eapply Qlt_le_trans; eauto).
    assert (H0 : (3 # 10 <= score)%Q)
      by (apply Qlt_le_weak; eapply Qlt_le_trans; eauto).
    apply Qltb_ge in H0, H1, H. by rewrite H0, H1, H.
Qed.

(** C5. The risk level is the step function of the score: [0, 0.3) is
    low, [0.3, 0.6) medium, [0.6, 0.8) high, and 0.8 or more critical,
    both in [PredictionService._determine_risk_level] and in what
    [BurnoutPredictionModel.predict_single] returns, where the score is
    the probability of class 1 that the forest gives to the scaled row
    of features: the level reported is the step function of that
    probability, and it is the level [_determine_risk_level] gives to
    the score reported. *)
Theorem risk_level_step_function :
  let steps (score : Q) (level : string) : Prop :=
    ((0 <= score < 3 # 10)%Q → level = "low")
    ∧ ((3 # 10 <= score < 6 # 10)%Q → level = "medium")
    ∧ ((6 # 10 <= score < 8 # 10)%Q → level = "high")
    ∧ ((8 # 10 <= score)%Q → level = "critical") in
  (∀ score, steps score (_determine_risk_level score))
  ∧ (∀ self features r,
       BurnoutPredictionModel.predict_single self features = Ok r →
       ∃ row scaled probabilities probability,
         BurnoutPredictionModel.feature_array features
           (BurnoutPredictionModel.names self) = Ok row
         ∧ BurnoutPredictionModel.scaler_transform self [row]
           = BurnoutPredictionModel.Accepted scaled
         ∧ BurnoutPredictionModel.model_predict_proba self scaled
           = BurnoutPredictionModel.Accepted probabilities
         ∧ probabilities !! 0%nat = Some probability
         ∧ BurnoutPredictionModel.risk_score r = snd probability
         ∧ steps (snd probability) (BurnoutPredictionModel.risk_level r)
         ∧ BurnoutPredictionModel.risk_level r
           = _determine_risk_level (BurnoutPredictionModel.risk_score r)).
Proof.
  cbv zeta. split.
  - intros score. exact (level_chain_steps score).
  - intros self features r.
    unfold BurnoutPredictionModel.predict_single.
    destruct (BurnoutPredictionModel.is_trained self); simpl; [|discriminate].
    destruct (BurnoutPredictionModel.feature_array _ _) as [row|];
      simpl; [|discriminate].
    destruct (BurnoutPredictionModel.scaler_transform self [row])
      as [scaled|] eqn:Es; simpl; [|discriminate].
    destruct (BurnoutPredictionModel.model_predict self scaled)
      as [[|label labels]|]; simpl; try discriminate.
    destruct (BurnoutPredictionModel.model_predict_proba self scaled)
      as [[|p probabilities]|] eqn:Ep; simpl; try discriminate.
    intros [= <-]. simpl. exists row, scaled, (p :: probabilities), p.
    repeat (split; [reflexivity || assumption|]).
    split; [exact (level_chain_steps (snd p))|reflexivity].
Qed.

(** The four boundaries, and four runs of [predict_single] on trained
    models whose forests give the class 1 the probabilities 0.29, 0.3,
    0.6 and 0.8. *)
Lemma risk_level_step_function_witness :
  _determine_risk_level 0 = "low"
  ∧ _determine_risk_level (3 # 10) = "medium"
  ∧ _determine_risk_level (6 # 10) = "high"
  ∧ _determine_risk_level (8 # 10) = "critical"
  ∧ (∃ r, BurnoutPredictionModel.predict_single
            (Examples.trained_answering (29 # 100)) Examples.low_risk_features
          = Ok r
          ∧ BurnoutPredictionModel.risk_score r = (29 # 100)%Q
          ∧ BurnoutPredictionModel.risk_level r = "low")
  ∧ (∃ r, BurnoutPredictionModel.predict_single
            (Examples.trained_answering (3 # 10)) Examples.low_risk_features
          = Ok r
          ∧ BurnoutPredictionModel.risk_score r = (3 # 10)%Q
          ∧ BurnoutPredictionModel.risk_level r = "medium")
  ∧ (∃ r, BurnoutPredictionModel.predict_single
            (Examples.trained_answering (6 # 10)) Examples.low_risk_features
          = Ok r
          ∧ BurnoutPredictionModel.risk_score r = (6 # 10)%Q
          ∧ BurnoutPredictionModel.risk_level r = "high")
  ∧ (∃ r, BurnoutPredictionModel.predict_single
            (Examples.trained_answering (8 # 10)) Examples.low_risk_features
          = Ok r
          ∧ BurnoutPredictionModel.risk_score r = (8 # 10)%Q
          ∧ BurnoutPredictionModel.risk_level r = "critical").
Proof.
  pose proof risk_level_step_function as [D S]. cbv zeta in D, S.
  split; [apply (D 0%Q); split; [apply Qle_refl | reflexivity]|].
  split; [apply (D (3 # 10)%Q); split; [apply Qle_refl | reflexivity]|].
  split; [apply (D (6 # 10)%Q); split; [apply Qle_refl | reflexivity]|].
  split; [apply (D (8 # 10)%Q); apply Qle_refl|].
  repeat split;
    match goal with
    | |- ∃ r, BurnoutPredictionModel.predict_single ?m ?f = Ok r ∧ _ =>
        destruct (BurnoutPredictionModel.predict_single m f) as [r|] eqn:Hr;
        [|vm_compute in Hr; discriminate Hr];
        destruct (S m f r Hr) as (? & ? & ? & ? & _ & _ & _ & _ & _ & _ & Hl);
        exists r; split; [reflexivity|];
        vm_compute in Hr; injection Hr as <-;
        split; [reflexivity|exact Hl]
    end.
Defined.

(** ** Recommendations *)

(** C9. The recommendations depend only on the level and on which of
    the three factor keys are present: the items of the level (2 for
    low, 3 for medium, 4 for high, 4 for critical), then one tip per
    present key in the order excessive_hours, high_stress,
    poor_work_life_balance. With level high and the only factor
    excessive_hours: the four items of high, then the boundary tip. *)
Theorem recommendations_level_then_factors (factors : gmap string Factor) :
  let tips :=
    ((if contains "excessive_hours" factors
      then ["Set strict work hour boundaries"] else [])
     ++ (if contains "high_stress" factors
         then ["Implement daily stress reduction activities"] else [])
     ++ (if contains "poor_work_life_balance" factors
         then ["Create clear boundaries between work and personal time"]
         else []))%list in
  _generate_recommendations "low" factors =
    (["Continue maintaining healthy work habits";
      "Regularly monitor your stress levels"] ++ tips)%list
  ∧ _generate_recommendations "medium" factors =
    (["Consider reducing work hours if possible";
      "Take regular breaks throughout the day";
      "Practice stress management techniques"] ++ tips)%list
  ∧ _generate_recommendations "high" factors =
    (["Urgent: Reduce workload and work hours";
      "Schedule regular time off";
      "Consider speaking with your manager about workload";
      "Seek professional help if needed"] ++ tips)%list
  ∧ _generate_recommendations "critical" factors =
    (["Immediate action required: Take time off";
      "Contact HR or management immediately";
      "Consider professional counseling";
      "Review and adjust work responsibilities"] ++ tips)%list
  ∧ ∀ f : Factor,
      _generate_recommendations "high" {[ "excessive_hours" := f ]} =
        ["Urgent: Reduce workload and work hours";
         "Schedule regular time off";
         "Consider speaking with your manager about workload";
         "Seek professional help if needed";
         "Set strict work hour boundaries"].
Proof.
  cbv zeta. unfold _generate_recommendations, append. simpl.
  repeat split;
    try (destruct (contains "excessive_hours" factors),
                  (contains "high_stress" factors),
                  (contains "poor_work_life_balance" factors); reflexivity).
Qed.

(** ** Factors *)

Lemma comparable_of_number (v : pyval) (q : Q) :
  as_number v = Some q → comparable_as v = Some q.
Proof. destruct v; simpl; done. Qed.

Lemma py_gt_number (features : gmap string pyval) (k : string) (n : Z) :
  (∀ v, features !! k = Some v → is_Some (comparable_as v)) →
  ∃ b, py_gt (default (PInt 0) (features !! k)) n = Ok b.
Proof.
  intros H. unfold py_gt.
  destruct (features !! k) as [v|] eqn:E; simpl.
  - destruct (H v eq_refl) as [q ->]. eauto.
  - eauto.
Qed.

(** C10 does not hold as stated: the balance is the last of four fields
    compared, and a request without [work_life_balance] whose stress
    level is a word gets no factors at all: the comparison of the stress
    level raises [TypeError] before the balance is read. *)
Lemma absent_balance_not_reached :
  ({[ "stress_level" := PStr "high" ]} : gmap string pyval)
    !! "work_life_balance" = None
  ∧ _analyze_factors {[ "stress_level" := PStr "high" ]} 0
    = Raise (TypeError "'>' not supported between instances of 'str' and 'int'")
  ∧ ¬ ∃ factors,
        _analyze_factors {[ "stress_level" := PStr "high" ]} 0 = Ok factors
        ∧ is_Some (factors !! "poor_work_life_balance").
Proof.
  split; [reflexivity|]. split; [reflexivity|].
  intros (factors & H & _). discriminate H.
Qed.

(** C10, amended. When [work_life_balance] is absent from a mapping
    whose other inspected fields (work hours, stress level, workload)
    hold, where present, values that compare with a number,
    [_analyze_factors] takes 0 for it, 0 < 3 holds, and the factors hold
    [poor_work_life_balance] with value 0: the same entry a reported
    balance of 0 gives. *)
Theorem absent_balance_reads_as_poor
    (features : gmap string pyval) (risk_score : Q) :
  features !! "work_life_balance" = None →
  (∀ k v, k ∈ ["work_hours_per_week"; "stress_level"; "workload_score"] →
          features !! k = Some v → is_Some (comparable_as v)) →
  ∃ factors,
    _analyze_factors features risk_score = Ok factors
    ∧ factors !! "poor_work_life_balance" =
        Some {| value := PInt 0; impact := "high";
                description := "Poor work-life balance" |}
    ∧ _analyze_factors (<["work_life_balance" := PInt 0]> features) risk_score
      = Ok factors.
Proof.
  intros Hnone Hnum.
  assert (Hk : ∀ k n,
            k ∈ ["work_hours_per_week"; "stress_level"; "workload_score"] →
            ∃ b, py_gt (default (PInt 0) (features !! k)) n = Ok b).
  { intros k n Hin. apply py_gt_number. intros v. by apply Hnum. }
  destruct (Hk "work_hours_per_week" 50%Z) as [b1 E1]; [by left|].
  destruct (Hk "stress_level" 7%Z) as [b2 E2]; [by right; left|].
  destruct (Hk "workload_score" 8%Z) as [b3 E3]; [by do 2 right; left|].
  eexists. split; [|split].
  - unfold _analyze_factors. rewrite E1, E2, E3, Hnone. simpl. reflexivity.
  - by rewrite lookup_insert_eq.
  - unfold _analyze_factors.
    rewrite (lookup_insert_ne _ _ "work_hours_per_week") by (intros H; discriminate H).
    rewrite (lookup_insert_ne _ _ "stress_level") by (intros H; discriminate H).
    rewrite (lookup_insert_ne _ _ "workload_score") by (intros H; discriminate H).
    rewrite lookup_insert_eq.
    rewrite E1, E2, E3. reflexivity.
Qed.

(** The empty mapping, and a mapping with long hours only. *)
Lemma absent_balance_reads_as_poor_witness :
  (∃ factors, _analyze_factors ∅ 0 = Ok factors
     ∧ contains "poor_work_life_balance" factors = true)
  ∧ (∃ factors, _analyze_factors Examples.long_hours 1 = Ok factors
     ∧ contains "poor_work_life_balance" factors = true).
Proof.
  split.
  - destruct (absent_balance_reads_as_poor ∅ 0) as (factors & E & L & _).
    + reflexivity.
    + intros k v _ H. by rewrite lookup_empty in H.
    + exists factors. split; [exact E|]. unfold contains. by rewrite L.
  - destruct (absent_balance_reads_as_poor Examples.long_hours 1)
      as (factors & E & L & _).
    + reflexivity.
    + intros k v _ H. unfold Examples.long_hours in H.
      apply lookup_singleton_Some in H as [_ <-]. by eexists.
    + exists factors. split; [exact E|]. unfold contains. by rewrite L.
Defined.

(** A value of another numeric type is compared like a number, where
    [_prepare_features] reads it as 0.0. *)
Example decimal_hours :
  (∃ factors,
     _analyze_factors
       {[ "work_hours_per_week" := PObj "decimal.Decimal" (Some 60%Q) ]} 0
     = Ok factors
     ∧ is_Some (factors !! "excessive_hours"))
  ∧ _prepare_features
      {[ "work_hours_per_week" := PObj "decimal.Decimal" (Some 60%Q) ]}
    = Ok [0; 0; 0; 0; 0; 0; 0; 0; 0; 0]%Q.
Proof.
  split; [|reflexivity]. eexists. split; [reflexivity|].
  vm_compute. by eexists.
Qed.

(** ** The prediction *)

(** Where [predict] takes the score and the confidence from. *)
Lemma predict_sources (uuid4 : string) (utcnow : Z) (self : PredictionService.t)
    (user features : _) (version : string) (r : Prediction) :
  predict uuid4 utcnow self user features version = Ok r →
  ∃ model vector labels probabilities row,
    models self !! PredictionService.model_version r = Some model
    ∧ _prepare_features features = Ok vector
    ∧ Model.predict model [vector] = Ok labels
    ∧ first labels = Ok (risk_score r)
    ∧ Model.predict_proba model [vector] = Ok probabilities
    ∧ first probabilities = Ok row
    ∧ confidence r = py_max2 row
    ∧ risk_level r = _determine_risk_level (risk_score r).
Proof.
  unfold predict, predict_body, try_except.
  set (v := if String.eqb version "latest" then _ else _).
  destruct (models self !! v) as [model|] eqn:Em; [|discriminate].
  destruct (_prepare_features features) as [vector|] eqn:E0; simpl; [|discriminate].
  destruct (Model.predict model _) as [labels|] eqn:E1; simpl; [|discriminate].
  destruct (first labels) as [score|] eqn:E2; simpl; [|discriminate].
  destruct (Model.predict_proba model _) as [probabilities|] eqn:E3;
    simpl; [|discriminate].
  destruct (first probabilities) as [row|] eqn:E4; simpl; [|discriminate].
  destruct (_analyze_factors features score); simpl; [|discriminate].
  intros [= <-]. simpl. exists model, vector, labels, probabilities, row. done.
Qed.

(** C1, on the code. A forest that gives a request the probabilities
    (0.45, 0.55) predicts the label 1; [predict] reports the label as
    the risk score, 1.0, not the probability 0.55 of class 1, and the
    level critical where 0.55 is medium. The confidence is the largest
    probability, 0.55. *)
Theorem predict_reports_label_as_score (uuid4 : string) (utcnow : Z) :
  (∃ vector,
     _prepare_features Examples.long_hours = Ok vector
     ∧ Model.predict_proba Examples.leaning_positive [vector]
       = Ok [(45 # 100, 55 # 100)%Q])
  ∧ ∃ r, predict uuid4 utcnow Examples.one_model_service "user-1"
           Examples.long_hours "latest" = Ok r
         ∧ risk_score r = 1%Q
         ∧ ¬ (risk_score r == 55 # 100)%Q
         ∧ confidence r = (55 # 100)%Q
         ∧ risk_level r = "critical"
         ∧ _determine_risk_level (55 # 100) = "medium".
Proof.
  split; [eexists; split; reflexivity|].
  eexists. split; [vm_compute; reflexivity|].
  simpl. repeat split; try reflexivity. intros H. discriminate H.
Qed.

(** ** Loading a dataset *)

Lemma target_of_row_ok (L : Lib.t) (row : list Q) :
  (5 <= length row)%nat → ∃ y, target_of_row L row = Ok y.
Proof.
  intros H. destruct row as [|x0 [|x1 [|x2 [|x3 [|x4 row]]]]]; simpl in H; try lia.
  unfold target_of_row. simpl. eauto.
Qed.

Lemma for_each_target_ok (L : Lib.t) (X : matrix) :
  Forall (fun row => (5 <= length row)%nat) X →
  ∃ y, for_each (target_of_row L) X = Ok y ∧ length y = length X.
Proof.
  induction 1 as [|row X Hrow _ [ys [IH Hl]]]; simpl.
  - by exists [].
  - destruct (target_of_row_ok L row Hrow) as [y ->]. simpl. rewrite IH. simpl.
    exists (y :: ys). simpl. by rewrite Hl.
Qed.

Lemma random_rand_shape (L : Lib.t) (seed : Z) (n m : nat) :
  length (Lib.random_rand L seed n m) = n
  ∧ Forall (fun row => length row = m) (Lib.random_rand L seed n m).
Proof.
  unfold Lib.random_rand. split.
  - by rewrite length_map, length_seq.
  - apply Forall_forall. intros row Hin. apply list_elem_of_In in Hin.
    apply in_map_iff in Hin as [i [<- _]]. by rewrite length_map, length_seq.
Qed.

Lemma dummy_data_ok (L : Lib.t) :
  (∃ X y, TrainingService._generate_dummy_data L = Ok (X, y)
          ∧ length X = 1000%nat ∧ length y = 1000%nat)
  ∧ (∃ X y, EvaluationService._generate_dummy_test_data L = Ok (X, y)
            ∧ length X = 200%nat ∧ length y = 200%nat).
Proof.
  split.
  - unfold TrainingService._generate_dummy_data.
    destruct (random_rand_shape L 42 1000 10) as [Hn Hm].
    destruct (for_each_target_ok L (Lib.random_rand L 42 1000 10)) as [y [E Hy]].
    { eapply Forall_impl; [exact Hm|]. simpl. intros row ->. lia. }
    cbv zeta. rewrite E. simpl. eexists _, y. split; [reflexivity|]. split; congruence.
  - unfold EvaluationService._generate_dummy_test_data.
    destruct (random_rand_shape L 123 200 10) as [Hn Hm].
    destruct (for_each_target_ok L (Lib.random_rand L 123 200 10)) as [y [E Hy]].
    { eapply Forall_impl; [exact Hm|]. simpl. intros row ->. lia. }
    cbv zeta. rewrite E. simpl. eexists _, y. split; [reflexivity|]. split; congruence.
Qed.

(** C3 does not hold as stated: with [data/burnout.xlsx] on disk, both
    loaders return a dataset; no exception reaches the caller. *)
Lemma unsupported_extension_not_surfaced :
  Lib.path_exists Examples.spreadsheet_only "data/burnout.xlsx" = true
  ∧ endswith "data/burnout.xlsx" ".csv" = false
  ∧ endswith "data/burnout.xlsx" ".json" = false
  ∧ ¬ (∃ e, TrainingService._load_training_data
              Examples.spreadsheet_only "data/burnout.xlsx" = Raise e)
  ∧ ¬ (∃ e, EvaluationService._load_test_data
              Examples.spreadsheet_only "data/burnout.xlsx" = Raise e).
Proof.
  repeat (split; [reflexivity|]).
  split; intros [e H]; vm_compute in H; discriminate H.
Qed.

(** C3, amended. For a path that exists and ends neither in [.csv] nor
    in [.json], the [try] block of each loader raises the unsupported
    format error, the loader's own [except] clause catches it, and the
    loader returns the dummy dataset (1000 rows for training, 200 for
    evaluation): the caller gets a dataset and no exception. *)
Theorem unsupported_extension_falls_back (L : Lib.t) (path : string) :
  Lib.path_exists L path = true →
  endswith path ".csv" = false →
  endswith path ".json" = false →
  TrainingService.load_training_body L path
    = Raise (ValueError ("Unsupported file format: " ++ path))
  ∧ EvaluationService.load_test_body L path
    = Raise (ValueError ("Unsupported file format: " ++ path))
  ∧ TrainingService._load_training_data L path
    = TrainingService._generate_dummy_data L
  ∧ EvaluationService._load_test_data L path
    = EvaluationService._generate_dummy_test_data L
  ∧ (∃ X y, TrainingService._load_training_data L path = Ok (X, y)
            ∧ length X = 1000%nat ∧ length y = 1000%nat)
  ∧ (∃ X y, EvaluationService._load_test_data L path = Ok (X, y)
            ∧ length X = 200%nat ∧ length y = 200%nat).
Proof.
  intros Hex Hcsv Hjson.
  assert (B1 : TrainingService.load_training_body L path
               = Raise (ValueError ("Unsupported file format: " ++ path))).
  { unfold TrainingService.load_training_body. by rewrite Hex, Hcsv, Hjson. }
  assert (B2 : EvaluationService.load_test_body L path
               = Raise (ValueError ("Unsupported file format: " ++ path))).
  { unfold EvaluationService.load_test_body. by rewrite Hex, Hcsv, Hjson. }
  assert (F1 : TrainingService._load_training_data L path
               = TrainingService._generate_dummy_data L).
  { unfold TrainingService._load_training_data. by rewrite B1. }
  assert (F2 : EvaluationService._load_test_data L path
               = EvaluationService._generate_dummy_test_data L).
  { unfold EvaluationService._load_test_data. by rewrite B2. }
  destruct (dummy_data_ok L) as [D1 D2].
  repeat (split; [assumption|]). rewrite F1, F2. by split.
Qed.

(** The spreadsheet of the example. *)
Lemma unsupported_extension_falls_back_witness :
  TrainingService._load_training_data Examples.spreadsheet_only "data/burnout.xlsx"
  = TrainingService._generate_dummy_data Examples.spreadsheet_only
  ∧ EvaluationService._load_test_data Examples.spreadsheet_only "data/burnout.xlsx"
    = EvaluationService._generate_dummy_test_data Examples.spreadsheet_only.
Proof.
  destruct (unsupported_extension_falls_back
              Examples.spreadsheet_only "data/burnout.xlsx")
    as (_ & _ & F1 & F2 & _); [reflexivity | reflexivity | reflexivity |].
  split; [exact F1 | exact F2].
Defined.

(** ** Evaluating a model that is not on disk *)

Lemma prefix_slash_joblib (v : string) :
  String.prefix "/" (v ++ ".joblib") = String.prefix "/" v.
Proof.
  destruct v as [|c v]; [reflexivity|].
  assert (P : ∀ w, String.prefix "/" (String c w)
                   = if ascii_dec "/" c then true else false).
  { intros w.
    change (String.prefix "/" (String c w))
      with (if ascii_dec "/" c then String.prefix "" w else false).
    destruct (ascii_dec "/" c); [by destruct w|reflexivity]. }
  change (String c v ++ ".joblib") with (String c (v ++ ".joblib")).
  by rewrite !P.
Qed.

(** C7. The persisted file of a model version is the one [os.path.join]
    names from the models directory and [<model_version>.joblib], that
    is [models/<model_version>.joblib] unless the version starts with a
    slash. When no such file exists, [evaluate] raises the not-found
    [ValueError] and the service state is the one before the call:
    [evaluation_jobs] gains no entry. *)
Theorem evaluate_unknown_model_keeps_state
    (E : EvaluationService.Env) (model_version test_dataset_path : string)
    (include_shap : bool) (target_recall : Q) (s : EvaluationService.t) :
  Lib.path_exists (EvaluationService.lib E)
    (EvaluationService.path_join EvaluationService.models_dir
       (model_version ++ ".joblib")) = false →
  EvaluationService.evaluate E model_version test_dataset_path
    include_shap target_recall s
  = (Raise (ValueError ("Model " ++ model_version ++ " not found")), s)
  ∧ EvaluationService.path_join EvaluationService.models_dir
      (model_version ++ ".joblib")
    = (if String.prefix "/" model_version then model_version ++ ".joblib"
       else "models/" ++ model_version ++ ".joblib").
Proof.
  intros H. split.
  - unfold EvaluationService.evaluate, try_, EvaluationService.evaluate_body.
    rewrite H. reflexivity.
  - unfold EvaluationService.path_join, os_path_join.
    rewrite prefix_slash_joblib. by destruct (String.prefix "/" model_version).
Qed.

Lemma evaluate_unknown_model_keeps_state_witness :
  EvaluationService.evaluate Examples.no_model_file
    "legacy_0a1b2c3d_20240101_000000" "data/test.csv" true (85 # 100)
    {| EvaluationService.evaluation_jobs := ∅ |}
  = (Raise (ValueError "Model legacy_0a1b2c3d_20240101_000000 not found"),
     {| EvaluationService.evaluation_jobs := ∅ |}).
Proof.
  apply (evaluate_unknown_model_keeps_state Examples.no_model_file
           "legacy_0a1b2c3d_20240101_000000" "data/test.csv" true (85 # 100)).
  reflexivity.
Defined.

(** A version that starts with a slash names a file outside the models
    directory: with [/srv/elsewhere/m.joblib] on disk and nothing under
    [models], the version [/srv/elsewhere/m] is found and evaluated. *)
Example evaluate_absolute_version :
  Lib.path_exists (EvaluationService.lib Examples.evaluating_elsewhere)
    "models//srv/elsewhere/m.joblib" = false
  ∧ ∃ ev s,
      EvaluationService.evaluate Examples.evaluating_elsewhere
        "/srv/elsewhere/m" "data/test.csv" false (85 # 100)
        {| EvaluationService.evaluation_jobs := ∅ |} = (Ok ev, s).
Proof.
  split; [reflexivity|].
  destruct (EvaluationService.evaluate Examples.evaluating_elsewhere
              "/srv/elsewhere/m" "data/test.csv" false (85 # 100)
              {| EvaluationService.evaluation_jobs := ∅ |}) as [[ev|e] s] eqn:E.
  - by exists ev, s.
  - vm_compute in E. discriminate E.
Qed.

(** ** The statuses of a training job *)

Import TrainingService.

(** C4, on the code. A baseline job whose steps all succeed is written
    started, initializing, loading_data, feature_engineering, then
    loading_data again (with the progress going from 30 back to 20),
    preprocessing, training, evaluating, saving, completed: the fifth
    write goes back to an earlier status. *)
Theorem legacy_job_goes_back_to_loading_data :
  let s := (run_job Examples.smooth Examples.job_id 1704067100
             "data/burnout.xlsx" "baseline" None init).2 in
  statuses_of Examples.job_id s =
    [ "started"; "initializing"; "loading_data"; "feature_engineering";
      "loading_data"; "preprocessing"; "training"; "evaluating"; "saving";
      "completed" ]
  ∧ (∃ i, statuses_of Examples.job_id s !! i = Some "feature_engineering"
          ∧ statuses_of Examples.job_id s !! S i = Some "loading_data")
  ∧ (status <$> training_jobs s !! Examples.job_id) = Some "completed".
Proof.
  cbv zeta.
  assert (E : statuses_of Examples.job_id
                (run_job Examples.smooth Examples.job_id 1704067100
                   "data/burnout.xlsx" "baseline" None init).2 =
    [ "started"; "initializing"; "loading_data"; "feature_engineering";
      "loading_data"; "preprocessing"; "training"; "evaluating"; "saving";
      "completed" ]) by (vm_compute; reflexivity).
  split; [exact E|]. split.
  - exists 3%nat. rewrite E. split; reflexivity.
  - vm_compute. reflexivity.
Qed.

(** A comprehensive job is marked completed before the result of the
    pipeline is read; when reading it raises, the same job is then
    marked failed. *)
Example completed_then_failed :
  let s := (run_job Examples.pipeline_returns_none Examples.job_id 1704067100
             "data/burnout.xlsx" "comprehensive" None init).2 in
  statuses_of Examples.job_id s =
    [ "started"; "initializing"; "loading_data"; "feature_engineering";
      "completed"; "failed" ]
  ∧ (status <$> training_jobs s !! Examples.job_id) = Some "failed"
  ∧ (progress <$> training_jobs s !! Examples.job_id) = Some 100%Z
  ∧ (error <$> training_jobs s !! Examples.job_id)
    = Some (Some "'NoneType' object has no attribute 'get'").
Proof. cbv zeta. repeat split; vm_compute; reflexivity. Qed.

(** A comprehensive job whose pipeline answers with a mapping. *)
Example comprehensive_job_statuses :
  let s := (run_job Examples.smooth Examples.job_id 1704067100
             "data/burnout.xlsx" "comprehensive" None init).2 in
  statuses_of Examples.job_id s =
    [ "started"; "initializing"; "loading_data"; "feature_engineering";
      "completed" ]
  ∧ (TrainingService.model_version <$> training_jobs s !! Examples.job_id)
    = Some (Some "comprehensive_0a1b2c3d_20240101_000000").
Proof. cbv zeta. repeat split; vm_compute; reflexivity. Qed.

(** *** Every legacy job goes back *)

Lemma appends_ret {A} (a : A) : only_appends (ret a : M A).
Proof. intros s. exists []. simpl. by rewrite app_nil_r. Qed.

Lemma appends_raise {A} (e : exn) : only_appends (raise e : M A).
Proof. intros s. exists []. simpl. by rewrite app_nil_r. Qed.

Lemma appends_lift {A} (r : result A) : only_appends (lift r : M A).
Proof. intros s. exists []. simpl. by rewrite app_nil_r. Qed.

Lemma appends_get_job (id : string) : only_appends (get_job id).
Proof.
  intros s. exists []. unfold get_job.
  destruct (training_jobs s !! id); simpl; by rewrite app_nil_r.
Qed.

Lemma appends_update (id : string) (f : Job → Job) : only_appends (update id f).
Proof. intros s. exists []. simpl. by rewrite app_nil_r. Qed.

Lemma appends_set_status (id v : string) : only_appends (set_status id v).
Proof. intros s. by exists [(id, v)]. Qed.

Lemma appends_bind {A B} (m : M A) (f : A → M B) :
  only_appends m → (∀ a, only_appends (f a)) → only_appends (bind m f).
Proof.
  intros Hm Hf s. unfold bind. destruct (Hm s) as [w Hw].
  destruct (m s) as [[a|e] s']; simpl in *.
  - destruct (Hf a s') as [w' Hw']. exists (w ++ w')%list.
    by rewrite Hw', Hw, <- app_assoc.
  - by exists w.
Qed.

Lemma appends_try {A} (body : M A) (handler : exn → M A) :
  only_appends body → (∀ e, only_appends (handler e)) →
  only_appends (try_ body handler).
Proof.
  intros Hm Hh s. unfold try_. destruct (Hm s) as [w Hw].
  destruct (body s) as [[a|e] s']; simpl in *.
  - by exists w.
  - destruct (Hh e s') as [w' Hw']. exists (w ++ w')%list.
    by rewrite Hw', Hw, <- app_assoc.
Qed.

Ltac appends :=
  repeat first
    [ apply appends_ret | apply appends_raise | apply appends_lift
    | apply appends_get_job | apply appends_update | apply appends_set_status
    | apply appends_bind; [|intros ?]
    | match goal with x : (_ * _)%type |- _ => destruct x end ].

Lemma appends_stage (id v : string) (p : Z) : only_appends (stage id v p).
Proof. unfold stage. appends. Qed.

Lemma appends_handler (id : string) (e : exn) : only_appends (train_handler id e).
Proof. unfold train_handler. appends. Qed.

(** Steps on a state whose table holds the job. *)
Lemma run_get_job {A} (id : string) (k : Job → M A) J j W :
  bind (get_job id) k {| training_jobs := <[id := j]> J; status_writes := W |}
  = k j {| training_jobs := <[id := j]> J; status_writes := W |}.
Proof. unfold bind, get_job. simpl. by rewrite lookup_insert_eq. Qed.

Lemma run_stage {A} (id v : string) (p : Z) (k : unit → M A) J j W :
  bind (stage id v p) k {| training_jobs := <[id := j]> J; status_writes := W |}
  = k tt {| training_jobs := <[id := with_progress p (with_status v j)]> J;
            status_writes := W ++ [(id, v)] |}.
Proof. unfold bind, stage, set_status, update. simpl. by rewrite !alter_insert_eq. Qed.

Lemma statuses_of_app (id : string) (J J' : gmap string Job)
    (W W' : list (string * string)) :
  statuses_of id {| training_jobs := J; status_writes := W ++ W' |}
  = (statuses_of id {| training_jobs := J'; status_writes := W |}
     ++ statuses_of id {| training_jobs := J'; status_writes := W' |})%list.
Proof. unfold statuses_of. simpl. by rewrite filter_app, map_app. Qed.

Lemma statuses_of_own (id v : string) (J : gmap string Job) (W : list (string * string)) :
  statuses_of id {| training_jobs := J; status_writes := (id, v) :: W |}
  = v :: statuses_of id {| training_jobs := J; status_writes := W |}.
Proof.
  unfold statuses_of. simpl. rewrite filter_cons_True; [done|].
  simpl. by rewrite String.eqb_refl.
Qed.

Lemma train_body_legacy (E : Env) (id : string) J j W :
  String.eqb (model_type j) "comprehensive" = false →
  pipeline_initialize E = Ok tt →
  ∃ w, status_writes
         (train_body E id {| training_jobs := <[id := j]> J; status_writes := W |}).2
       = (W ++ [(id, "initializing"); (id, "loading_data");
                (id, "feature_engineering"); (id, "loading_data")] ++ w)%list.
Proof.
  intros Hmt Hinit.
  unfold train_body. rewrite run_get_job, run_stage.
  rewrite Hinit. unfold bind at 1, lift at 1.
  rewrite run_stage, run_get_job.
  unfold _get_training_user_ids. unfold bind at 1, lift at 1.
  rewrite run_stage, run_get_job.
  match goal with |- context [String.eqb (TrainingService.model_type ?x) _] =>
    change (TrainingService.model_type x) with (TrainingService.model_type j)
  end.
  rewrite Hmt. unfold legacy_branch. rewrite run_stage.
  match goal with |- ∃ w, status_writes (?m ?st).2 = _ =>
    assert (A : only_appends m) by appends;
    destruct (A st) as [w Hw]; exists w; rewrite Hw
  end.
  simpl. by rewrite <- !app_assoc.
Qed.

(** For every model type other than "comprehensive", whatever the
    dataset, the hyperparameters and the behaviour of the libraries: once
    the pipeline has initialized, the job is written loading_data a
    second time, after feature_engineering. *)
Lemma legacy_jobs_go_back (E : Env) (id : string) (now : Z)
    (dataset_path model_type : string) (hp : option (gmap string pyval)) (s : t) :
  String.eqb model_type "comprehensive" = false →
  pipeline_initialize E = Ok tt →
  ∃ rest,
    statuses_of id (run_job E id now dataset_path model_type hp s).2
    = (statuses_of id s
       ++ ["started"; "initializing"; "loading_data"; "feature_engineering";
           "loading_data"] ++ rest)%list.
Proof.
  intros Hmt Hinit. destruct s as [J W].
  unfold run_job, start_training, bind at 1. simpl.
  unfold _train_model, try_.
  match goal with
  | |- context [train_body E id {| training_jobs := <[id := ?j]> ?J';
                                   status_writes := ?W' |}] =>
      destruct (train_body_legacy E id J' j W' Hmt Hinit) as [w Hw];
      destruct (train_body E id {| training_jobs := <[id := j]> J';
                                   status_writes := W' |}) as [[a|e] s']
  end; simpl in Hw.
  - exists (statuses_of id {| training_jobs := ∅; status_writes := w |}).
    destruct s' as [J' W']. simpl in *. subst W'.
    rewrite <- !app_assoc.
    rewrite (statuses_of_app id _ J). f_equal. simpl.
    by rewrite !statuses_of_own.
  - destruct (appends_handler id e s') as [w' Hw'].
    exists (statuses_of id {| training_jobs := ∅; status_writes := w ++ w' |}).
    destruct (train_handler id e s') as [r [J'' W'']]. simpl in *. subst W''.
    rewrite Hw. rewrite <- !app_assoc.
    rewrite (statuses_of_app id _ J). f_equal. simpl.
    by rewrite !statuses_of_own.
Qed.

(** ** The business cost *)

Import Sklearn.








Lemma masked_ok (y_pred : list Z) (proba : list (Q * Q)) (label : Z)
    (col : Q * Q → Q) :
  length proba = length y_pred →
  ∃ l, EvaluationService.masked y_pred proba label col = Ok l.
Proof.
  revert proba. induction y_pred as [|y ys IH]; intros [|p ps]; simpl;
    try discriminate; [eauto|].
  intros [= H]. destruct (IH ps H) as [l ->]. simpl. eauto.
Qed.

Lemma confusion_matrix_of_samples (y_true y_pred : list Z) :
  length y_true = length y_pred → y_true ≠ [] →
  confusion_matrix y_true y_pred
  = Ok (map (fun t => map (fun p => count_pair t p (zip_labels y_true y_pred))
                          (unique_labels (y_true ++ y_pred)))
            (unique_labels (y_true ++ y_pred))).
Proof.
  intros Hlen Hne. unfold confusion_matrix.
  rewrite Hlen, Nat.eqb_refl. rewrite <- Hlen.
  destruct y_true; [done|reflexivity].
Qed.

Lemma confusion_matrix_no_sample (y_pred : list Z) :
  ∃ msg, confusion_matrix [] y_pred = Raise (ValueError msg).
Proof. destruct y_pred; by eexists. Qed.




(** * Further properties of the four modules *)

(** ** train.py: what a background task does to the job table *)

Lemma runs_ret {A} (id : string) (a : A) j (Q : result A → Job → Prop) :
  Q (Ok a) j → runs id (ret a) j Q.
Proof. intros H J W. by exists (Ok a), j, W. Qed.

Lemma runs_raise {A} (id : string) (e : exn) j (Q : result A → Job → Prop) :
  Q (Raise e) j → runs id (raise e) j Q.
Proof. intros H J W. by exists (Raise e), j, W. Qed.

Lemma runs_lift {A} (id : string) (r : result A) j (Q : result A → Job → Prop) :
  Q r j → runs id (lift r) j Q.
Proof. intros H J W. by exists r, j, W. Qed.

Lemma runs_get_job (id : string) j (Q : result Job → Job → Prop) :
  Q (Ok j) j → runs id (get_job id) j Q.
Proof.
  intros H J W. exists (Ok j), j, W. split; [|done].
  unfold get_job. simpl. by rewrite lookup_insert_eq.
Qed.

Lemma runs_update (id : string) (f : Job → Job) j (Q : result unit → Job → Prop) :
  Q (Ok tt) (f j) → runs id (update id f) j Q.
Proof.
  intros H J W. exists (Ok tt), (f j), W. split; [|done].
  unfold update. simpl. by rewrite alter_insert_eq.
Qed.

Lemma runs_set_status (id v : string) j (Q : result unit → Job → Prop) :
  Q (Ok tt) (with_status v j) → runs id (set_status id v) j Q.
Proof.
  intros H J W. exists (Ok tt), (with_status v j), (W ++ [(id, v)])%list.
  split; [|done]. unfold set_status. simpl. by rewrite alter_insert_eq.
Qed.

Lemma runs_bind {A B} (id : string) (m : M A) (f : A → M B) j
    (Q : result B → Job → Prop) :
  runs id m j (fun r j' =>
    match r with
    | Ok a => runs id (f a) j' Q
    | Raise e => Q (Raise e) j'
    end) →
  runs id (bind m f) j Q.
Proof.
  intros H J W. destruct (H J W) as (r & j' & W' & E & HQ).
  unfold bind. rewrite E. destruct r as [a|e].
  - exact (HQ J W').
  - by exists (Raise e), j', W'.
Qed.

Lemma runs_try {A} (id : string) (m : M A) (h : exn → M A) j
    (Q : result A → Job → Prop) :
  runs id m j (fun r j' =>
    match r with
    | Ok a => Q (Ok a) j'
    | Raise e => runs id (h e) j' Q
    end) →
  runs id (try_ m h) j Q.
Proof.
  intros H J W. destruct (H J W) as (r & j' & W' & E & HQ).
  unfold try_. rewrite E. destruct r as [a|e].
  - by exists (Ok a), j', W'.
  - exact (HQ J W').
Qed.

Lemma runs_stage (id v : string) (p : Z) j (Q : result unit → Job → Prop) :
  Q (Ok tt) (with_progress p (with_status v j)) → runs id (stage id v p) j Q.
Proof.
  intros H. unfold stage. apply runs_bind, runs_set_status, runs_update, H.
Qed.

(** One step of a task, by the rule of its head. *)
Ltac run_step id :=
  first
    [ apply (runs_try id) | apply (runs_bind id) | apply (runs_get_job id)
    | apply (runs_stage id) | apply (runs_set_status id)
    | apply (runs_update id) | apply (runs_ret id) | apply (runs_raise id)
    | apply (runs_lift id) ];
  cbv beta.

(** The [except] clause, on a job that is in the table. *)
Lemma runs_handler (id : string) (e : exn) j (Q : result unit → Job → Prop) :
  Q (Ok tt) (with_error (exn_str e) (with_status "failed" j)) →
  runs id (train_handler id e) j Q.
Proof. intros H. unfold train_handler. repeat run_step id. exact H. Qed.

Ltac run_all id :=
  repeat first
    [ apply (runs_handler id)
    | apply (runs_get_job id) | apply (runs_stage id)
    | apply (runs_set_status id) | apply (runs_update id)
    | apply (runs_lift id); cbv beta
    | apply (runs_ret id) | apply (runs_raise id)
    | apply (runs_try id); cbv beta | apply (runs_bind id); cbv beta
    | match goal with
      | |- runs _ (if ?b then _ else _) _ _ => destruct b eqn:?
      | |- runs _ (let '(_, _) := ?d in _) _ _ => destruct d
      | |- runs _ (match ?x with _ => _ end) _ _ => destruct x eqn:?
      | |- match ?r with Ok _ => _ | Raise _ => _ end => destruct r eqn:?
      end ].

Ltac settle :=
  split; [reflexivity|]; unfold settled;
  repeat (split; [reflexivity|]);
  first [ left; repeat split; (reflexivity || by eexists)
        | right; split; (reflexivity || by eexists) ].

Lemma train_model_runs (E : Env) (id : string) (j : Job) :
  runs id (_train_model E id) j (fun r j' => r = Ok tt ∧ settled j j').
Proof.
  unfold _train_model, train_body, comprehensive_branch, legacy_branch.
  run_all id; try settle.
Qed.

Lemma runs_from_state {A} (id : string) (m : M A) (j : Job)
    (Q : result A → Job → Prop) (s : t) :
  runs id m j Q →
  training_jobs s !! id = Some j →
  ∃ r j' W',
    m s = (r, {| training_jobs := <[id := j']> (training_jobs s);
                 status_writes := W' |})
    ∧ Q r j'.
Proof.
  intros H Hj. destruct s as [J W]. simpl in *.
  destruct (H J W) as (r & j' & W' & E & HQ).
  rewrite (insert_id J id j Hj) in E. by exists r, j', W'.
Qed.

(** X1. A background task whose job is in the table never raises: it
    returns normally, touches no other job, leaves the request of its
    own job as it was, and leaves the job either completed (progress
    100, with a model version and an end time) or failed (with an error
    message), whatever the collaborators do. *)
Theorem train_model_never_raises (E : Env) (id : string) (s : t) (j : Job) :
  training_jobs s !! id = Some j →
  ∃ j' W',
    _train_model E id s
    = (Ok tt, {| training_jobs := <[id := j']> (training_jobs s);
                 status_writes := W' |})
    ∧ settled j j'
    ∧ ∀ other, other ≠ id →
        training_jobs (_train_model E id s).2 !! other = training_jobs s !! other.
Proof.
  intros Hj.
  destruct (runs_from_state id _ j _ s (train_model_runs E id j) Hj)
    as (r & j' & W' & Eq & -> & Hs).
  exists j', W'. split; [exact Eq|]. split; [exact Hs|].
  intros other Hne. rewrite Eq. simpl. by rewrite lookup_insert_ne.
Qed.

(** A job that a baseline run of the example completes. *)
Lemma train_model_never_raises_witness :
  ∃ j', (training_jobs (run_job Examples.smooth Examples.job_id 1704067100
                          "data/burnout.xlsx" "baseline" None init).2
         !! Examples.job_id) = Some j'
        ∧ status j' = "completed" ∧ progress j' = 100%Z.
Proof.
  set (s1 := (start_training Examples.job_id 1704067100
                "data/burnout.xlsx" "baseline" None init).2).
  destruct (train_model_never_raises Examples.smooth Examples.job_id s1
              {| status := "started"; model_type := "baseline";
                 dataset_path := "data/burnout.xlsx"; hyperparameters := ∅;
                 start_time := 1704067100; progress := 0; metrics := ∅;
                 training_results := None; model_version := None;
                 end_time := None; error := None |})
    as (j' & W' & Eq & Hs & _).
  - reflexivity.
  - vm_compute. eexists. split; [reflexivity|]. split; reflexivity.
Defined.

(** X2. When the job is not in the table (the table was cleared, or the
    id is unknown), the task raises [KeyError]: the [except] clause
    itself looks the job up and fails, and the state is as before. *)
Theorem train_model_without_job_raises (E : Env) (id : string) (s : t) :
  training_jobs s !! id = None →
  _train_model E id s = (Raise (KeyError id), s).
Proof.
  intros H. unfold _train_model, try_, train_body, train_handler.
  unfold bind at 1, get_job at 1. rewrite H.
  unfold bind at 1, get_job at 1. by rewrite H.
Qed.

Lemma train_model_without_job_raises_witness :
  _train_model Examples.smooth Examples.job_id
    (cleanup (run_job Examples.smooth Examples.job_id 1704067100
                "data/burnout.xlsx" "baseline" None init).2).2
  = (Raise (KeyError Examples.job_id),
     (cleanup (run_job Examples.smooth Examples.job_id 1704067100
                 "data/burnout.xlsx" "baseline" None init).2).2).
Proof. apply train_model_without_job_raises. reflexivity. Defined.

Lemma load_training_data_ok (L : Lib.t) (path : string) :
  ∃ d, _load_training_data L path = Ok d.
Proof.
  destruct (dummy_data_ok L) as [(X1 & y1 & D1 & _) _].
  unfold _load_training_data, try_except.
  destruct (load_training_body L path); eauto.
Qed.

(** X3. The two loaders never raise. Whatever goes wrong in the [try]
    block (no file, a file that does not parse, a missing feature
    column, another extension), the caller gets the dummy dataset and
    nothing tells it apart from a dataset that was read. *)
Theorem loaders_never_raise (L : Lib.t) (path : string) :
  (∃ d, _load_training_data L path = Ok d)
  ∧ (∃ d, EvaluationService._load_test_data L path = Ok d)
  ∧ (∀ e, load_training_body L path = Raise e →
          _load_training_data L path = _generate_dummy_data L)
  ∧ (∀ e, EvaluationService.load_test_body L path = Raise e →
          EvaluationService._load_test_data L path
          = EvaluationService._generate_dummy_test_data L)
  ∧ (Lib.path_exists L path = false →
     _load_training_data L path = _generate_dummy_data L
     ∧ EvaluationService._load_test_data L path
       = EvaluationService._generate_dummy_test_data L).
Proof.
  destruct (dummy_data_ok L) as [(X1 & y1 & D1 & _) (X2 & y2 & D2 & _)].
  unfold _load_training_data, EvaluationService._load_test_data, try_except.
  repeat split.
  - destruct (load_training_body L path); eauto.
  - destruct (EvaluationService.load_test_body L path); eauto.
  - by intros e ->.
  - by intros e ->.
  - unfold load_training_body. rewrite H. cbn [negb]. by rewrite D1.
  - unfold EvaluationService.load_test_body. rewrite H. cbn [negb].
    by rewrite D2.
Qed.

Lemma loaders_never_raise_witness :
  _load_training_data Examples.spreadsheet_only "data/missing.csv"
  = _generate_dummy_data Examples.spreadsheet_only
  ∧ EvaluationService._load_test_data Examples.spreadsheet_only "data/missing.csv"
    = EvaluationService._generate_dummy_test_data Examples.spreadsheet_only.
Proof.
  destruct (loaders_never_raise Examples.spreadsheet_only "data/missing.csv")
    as (_ & _ & _ & _ & H).
  apply H. reflexivity.
Defined.

Lemma unknown_model_type_runs (E : Env) (id : string) (j : Job) :
  String.eqb (model_type j) "comprehensive" = false →
  String.eqb (model_type j) "baseline" = false →
  String.eqb (model_type j) "advanced" = false →
  runs id (_train_model E id) j (fun r j' =>
    r = Ok tt ∧ status j' = "failed" ∧ model_version j' = model_version j
    ∧ (pipeline_initialize E = Ok tt →
       (∀ X y, ∃ sp, train_test_split E X y = Ok sp) →
       error j' = Some ("Unknown model type: " ++ model_type j)
       ∧ progress j' = 60%Z ∧ metrics j' = metrics j)).
Proof.
  intros Hc Hb Ha.
  unfold _train_model, train_body, comprehensive_branch, legacy_branch.
  run_all id;
    repeat match goal with
    | H : String.eqb _ "comprehensive" = true |- _ =>
        simpl in H; rewrite Hc in H; discriminate H
    | H : _create_model _ _ = Ok _ |- _ =>
        unfold _create_model in H; simpl in H; rewrite Hb, Ha in H; discriminate H
    | H : _create_model _ _ = Raise _ |- _ =>
        unfold _create_model in H; simpl in H; rewrite Hb, Ha in H;
        injection H as <-
    end;
    (split; [reflexivity|]; split; [reflexivity|]; split; [reflexivity|]);
    intros Hi Hs;
    try congruence;
    try (match goal with
         | H : train_test_split E ?X ?y = Raise _ |- _ =>
             destruct (Hs X y); congruence
         | H : _load_training_data ?L ?p = Raise _ |- _ =>
             destruct (load_training_data_ok L p) as [d Hd]; congruence
         end).
  repeat split; reflexivity.
Qed.

(** X4. A job whose model type is none of comprehensive, baseline and
    advanced always ends failed and without a model version. The type is
    only checked after the data was loaded and split: when the pipeline
    initializes and the split succeeds, the job stops at progress 60 with
    the error "Unknown model type: <type>". *)
Theorem unknown_model_type_fails (E : Env) (id : string) (s : t) (j : Job) :
  training_jobs s !! id = Some j →
  model_type j ≠ "comprehensive" →
  model_type j ≠ "baseline" →
  model_type j ≠ "advanced" →
  ∃ j' W',
    _train_model E id s
    = (Ok tt, {| training_jobs := <[id := j']> (training_jobs s);
                 status_writes := W' |})
    ∧ status j' = "failed"
    ∧ model_version j' = model_version j
    ∧ (pipeline_initialize E = Ok tt →
       (∀ X y, ∃ sp, train_test_split E X y = Ok sp) →
       error j' = Some ("Unknown model type: " ++ model_type j)
       ∧ progress j' = 60%Z ∧ metrics j' = metrics j).
Proof.
  intros Hj Hc Hb Ha.
  apply String.eqb_neq in Hc, Hb, Ha.
  destruct (runs_from_state id _ j _ s
              (unknown_model_type_runs E id j Hc Hb Ha) Hj)
    as (r & j' & W' & Eq & -> & H).
  by exists j', W'.
Qed.

Lemma unknown_model_type_fails_witness :
  ∃ j', (training_jobs (run_job Examples.smooth Examples.job_id 1704067100
                          "data/burnout.xlsx" "xgboost" None init).2
         !! Examples.job_id) = Some j'
        ∧ status j' = "failed"
        ∧ error j' = Some "Unknown model type: xgboost"
        ∧ progress j' = 60%Z.
Proof.
  set (s1 := (start_training Examples.job_id 1704067100
                "data/burnout.xlsx" "xgboost" None init).2).
  destruct (unknown_model_type_fails Examples.smooth Examples.job_id s1
              {| status := "started"; model_type := "xgboost";
                 dataset_path := "data/burnout.xlsx"; hyperparameters := ∅;
                 start_time := 1704067100; progress := 0; metrics := ∅;
                 training_results := None; model_version := None;
                 end_time := None; error := None |})
    as (j' & W' & Eq & Hst & _ & Hrest).
  - reflexivity.
  - intros H; discriminate H.
  - intros H; discriminate H.
  - intros H; discriminate H.
  - destruct Hrest as (He & Hp & _); [reflexivity | by eexists |].
    exists j'. split; [|by repeat split].
    change (run_job Examples.smooth Examples.job_id 1704067100
              "data/burnout.xlsx" "xgboost" None init)
      with (_train_model Examples.smooth Examples.job_id s1).
    rewrite Eq. simpl. by rewrite lookup_insert_eq.
Defined.

(** X5. From start to poll. [start_training] records the job as started
    with progress 0 and [get_training_status] reports it so; once the
    background task has run, [get_training_status] reports a terminal
    status for the same request: completed with progress 100, a model
    version and an end time, or failed with an error; and no other job
    of the table has changed. *)
Theorem job_life_cycle (E : Env) (id : string) (now : Z)
    (dataset_path model_type : string) (hp : option (gmap string pyval)) (s : t) :
  let s1 := (start_training id now dataset_path model_type hp s).2 in
  let s2 := (run_job E id now dataset_path model_type hp s).2 in
  (∃ v, get_training_status id s1 = (Ok v, s1)
        ∧ view_status v = "started" ∧ view_progress v = 0%Z
        ∧ view_model_type v = model_type ∧ view_start_time v = now
        ∧ view_model_version v = None ∧ view_error v = None)
  ∧ (run_job E id now dataset_path model_type hp s).1 = Ok tt
  ∧ (∃ v, get_training_status id s2 = (Ok v, s2)
          ∧ view_model_type v = model_type ∧ view_start_time v = now
          ∧ ((view_status v = "completed" ∧ view_progress v = 100%Z
              ∧ is_Some (view_model_version v) ∧ is_Some (view_end_time v)
              ∧ view_error v = None)
             ∨ (view_status v = "failed" ∧ is_Some (view_error v))))
  ∧ (∀ other, other ≠ id →
       training_jobs s2 !! other = training_jobs s !! other).
Proof.
  intros s1 s2.
  set (j0 := {| status := "started"; model_type := model_type;
                dataset_path := dataset_path; hyperparameters := default ∅ hp;
                start_time := now; progress := 0; metrics := ∅;
                training_results := None; TrainingService.model_version := None;
                end_time := None; error := None |}).
  assert (H1 : training_jobs s1 !! id = Some j0)
    by (subst s1; simpl; by rewrite lookup_insert_eq).
  destruct (runs_from_state id _ j0 _ s1 (train_model_runs E id j0) H1)
    as (r & j' & W' & Eq & -> & (Hm & _ & _ & Ht & Hfin)).
  assert (R : run_job E id now dataset_path model_type hp s = _train_model E id s1)
    by reflexivity.
  split; [|split; [|split]].
  - unfold get_training_status. rewrite H1. eexists. split; [reflexivity|].
    by repeat split.
  - by rewrite R, Eq.
  - subst s2. rewrite R, Eq. unfold get_training_status. simpl.
    rewrite lookup_insert_eq. eexists. split; [reflexivity|]. simpl.
    split; [exact Hm|]. split; [exact Ht|].
    destruct Hfin as [(? & ? & ? & ? & ->)|[? ?]]; [left|right]; by repeat split.
  - intros other Hne. subst s2. rewrite R, Eq. simpl.
    rewrite lookup_insert_ne by done.
    subst s1. simpl. by rewrite lookup_insert_ne.
Qed.

Lemma job_life_cycle_witness :
  (run_job Examples.smooth Examples.job_id 1704067100
     "data/burnout.xlsx" "baseline" None init).1 = Ok tt
  ∧ training_jobs
      (run_job Examples.smooth Examples.job_id 1704067100
         "data/burnout.xlsx" "baseline" None init).2 !! "another job"
    = None.
Proof.
  destruct (job_life_cycle Examples.smooth Examples.job_id 1704067100
              "data/burnout.xlsx" "baseline" None init) as (_ & H & _ & O).
  split; [exact H|]. rewrite O; [reflexivity|]. intros H'. discriminate H'.
Defined.

(** X6. [_create_model] accepts the types baseline and advanced only
    (so not comprehensive, the default type of a job); the baseline
    forest depends on the hyperparameters [n_estimators] and [max_depth]
    alone, so that [min_samples_split], [min_samples_leaf] or any other
    key passed for it is ignored; the seed is 42 whatever is passed. *)
Theorem create_model_reads_few_keys :
  (∀ model_type hp,
     model_type ≠ "baseline" → model_type ≠ "advanced" →
     _create_model model_type hp
     = Raise (ValueError ("Unknown model type: " ++ model_type)))
  ∧ (∀ hp hp' : gmap string pyval,
       hp !! "n_estimators" = hp' !! "n_estimators" →
       hp !! "max_depth" = hp' !! "max_depth" →
       _create_model "baseline" hp = _create_model "baseline" hp')
  ∧ (∀ model_type hp f,
       _create_model model_type hp = Ok f → random_state f = 42%Z)
  ∧ (∀ v, ∃ f, _create_model "baseline" {[ "min_samples_split" := v ]} = Ok f
               ∧ min_samples_split f = PInt 2
               ∧ n_estimators f = PInt 100 ∧ max_depth f = PInt 10)
  ∧ (∀ v, ∃ f, _create_model "advanced" {[ "min_samples_split" := v ]} = Ok f
               ∧ min_samples_split f = v
               ∧ n_estimators f = PInt 200 ∧ max_depth f = PInt 15).
Proof.
  split; [|split; [|split; [|split]]].
  - intros mt hp Hb Ha. apply String.eqb_neq in Hb, Ha.
    unfold _create_model. by rewrite Hb, Ha.
  - intros hp hp' H1 H2. unfold _create_model, get_default. simpl.
    by rewrite H1, H2.
  - intros mt hp f. unfold _create_model.
    destruct (String.eqb mt "baseline"); [by intros [= <-]|].
    destruct (String.eqb mt "advanced"); [by intros [= <-]|discriminate].
  - intros v. eexists. split; [reflexivity|]. by repeat split.
  - intros v. eexists. split; [reflexivity|]. by repeat split.
Qed.

Lemma create_model_reads_few_keys_witness :
  _create_model "comprehensive" ∅
  = Raise (ValueError "Unknown model type: comprehensive")
  ∧ _create_model "baseline" {[ "min_samples_leaf" := PInt 50 ]}
    = _create_model "baseline" ∅.
Proof.
  destruct create_model_reads_few_keys as (H1 & H2 & _).
  split.
  - apply (H1 "comprehensive" ∅); discriminate.
  - apply (H2 {[ "min_samples_leaf" := PInt 50 ]} ∅); reflexivity.
Defined.

(** ** evaluate.py: what an evaluation leaves behind *)

(** The steps of [evaluate] in order, by cases on the outcome of each;
    a case in which a step raises is closed at once. *)
Ltac raised := first [reflexivity | by intros].

Ltac evaluate_steps E :=
  unfold EvaluationService.evaluate, try_, EvaluationService.evaluate_body;
  unfold bind, lift, raise, ret;
  destruct (Lib.path_exists _ _); cbn [negb]; [|raised];
  destruct (EvaluationService.joblib_load E _) as [model|]; [|raised];
  destruct (EvaluationService._load_test_data _ _) as [[X y]|]; [|raised];
  destruct (EvaluationService.predict model X) as [y_pred|]; [|raised];
  destruct (match EvaluationService.predict_proba model with
            | Some f => _ | None => _ end) as [proba|]; [|raised];
  destruct (EvaluationService.evaluate_model E _ _ _ _ _ _) as [cm|] eqn:Emetrics;
    [|raised];
  destruct (EvaluationService._calculate_business_metrics _ _ _) as [bm|];
    [|raised].

(** X7. [evaluate] writes all or nothing. When it raises, whatever the
    step that failed, the stored evaluations are as before; when it
    returns, exactly one entry was written, under the fresh id, it is the
    evaluation returned, it names the requested model and target, and
    [get_evaluation] gives it back. *)
Theorem evaluate_all_or_nothing (E : EvaluationService.Env)
    (model_version test_dataset_path : string) (include_shap : bool)
    (target_recall : Q) (s : EvaluationService.t) :
  match EvaluationService.evaluate E model_version test_dataset_path
          include_shap target_recall s with
  | (Raise e, s') => s' = s
  | (Ok ev, s') =>
      EvaluationService.evaluation_jobs s'
      = <[EvaluationService.uuid4 E := ev]> (EvaluationService.evaluation_jobs s)
      ∧ EvaluationService.evaluation_id ev = EvaluationService.uuid4 E
      ∧ EvaluationService.model_version ev = model_version
      ∧ EvaluationService.target_recall ev = target_recall
      ∧ (include_shap = false → EvaluationService.shap_analysis ev = None)
      ∧ EvaluationService.get_evaluation (EvaluationService.uuid4 E) s' = (Ok ev, s')
  end.
Proof.
  evaluate_steps E.
  destruct (EvaluationService._generate_evaluation_summary _ _ _) as [sm|];
    [|reflexivity].
  simpl.
  repeat split; try reflexivity.
  - by intros ->.
  - unfold EvaluationService.get_evaluation. simpl. by rewrite lookup_insert_eq.
Qed.

(** X8. The SHAP analysis never decides the outcome of an evaluation:
    with any other analyzer (one that always raises, say) [evaluate]
    raises the same exception or returns the same evaluation, up to its
    [shap_analysis] entry; and an analyzer that raises [e] leaves the
    entry [{"error": str(e)}] there (or nothing, for a model without
    [predict_proba]). *)
Theorem shap_failure_is_not_fatal (E : EvaluationService.Env)
    (analyzer : EvaluationService.Classifier → matrix → list string →
                result (gmap string pyval))
    (model_version test_dataset_path : string) (include_shap : bool)
    (target_recall : Q) (s : EvaluationService.t) :
  let E' :=
    {| EvaluationService.lib := EvaluationService.lib E;
       EvaluationService.uuid4 := EvaluationService.uuid4 E;
       EvaluationService.utcnow := EvaluationService.utcnow E;
       EvaluationService.joblib_load := EvaluationService.joblib_load E;
       EvaluationService.evaluate_model := EvaluationService.evaluate_model E;
       EvaluationService.analyze_model := analyzer;
       EvaluationService.format_3f := EvaluationService.format_3f E;
       EvaluationService.format_float := EvaluationService.format_float E |} in
  match (EvaluationService.evaluate E model_version test_dataset_path
           include_shap target_recall s).1,
        (EvaluationService.evaluate E' model_version test_dataset_path
           include_shap target_recall s).1 with
  | Raise e, Raise e' => e = e'
  | Ok ev, Ok ev' =>
      ev' =
        {| EvaluationService.evaluation_id := EvaluationService.evaluation_id ev;
           EvaluationService.model_version := EvaluationService.model_version ev;
           EvaluationService.evaluation_date := EvaluationService.evaluation_date ev;
           EvaluationService.test_samples := EvaluationService.test_samples ev;
           EvaluationService.model_type := EvaluationService.model_type ev;
           EvaluationService.target_recall := EvaluationService.target_recall ev;
           EvaluationService.metrics := EvaluationService.metrics ev;
           EvaluationService.business := EvaluationService.business ev;
           EvaluationService.shap_analysis := EvaluationService.shap_analysis ev';
           EvaluationService.evaluation_summary :=
             EvaluationService.evaluation_summary ev |}
      ∧ ∀ e, (∀ m X names, analyzer m X names = Raise e) →
             EvaluationService.shap_analysis ev' = None
             ∨ EvaluationService.shap_analysis ev'
               = Some {[ "error" := PStr (exn_str e) ]}
  | _, _ => False
  end.
Proof.
  intros E'. subst E'.
  unfold EvaluationService.evaluate, try_, EvaluationService.evaluate_body.
  cbn [EvaluationService.lib EvaluationService.uuid4 EvaluationService.utcnow
       EvaluationService.joblib_load EvaluationService.evaluate_model
       EvaluationService.analyze_model EvaluationService.format_3f
       EvaluationService.format_float].
  unfold bind, lift, raise, ret.
  destruct (Lib.path_exists _ _); cbn [negb]; [|reflexivity].
  destruct (EvaluationService.joblib_load E _) as [model|]; [|reflexivity].
  destruct (EvaluationService._load_test_data _ _) as [[X y]|]; [|reflexivity].
  destruct (EvaluationService.predict model X) as [y_pred|]; [|reflexivity].
  destruct (match EvaluationService.predict_proba model with
            | Some f => _ | None => _ end) as [proba|]; [|reflexivity].
  destruct (EvaluationService.evaluate_model E _ _ _ _ _ _) as [cm|]; [|reflexivity].
  destruct (EvaluationService._calculate_business_metrics _ _ _) as [bm|];
    [|reflexivity].
  match goal with
  | |- context [EvaluationService._generate_evaluation_summary
                  (EvaluationService.Build_Env ?a ?b ?c ?d ?e ?f ?g ?h)
                  cm target_recall] =>
      change (EvaluationService._generate_evaluation_summary
                (EvaluationService.Build_Env a b c d e f g h) cm target_recall)
        with (EvaluationService._generate_evaluation_summary E cm target_recall)
  end.
  destruct (EvaluationService._generate_evaluation_summary _ _ _) as [sm|];
    [|reflexivity].
  cbn. split; [reflexivity|].
  intros e He. destruct (include_shap && _); [right|by left].
  by rewrite He.
Qed.

(** ** evaluate.py: the business metrics *)

(** The metrics in terms of the four cells read off the matrix. *)
Lemma business_metrics_of_cells (y_true y_pred : list Z)
    (y_pred_proba : option (list (Q * Q))) :
  y_true ≠ [] →
  length y_true = length y_pred →
  (∀ proba, y_pred_proba = Some proba → length proba = length y_pred) →
  ∃ cm m tn fp fn tp,
    confusion_matrix y_true y_pred = Ok cm
    ∧ EvaluationService.unpack cm = (tn, fp, fn, tp)
    ∧ EvaluationService._calculate_business_metrics y_true y_pred y_pred_proba = Ok m
    ∧ EvaluationService.true_positive_rate m
      = (if (0 <? tp + fn)%Z then EvaluationService.ratio tp (tp + fn) else 0%Q)
    ∧ EvaluationService.false_positive_rate m
      = (if (0 <? fp + tn)%Z then EvaluationService.ratio fp (fp + tn) else 0%Q)
    ∧ EvaluationService.precision m
      = (if (0 <? tp + fp)%Z then EvaluationService.ratio tp (tp + fp) else 0%Q)
    ∧ EvaluationService.total_cost m = (fn * 100 + fp * 10)%Z
    ∧ EvaluationService.cost_per_prediction m
      = (if (0 <? Z.of_nat (length y_true))%Z
         then EvaluationService.ratio (fn * 100 + fp * 10) (Z.of_nat (length y_true))
         else 0%Q)
    ∧ EvaluationService.risk_distribution m
      = (proba ← y_pred_proba;
         Some (EvaluationService.count_if
                 (fun p => Qle_bool (7 # 10) (snd p)) proba,
               EvaluationService.count_if
                 (fun p => Qle_bool (4 # 10) (snd p) && Qltb (snd p) (7 # 10)) proba,
               EvaluationService.count_if
                 (fun p => Qltb (snd p) (4 # 10)) proba)).
Proof.
  intros Hne Hlen Hproba.
  unfold EvaluationService._calculate_business_metrics.
  destruct (confusion_matrix y_true y_pred) as [cm|] eqn:Ecm.
  2: { by rewrite (confusion_matrix_of_samples y_true y_pred Hlen Hne) in Ecm. }
  destruct (EvaluationService.unpack cm) as [[[tn fp] fn] tp] eqn:U.
  exists cm. simpl. rewrite U.
  destruct y_pred_proba as [proba|].
  - destruct (masked_ok y_pred proba 1 snd) as [pos ->]; [by apply Hproba|].
    destruct (masked_ok y_pred proba 0 fst) as [neg ->]; [by apply Hproba|].
    simpl. eexists _, tn, fp, fn, tp. by repeat split.
  - eexists _, tn, fp, fn, tp. by repeat split.
Qed.

Lemma count_pair_nonneg (t p : Z) (samples : list (Z * Z)) :
  (0 <= count_pair t p samples)%Z.
Proof.
  induction samples as [|[a b] rest IH]; simpl; [lia|].
  destruct ((a =? t)%Z && (b =? p)%Z); lia.
Qed.

Lemma confusion_matrix_nonneg (y_true y_pred : list Z) (cm : list (list Z)) :
  confusion_matrix y_true y_pred = Ok cm → Forall (fun c => 0 <= c)%Z (ravel cm).
Proof.
  unfold confusion_matrix.
  destruct (negb (length y_true =? length y_pred)%nat); [discriminate|].
  destruct (length y_true =? 0)%nat; [discriminate|].
  intros [= <-]. unfold ravel. apply Forall_concat, Forall_forall.
  intros row Hrow. apply list_elem_of_In in Hrow.
  apply in_map_iff in Hrow as [t [<- _]].
  apply Forall_forall. intros c Hc. apply list_elem_of_In in Hc.
  apply in_map_iff in Hc as [p [<- _]]. apply count_pair_nonneg.
Qed.

Lemma unpack_nonneg (cm : list (list Z)) tn fp fn tp :
  Forall (fun c => 0 <= c)%Z (ravel cm) →
  EvaluationService.unpack cm = (tn, fp, fn, tp) →
  (0 <= tn ∧ 0 <= fp ∧ 0 <= fn ∧ 0 <= tp)%Z.
Proof.
  unfold EvaluationService.unpack. intros H.
  destruct (size cm =? 4)%nat; [|intros [= <- <- <- <-]; lia].
  destruct (ravel cm) as [|a [|b [|c [|d [|? ?]]]]];
    try (intros [= <- <- <- <-]; lia).
  intros [= <- <- <- <-].
  apply Forall_cons in H as [? H]. apply Forall_cons in H as [? H].
  apply Forall_cons in H as [? H]. apply Forall_cons in H as [? H]. lia.
Qed.

Lemma ratio_in_unit (a b : Z) :
  (0 <= a)%Z → (0 <= b)%Z →
  let r := if (0 <? a + b)%Z then EvaluationService.ratio a (a + b) else 0%Q in
  (0 <= r <= 1)%Q.
Proof.
  intros Ha Hb. cbv zeta. destruct (0 <? a + b)%Z eqn:E.
  - apply Z.ltb_lt in E. unfold EvaluationService.ratio.
    assert (P : (0 < inject_Z (a + b))%Q) by (rewrite (Zlt_Qlt 0) in E; exact E).
    split.
    + apply Qle_shift_div_l; [exact P|]. rewrite Qmult_0_l.
      by rewrite (Zle_Qle 0) in Ha.
    + apply Qle_shift_div_r; [exact P|]. rewrite Qmult_1_l.
      rewrite <- Zle_Qle. lia.
  - split; [apply Qle_refl | discriminate].
Qed.

Lemma risk_counts_partition (proba : list (Q * Q)) :
  (EvaluationService.count_if (fun p => Qle_bool (7 # 10) (snd p)) proba
   + EvaluationService.count_if
       (fun p => Qle_bool (4 # 10) (snd p) && Qltb (snd p) (7 # 10)) proba
   + EvaluationService.count_if (fun p => Qltb (snd p) (4 # 10)) proba
   = Z.of_nat (length proba))%Z.
Proof.
  unfold EvaluationService.count_if.
  induction proba as [|[p0 p1] rest IH]; [reflexivity|].
  cbn [List.filter snd length]. unfold Qltb in *.
  destruct (Qle_bool (7 # 10) p1) eqn:H7.
  - assert (H4 : Qle_bool (4 # 10) p1 = true).
    { apply Qle_bool_iff. apply Qle_bool_iff in H7.
      eapply Qle_trans; [|exact H7]. discriminate. }
    rewrite H4. cbn [negb andb length]. lia.
  - destruct (Qle_bool (4 # 10) p1); cbn [negb andb length]; lia.
Qed.

(** X9. Whatever the labels, provided there is a sample and the two
    lists (and the probabilities, when given) have one length: the
    business metrics are computed, the three rates lie in [0, 1], the
    costs are not negative, and the high, medium and low risk counts
    share out the samples: they add up to the number of rows of
    probabilities. Without a sample no metrics are computed: the
    confusion matrix raises [ValueError]. *)
Theorem business_metrics_ranges (y_true y_pred : list Z)
    (y_pred_proba : option (list (Q * Q))) :
  y_true ≠ [] →
  length y_true = length y_pred →
  (∀ proba, y_pred_proba = Some proba → length proba = length y_pred) →
  ∃ m, EvaluationService._calculate_business_metrics y_true y_pred y_pred_proba = Ok m
       ∧ (0 <= EvaluationService.true_positive_rate m <= 1)%Q
       ∧ (0 <= EvaluationService.false_positive_rate m <= 1)%Q
       ∧ (0 <= EvaluationService.precision m <= 1)%Q
       ∧ (0 <= EvaluationService.total_cost m)%Z
       ∧ (0 <= EvaluationService.cost_per_prediction m)%Q
       ∧ (∀ proba, y_pred_proba = Some proba →
            ∃ high medium low,
              EvaluationService.risk_distribution m = Some (high, medium, low)
              ∧ (high + medium + low = Z.of_nat (length proba))%Z
              ∧ (0 <= high ∧ 0 <= medium ∧ 0 <= low)%Z)
       ∧ ∃ msg, EvaluationService._calculate_business_metrics [] y_pred y_pred_proba
                = Raise (ValueError msg).
Proof.
  intros Hne Hlen Hproba.
  destruct (business_metrics_of_cells y_true y_pred y_pred_proba Hne Hlen Hproba)
    as (cm & m & tn & fp & fn & tp & Ecm & U & Em & E1 & E2 & E3 & Ht & E5 & Hd).
  destruct (unpack_nonneg cm tn fp fn tp (confusion_matrix_nonneg _ _ _ Ecm) U)
    as (Htn & Hfp & Hfn & Htp).
  exists m. rewrite E1, E2, E3, E5. split; [exact Em|].
  split; [by apply ratio_in_unit|].
  split; [by apply ratio_in_unit|].
  split; [by apply ratio_in_unit|].
  split; [lia|]. split.
  - destruct (0 <? Z.of_nat (length y_true))%Z eqn:E; [|apply Qle_refl].
    apply Z.ltb_lt in E. unfold EvaluationService.ratio.
    apply Qle_shift_div_l; [by rewrite (Zlt_Qlt 0) in E|].
    rewrite Qmult_0_l, <- (Zle_Qle 0). lia.
  - split.
    + intros proba ->. simpl in Hd. eexists _, _, _. split; [exact Hd|].
      split; [apply risk_counts_partition|].
      unfold EvaluationService.count_if. lia.
    + unfold EvaluationService._calculate_business_metrics.
      destruct (confusion_matrix_no_sample y_pred) as [msg ->]. by exists msg.
Qed.

Lemma business_metrics_ranges_witness :
  ∃ m, EvaluationService._calculate_business_metrics
         Examples.seven_true Examples.seven_pred
         (Some [(1 # 10, 9 # 10); (5 # 10, 5 # 10); (8 # 10, 2 # 10);
                (3 # 10, 7 # 10); (6 # 10, 4 # 10); (0, 1); (1, 0)]%Q) = Ok m
       ∧ EvaluationService.risk_distribution m = Some (3, 2, 2)%Z
       ∧ (EvaluationService.true_positive_rate m <= 1)%Q.
Proof.
  destruct (business_metrics_ranges Examples.seven_true Examples.seven_pred
    (Some [(1 # 10, 9 # 10); (5 # 10, 5 # 10); (8 # 10, 2 # 10);
           (3 # 10, 7 # 10); (6 # 10, 4 # 10); (0, 1); (1, 0)]%Q))
    as (m & Em & [_ Ht] & _).
  - discriminate.
  - reflexivity.
  - by intros proba [= <-].
  - exists m. split; [exact Em|]. split; [|exact Ht].
    vm_compute in Em. injection Em as <-. reflexivity.
Defined.

Lemma unique_labels_constant (c : Z) (l : list Z) :
  Forall (fun x => x = c) l → unique_labels l = [] ∨ unique_labels l = [c].
Proof.
  induction 1 as [|x l -> _ IH]; [by left|]. right.
  change (unique_labels (c :: l)) with (insert_label c (unique_labels l)).
  destruct IH as [-> | ->]; simpl; [reflexivity|].
  by rewrite Z.ltb_irrefl, Z.eqb_refl.
Qed.

(** X10. When there are samples and one single label occurs among the
    true labels and the predictions, the confusion matrix is 1 by 1, the
    code reads all four cells as 0, and every rate is 0.0: on a test set
    of positives only, all predicted positive, the reported true positive
    rate and precision are 0.0, not 1.0. *)
Theorem single_class_rates_are_zero (c : Z) (y_true y_pred : list Z)
    (y_pred_proba : option (list (Q * Q))) :
  y_true ≠ [] →
  length y_true = length y_pred →
  Forall (fun x => x = c) y_true →
  Forall (fun x => x = c) y_pred →
  (∀ proba, y_pred_proba = Some proba → length proba = length y_pred) →
  ∃ m, EvaluationService._calculate_business_metrics y_true y_pred y_pred_proba = Ok m
       ∧ EvaluationService.true_positive_rate m = 0%Q
       ∧ EvaluationService.false_positive_rate m = 0%Q
       ∧ EvaluationService.precision m = 0%Q
       ∧ EvaluationService.total_cost m = 0%Z
       ∧ (EvaluationService.cost_per_prediction m == 0)%Q
       ∧ confusion_matrix y_true y_pred = Ok [[Z.of_nat (length y_true)]].
Proof.
  intros Hne Hlen Ht Hp Hproba.
  destruct (business_metrics_of_cells y_true y_pred y_pred_proba Hne Hlen Hproba)
    as (cm & m & tn & fp & fn & tp & Ecm & U & Em & E1 & E2 & E3 & E4 & E5 & _).
  assert (Z4 : (tn, fp, fn, tp) = (0, 0, 0, 0)%Z).
  { rewrite <- U.
    rewrite (confusion_matrix_of_samples y_true y_pred Hlen Hne) in Ecm.
    injection Ecm as <-.
    destruct (unique_labels_constant c (y_true ++ y_pred)) as [-> | ->];
      [by apply Forall_app | reflexivity | reflexivity]. }
  injection Z4 as -> -> -> ->.
  exists m. rewrite E1, E2, E3, E4, E5. split; [exact Em|]. simpl.
  repeat (split; [reflexivity|]). split.
  - destruct (0 <? Z.of_nat (length y_true))%Z; [|reflexivity].
    unfold EvaluationService.ratio, Qdiv. simpl. apply Qmult_0_l.
  - rewrite (confusion_matrix_of_samples y_true y_pred Hlen Hne).
    assert (L : unique_labels (y_true ++ y_pred) = [c]).
    { destruct y_true as [|y ys]; [done|].
      apply Forall_cons in Ht as [-> Ht].
      change (unique_labels ((c :: ys) ++ y_pred))
        with (insert_label c (unique_labels (ys ++ y_pred))).
      destruct (unique_labels_constant c (ys ++ y_pred)) as [-> | ->];
        [by apply Forall_app | reflexivity |].
      simpl. by rewrite Z.ltb_irrefl, Z.eqb_refl. }
    rewrite L. simpl. do 3 f_equal.
    clear -Hlen Ht Hp. revert y_pred Hlen Hp.
    induction Ht as [|y ys -> _ IH]; intros [|p ps] Hlen Hp;
      try discriminate; [reflexivity|].
    apply Forall_cons in Hp as [-> Hp]. injection Hlen as Hlen.
    simpl zip_labels. cbn [count_pair]. rewrite (IH ps Hlen Hp).
    rewrite Z.eqb_refl. simpl andb. cbn [length]. lia.
Qed.

Lemma single_class_rates_are_zero_witness :
  ∃ m, EvaluationService._calculate_business_metrics
         [1; 1; 1]%Z [1; 1; 1]%Z None = Ok m
       ∧ EvaluationService.true_positive_rate m = 0%Q
       ∧ EvaluationService.precision m = 0%Q.
Proof.
  destruct (single_class_rates_are_zero 1 [1; 1; 1]%Z [1; 1; 1]%Z None)
    as (m & Em & H1 & _ & H3 & _).
  - discriminate.
  - reflexivity.
  - by repeat constructor.
  - by repeat constructor.
  - discriminate.
  - by exists m.
Defined.

(** ** evaluate.py: the summary *)

Lemma Qle_bool_false (x y : Q) : Qle_bool x y = false ↔ (y < x)%Q.
Proof.
  rewrite <- Qltb_lt. unfold Qltb. by destruct (Qle_bool x y).
Qed.

(** Turn the outcome of every comparison in the context into an
    inequality. *)
Ltac q_facts :=
  repeat match goal with
  | H : Qle_bool _ _ = true |- _ => apply Qle_bool_iff in H
  | H : Qle_bool _ _ = false |- _ => apply Qle_bool_false in H
  end.



(** ** evaluate.py: listing the stored evaluations *)

Lemma for_each_raises {A B} (f : A → result B) (l : list A) (x : A) (e : exn) :
  x ∈ l → f x = Raise e →
  ∃ x' e', x' ∈ l ∧ f x' = Raise e' ∧ for_each f l = Raise e'.
Proof.
  induction l as [|a l IH]; intros Hin Hx; [by apply elem_of_nil in Hin|].
  simpl. destruct (f a) as [b|e0] eqn:Ea.
  - apply elem_of_cons in Hin as [->|Hin]; [congruence|].
    destruct (IH Hin Hx) as (x' & e' & Hin' & Hx' & ->).
    exists x', e'. simpl. split; [by right|done].
  - exists a, e0. split; [by left|done].
Qed.

Lemma list_entry_raises (entry : string * EvaluationService.Evaluation) (e : exn) :
  EvaluationService.list_entry entry = Raise e →
  e = KeyError "accuracy" ∨ e = KeyError "performance_level".
Proof.
  destruct entry as [i ev]. unfold EvaluationService.list_entry,
    EvaluationService.getitem.
  destruct (EvaluationService.metrics ev !! "accuracy"); simpl;
    [|intros [= <-]; by left].
  destruct (EvaluationService.metrics ev !! "performance_level"); simpl;
    [discriminate|intros [= <-]; by right].
Qed.

Lemma evaluate_stores (E : EvaluationService.Env)
    (model_version test_dataset_path : string) (include_shap : bool)
    (target_recall : Q) (s s' : EvaluationService.t)
    (ev : EvaluationService.Evaluation) :
  EvaluationService.evaluate E model_version test_dataset_path
    include_shap target_recall s = (Ok ev, s') →
  EvaluationService.evaluation_jobs s' !! EvaluationService.uuid4 E = Some ev
  ∧ ∃ model X y y_pred proba,
      EvaluationService.evaluate_model E model X y y_pred proba target_recall
      = Ok (EvaluationService.metrics ev).
Proof.
  evaluate_steps E.
  destruct (EvaluationService._generate_evaluation_summary _ _ _) as [sm|];
    [|raised].
  intros [= <- <-]. simpl. split; [apply lookup_insert_eq|eauto 10].
Qed.

(** X12. [evaluate] stores the metrics of the evaluator as they come,
    and [list_evaluations] indexes them with ["accuracy"] and
    ["performance_level"]: as soon as one stored evaluation lacks one of
    the two keys, [list_evaluations] raises [KeyError] for one of them
    and lists nothing, also for the evaluations that have both. *)
Theorem listing_needs_both_keys (s : EvaluationService.t) (id : string)
    (ev : EvaluationService.Evaluation) :
  EvaluationService.evaluation_jobs s !! id = Some ev →
  EvaluationService.metrics ev !! "accuracy" = None
  ∨ EvaluationService.metrics ev !! "performance_level" = None →
  ∃ k, EvaluationService.list_evaluations s = (Raise (KeyError k), s)
       ∧ (k = "accuracy" ∨ k = "performance_level").
Proof.
  intros Hev Hmiss.
  assert (Hin : (id, ev) ∈ map_to_list (EvaluationService.evaluation_jobs s))
    by by apply elem_of_map_to_list.
  assert (Hr : ∃ e, EvaluationService.list_entry (id, ev) = Raise e).
  { unfold EvaluationService.list_entry, EvaluationService.getitem.
    destruct (EvaluationService.metrics ev !! "accuracy"); simpl; [|eauto].
    destruct Hmiss as [?| ->]; [done|]. simpl. eauto. }
  destruct Hr as [e He].
  destruct (for_each_raises _ _ _ _ Hin He) as (x' & e' & _ & Hx' & Hall).
  unfold EvaluationService.list_evaluations. rewrite Hall.
  destruct (list_entry_raises x' e' Hx') as [-> | ->]; eauto.
Qed.

(** An evaluation succeeds on metrics that hold the recall alone; from
    then on the listing raises. *)
Lemma listing_needs_both_keys_witness :
  let r := EvaluationService.evaluate (Examples.evaluating Examples.recall_only)
             "legacy_0a1b2c3d_20240101_000000" "data/test.csv" true (85 # 100)
             {| EvaluationService.evaluation_jobs := ∅ |} in
  (∃ ev, r.1 = Ok ev)
  ∧ ∃ k, EvaluationService.list_evaluations r.2 = (Raise (KeyError k), r.2).
Proof.
  intros r.
  destruct r as [[ev|e] s'] eqn:Ev; subst r; [|vm_compute in Ev; discriminate Ev].
  split; [by exists ev|].
  destruct (evaluate_stores _ _ _ _ _ _ _ _ Ev)
    as (Hev & model & X & y & y_pred & proba & Hm).
  injection Hm as Hm.
  destruct (listing_needs_both_keys s' _ ev Hev) as (k & Hk & _).
  - left. by rewrite <- Hm.
  - by exists k.
Defined.

Lemma evaluate_all_or_nothing_witness :
  let r := EvaluationService.evaluate (Examples.evaluating Examples.full_metrics)
             "legacy_0a1b2c3d_20240101_000000" "data/test.csv" false (85 # 100)
             {| EvaluationService.evaluation_jobs := ∅ |} in
  ∃ ev, r.1 = Ok ev
        ∧ EvaluationService.shap_analysis ev = None
        ∧ EvaluationService.get_evaluation
            "9f8e7d6c-1111-4222-8333-444455556666" r.2 = (Ok ev, r.2).
Proof.
  intros r.
  pose proof (evaluate_all_or_nothing (Examples.evaluating Examples.full_metrics)
                "legacy_0a1b2c3d_20240101_000000" "data/test.csv" false (85 # 100)
                {| EvaluationService.evaluation_jobs := ∅ |}) as H.
  fold r in H.
  destruct r as [[ev|e] s'] eqn:Ev; subst r; [|vm_compute in Ev; discriminate Ev].
  destruct H as (_ & _ & _ & _ & Hshap & Hget).
  exists ev. split; [reflexivity|]. split; [by apply Hshap|exact Hget].
Defined.

Lemma shap_failure_is_not_fatal_witness :
  ∃ ev, (EvaluationService.evaluate (Examples.evaluating Examples.full_metrics)
           "legacy_0a1b2c3d_20240101_000000" "data/test.csv" true (85 # 100)
           {| EvaluationService.evaluation_jobs := ∅ |}).1 = Ok ev
        ∧ (EvaluationService.shap_analysis ev = None
           ∨ EvaluationService.shap_analysis ev
             = Some {[ "error" := PStr "Additivity check failed" ]}).
Proof.
  pose proof (shap_failure_is_not_fatal
                (Examples.evaluating Examples.full_metrics)
                (fun _ _ _ => Raise (OtherError "Additivity check failed"))
                "legacy_0a1b2c3d_20240101_000000" "data/test.csv" true (85 # 100)
                {| EvaluationService.evaluation_jobs := ∅ |}) as H.
  cbv zeta in H.
  change (EvaluationService.Build_Env _ _ _ _ _ _ _ _)
    with (Examples.evaluating Examples.full_metrics) in H.
  destruct (EvaluationService.evaluate _ _ _ _ _ _) as [[ev|e] s'] eqn:Ev;
    [|vm_compute in Ev; discriminate Ev].
  simpl in H. destruct H as [_ H]. exists ev. split; [reflexivity|].
  by apply (H (OtherError "Additivity check failed")).
Defined.

(** ** predict.py: levels, factors and the prediction *)

(** X13. Read backwards, the level tells the interval of the score, on
    the whole line: low exactly below 0.3 (negative scores included),
    medium exactly on [0.3, 0.6), high exactly on [0.6, 0.8), critical
    exactly from 0.8 on (scores above 1 included); no other level is
    produced, and a larger score never gets a lower level. *)
Theorem risk_level_exact (score : Q) :
  (_determine_risk_level score = "low" ↔ (score < 3 # 10)%Q)
  ∧ (_determine_risk_level score = "medium" ↔ (3 # 10 <= score < 6 # 10)%Q)
  ∧ (_determine_risk_level score = "high" ↔ (6 # 10 <= score < 8 # 10)%Q)
  ∧ (_determine_risk_level score = "critical" ↔ (8 # 10 <= score)%Q)
  ∧ _determine_risk_level score ∈ ["low"; "medium"; "high"; "critical"]
  ∧ (∀ larger, (score <= larger)%Q →
       (_determine_risk_level larger = "low" → _determine_risk_level score = "low")
       ∧ (_determine_risk_level score = "critical" →
          _determine_risk_level larger = "critical")).
Proof.
  assert (Hex : ∀ s,
    (_determine_risk_level s = "low" ↔ (s < 3 # 10)%Q)
    ∧ (_determine_risk_level s = "medium" ↔ (3 # 10 <= s < 6 # 10)%Q)
    ∧ (_determine_risk_level s = "high" ↔ (6 # 10 <= s < 8 # 10)%Q)
    ∧ (_determine_risk_level s = "critical" ↔ (8 # 10 <= s)%Q)
    ∧ _determine_risk_level s ∈ ["low"; "medium"; "high"; "critical"]).
  { intros s. unfold _determine_risk_level, Qltb.
    destruct (Qle_bool (3 # 10) s) eqn:B3, (Qle_bool (6 # 10) s) eqn:B6,
             (Qle_bool (8 # 10) s) eqn:B8;
      simpl; q_facts; rewrite ?elem_of_cons;
      repeat split; intros; try reflexivity; try discriminate; try lra;
      try (exfalso; lra); tauto. }
  destruct (Hex score) as (L & M & H & C & R).
  repeat (split; [assumption|]).
  intros larger Hle. destruct (Hex larger) as (L' & _ & _ & C' & _).
  split; intros Hl.
  - apply L. apply L' in Hl. lra.
  - apply C'. apply C in Hl. lra.
Qed.

Lemma py_gt_of_number (v : pyval) (n : Z) (q : Q) :
  as_number v = Some q → py_gt v n = Ok (Qltb (inject_Z n) q).
Proof. intros H. unfold py_gt. by rewrite (comparable_of_number v q H). Qed.

Lemma py_lt_of_number (v : pyval) (n : Z) (q : Q) :
  as_number v = Some q → py_lt v n = Ok (Qltb q (inject_Z n)).
Proof. intros H. unfold py_lt. by rewrite (comparable_of_number v q H). Qed.

(** X14. On a mapping whose four inspected fields are numbers (a missing
    one counts as 0), the factors are exactly those whose rule holds,
    with strict bounds: excessive_hours for more than 50 hours,
    high_stress for a stress above 7, heavy_workload for a workload above
    8, poor_work_life_balance for a balance below 3; no other key is
    ever present, and the risk score plays no part. *)
Theorem factors_exact (features : gmap string pyval) (risk_score : Q)
    (hours stress workload balance : Q) :
  as_number (default (PInt 0) (features !! "work_hours_per_week")) = Some hours →
  as_number (default (PInt 0) (features !! "stress_level")) = Some stress →
  as_number (default (PInt 0) (features !! "workload_score")) = Some workload →
  as_number (default (PInt 0) (features !! "work_life_balance")) = Some balance →
  ∃ factors,
    _analyze_factors features risk_score = Ok factors
    ∧ (is_Some (factors !! "excessive_hours") ↔ (50 < hours)%Q)
    ∧ (is_Some (factors !! "high_stress") ↔ (7 < stress)%Q)
    ∧ (is_Some (factors !! "heavy_workload") ↔ (8 < workload)%Q)
    ∧ (is_Some (factors !! "poor_work_life_balance") ↔ (balance < 3)%Q)
    ∧ (∀ k, is_Some (factors !! k) →
            k ∈ ["excessive_hours"; "high_stress"; "heavy_workload";
                 "poor_work_life_balance"])
    ∧ ∀ other_score, _analyze_factors features other_score = Ok factors.
Proof.
  intros Hh Hs Hw Hb. unfold _analyze_factors.
  rewrite (py_gt_of_number _ 50 _ Hh), (py_gt_of_number _ 7 _ Hs),
          (py_gt_of_number _ 8 _ Hw), (py_lt_of_number _ 3 _ Hb).
  cbn [mbind result_bind].
  eexists. split; [reflexivity|].
  destruct (Qltb (inject_Z 50) hours) eqn:B1, (Qltb (inject_Z 7) stress) eqn:B2,
           (Qltb (inject_Z 8) workload) eqn:B3, (Qltb balance (inject_Z 3)) eqn:B4;
    repeat match goal with
           | H : Qltb _ _ = true |- _ => apply Qltb_lt in H
           | H : Qltb _ _ = false |- _ => apply Qltb_ge in H
           end;
    unfold inject_Z in *;
    (split; [|split; [|split; [|split; [|split]]]]);
    try reflexivity;
    try (intros k [f Hk];
         repeat (apply lookup_insert_Some in Hk as [[<- _]|[_ Hk]];
                 [rewrite !elem_of_cons; tauto|]);
         by rewrite lookup_empty in Hk);
    rewrite ?lookup_insert_is_Some', ?lookup_empty;
    (split;
     [ intros Hd; try lra; exfalso;
       repeat (destruct Hd as [Hd|Hd]; try discriminate Hd);
       destruct Hd as [? Hd]; discriminate Hd
     | intros Hlt; try (exfalso; lra);
       repeat (first [left; reflexivity | right]) ]).
Qed.

Lemma risk_level_exact_witness :
  _determine_risk_level (-1) = "low"
  ∧ _determine_risk_level 2 = "critical"
  ∧ _determine_risk_level (9 # 10) = "critical".
Proof.
  destruct (risk_level_exact (-1)) as (L & _).
  destruct (risk_level_exact 2) as (_ & _ & _ & C & _).
  destruct (risk_level_exact (85 # 100)) as (_ & _ & _ & C' & _ & Mono).
  split; [by apply L|]. split; [by apply C|].
  apply (Mono (9 # 10)%Q); [discriminate|]. by apply C'.
Defined.

(** Exactly 50 hours are not excessive. *)
Lemma factors_exact_witness :
  ∃ factors,
    _analyze_factors {[ "work_hours_per_week" := PInt 50 ]} 0 = Ok factors
    ∧ ¬ is_Some (factors !! "excessive_hours")
    ∧ is_Some (factors !! "poor_work_life_balance").
Proof.
  destruct (factors_exact {[ "work_hours_per_week" := PInt 50 ]} 0 50 0 0 0)
    as (factors & E & H1 & _ & _ & H4 & _); try reflexivity.
  exists factors. split; [exact E|]. split.
  - intros H. apply H1 in H. revert H. apply Qlt_irrefl.
  - apply H4. reflexivity.
Defined.

Lemma analyze_factors_raises (features : gmap string pyval) (risk_score : Q)
    (k : string) (v : pyval) :
  k ∈ ["work_hours_per_week"; "stress_level"; "workload_score";
       "work_life_balance"] →
  features !! k = Some v →
  comparable_as v = None →
  ∃ msg, _analyze_factors features risk_score = Raise (TypeError msg).
Proof.
  intros Hk Hv Hn.
  assert (G : ∀ n, py_gt (default (PInt 0) (features !! k)) n
                   = Raise (cmp_error ">" v "int")).
  { intros n. rewrite Hv. unfold py_gt. simpl. by rewrite Hn. }
  assert (L : ∀ n, py_lt (default (PInt 0) (features !! k)) n
                   = Raise (cmp_error "<" v "int")).
  { intros n. rewrite Hv. unfold py_lt. simpl. by rewrite Hn. }
  assert (T : ∀ v' n e, py_gt v' n = Raise e → ∃ msg, e = TypeError msg).
  { intros v' n e. unfold py_gt. destruct (comparable_as v'); [discriminate|].
    intros [= <-]. unfold cmp_error. eauto. }
  assert (T' : ∀ v' n e, py_lt v' n = Raise e → ∃ msg, e = TypeError msg).
  { intros v' n e. unfold py_lt. destruct (comparable_as v'); [discriminate|].
    intros [= <-]. unfold cmp_error. eauto. }
  unfold _analyze_factors.
  destruct (py_gt _ 50) as [b1|e1] eqn:E1; simpl;
    [|destruct (T _ _ _ E1) as [msg ->]; eauto].
  destruct (py_gt _ 7) as [b2|e2] eqn:E2; simpl;
    [|destruct (T _ _ _ E2) as [msg ->]; eauto].
  destruct (py_gt _ 8) as [b3|e3] eqn:E3; simpl;
    [|destruct (T _ _ _ E3) as [msg ->]; eauto].
  destruct (py_lt _ 3) as [b4|e4] eqn:E4; simpl.
  - exfalso.
    repeat (apply elem_of_cons in Hk as [->|Hk]); [| | | |by apply elem_of_nil in Hk].
    + by rewrite G in E1.
    + by rewrite G in E2.
    + by rewrite G in E3.
    + by rewrite L in E4.
  - destruct (T' _ _ _ E4) as [msg ->]. eauto.
Qed.

(** X15. [predict] never returns a prediction for a mapping in which one
    of the four fields read by the factor analysis holds something that
    does not compare with a number (a string, [None], a list): it
    raises, although [_prepare_features] reads that field as 0.0 and,
    unless an [int] of the mapping is beyond the range of a float,
    turns the mapping into a vector. A value of another numeric type (a
    [Decimal], a numpy integer) is not concerned: it compares. *)
Theorem predict_rejects_non_numbers (uuid4 : string) (utcnow : Z)
    (self : PredictionService.t) (user : string)
    (features : gmap string pyval) (version k : string) (v : pyval) :
  k ∈ ["work_hours_per_week"; "stress_level"; "workload_score";
       "work_life_balance"] →
  features !! k = Some v →
  comparable_as v = None →
  (∃ e, predict uuid4 utcnow self user features version = Raise e)
  ∧ (∃ msg, _analyze_factors features 0 = Raise (TypeError msg))
  ∧ (∀ feature_vector,
       prepare_step features feature_vector k = Ok (feature_vector ++ [0%Q])%list)
  ∧ ((∀ name z, name ∈ expected_features → features !! name = Some (PInt z) →
                float_overflows z = false) →
     ∃ vector i, _prepare_features features = Ok vector
                 ∧ expected_features !! i = Some k
                 ∧ vector !! i = Some 0%Q).
Proof.
  intros Hk Hv Hn. split; [|split; [|split]].
  - unfold predict, predict_body, try_except.
    destruct (models self !! _) as [model|]; [|eauto].
    destruct (_prepare_features features) as [vector|]; simpl; [|eauto].
    destruct (Model.predict model _) as [labels|]; simpl; [|eauto].
    destruct (first labels) as [score|]; simpl; [|eauto].
    destruct (Model.predict_proba model _) as [probabilities|]; simpl; [|eauto].
    destruct (first probabilities) as [row|]; simpl; [|eauto].
    destruct (analyze_factors_raises features score k v Hk Hv Hn) as [msg ->].
    simpl. eauto.
  - by apply (analyze_factors_raises features 0 k v).
  - intros feature_vector. rewrite prepare_step_cases, Hv.
    destruct v; try discriminate Hn; reflexivity.
  - intros Hrange. unfold _prepare_features.
    rewrite (prepare_loop_in_range features expected_features [] Hrange).
    eexists. 
    repeat (apply elem_of_cons in Hk as [->|Hk]);
      [exists 0%nat | exists 3%nat | exists 4%nat | exists 5%nat
      | by apply elem_of_nil in Hk];
      (split; [reflexivity|]); (split; [reflexivity|]); simpl; rewrite Hv;
      destruct v; try discriminate Hn; reflexivity.
Qed.

Lemma predict_rejects_non_numbers_witness :
  (∃ e, predict "id" 0 Examples.one_model_service "user-1"
          {[ "stress_level" := PStr "high" ]} "latest" = Raise e)
  ∧ ∃ vector, _prepare_features {[ "stress_level" := PStr "high" ]} = Ok vector
              ∧ vector !! 3%nat = Some 0%Q.
Proof.
  destruct (predict_rejects_non_numbers "id" 0 Examples.one_model_service
              "user-1" {[ "stress_level" := PStr "high" ]} "latest"
              "stress_level" (PStr "high")) as (H1 & _ & _ & H4).
  - right. left.
  - reflexivity.
  - reflexivity.
  - split; [exact H1|].
    destruct H4 as (vector & i & Hv & _ & _).
    + intros name z _ H. apply lookup_singleton_Some in H as [_ H].
      discriminate H.
    + exists vector. split; [exact Hv|].
      vm_compute in Hv. by injection Hv as <-.
Defined.

(** X16. What a returned prediction holds together: the id, the user
    and the date are those of the call; the version is the one asked
    for, or the last one loaded for "latest", and it is a loaded model;
    the factors are those of the raw features; the recommendations are
    those of the reported level and factors. In particular a request
    without [work_life_balance] always comes back with the factor
    poor_work_life_balance and with the balance tip as its last
    recommendation. *)
Theorem prediction_is_consistent (uuid4 : string) (utcnow : Z)
    (self : PredictionService.t) (user : string)
    (features : gmap string pyval) (version : string) (r : Prediction) :
  predict uuid4 utcnow self user features version = Ok r →
  prediction_id r = uuid4 ∧ user_id r = user ∧ prediction_date r = utcnow
  ∧ PredictionService.model_version r
    = (if String.eqb version "latest"
       then List.last (model_versions self) "dummy" else version)
  ∧ is_Some (models self !! PredictionService.model_version r)
  ∧ _analyze_factors features (risk_score r) = Ok (factors r)
  ∧ recommendations r = _generate_recommendations (risk_level r) (factors r)
  ∧ (features !! "work_life_balance" = None →
     is_Some (factors r !! "poor_work_life_balance")
     ∧ last (recommendations r)
       = Some "Create clear boundaries between work and personal time").
Proof.
  unfold predict, predict_body, try_except.
  set (v := if String.eqb version "latest" then _ else _).
  destruct (models self !! v) as [model|] eqn:Em; [|discriminate].
  destruct (_prepare_features features) as [vector|]; simpl; [|discriminate].
  destruct (Model.predict model _) as [labels|]; simpl; [|discriminate].
  destruct (first labels) as [score|]; simpl; [|discriminate].
  destruct (Model.predict_proba model _) as [probabilities|]; simpl; [|discriminate].
  destruct (first probabilities) as [row|]; simpl; [|discriminate].
  destruct (_analyze_factors features score) as [F|] eqn:Ef; simpl; [|discriminate].
  intros [= <-]. simpl.
  repeat (split; [done|]).
  intros Hnone.
  assert (HF : is_Some (F !! "poor_work_life_balance")).
  { revert Ef. unfold _analyze_factors. rewrite Hnone.
    destruct (py_gt _ 50); simpl; [|discriminate].
    destruct (py_gt _ 7); simpl; [|discriminate].
    destruct (py_gt _ 8); simpl; [|discriminate].
    intros [= <-]. rewrite lookup_insert_eq. by eexists. }
  split; [exact HF|].
  assert (C : contains "poor_work_life_balance" F = true).
  { unfold contains. by destruct HF as [f ->]. }
  unfold _generate_recommendations. rewrite C. unfold append at 1.
  apply last_snoc.
Qed.

Lemma prediction_is_consistent_witness :
  ∃ r, predict "id" 0 Examples.one_model_service "user-1"
         Examples.long_hours "latest" = Ok r
       ∧ PredictionService.model_version r = "legacy_0a1b2c3d_20240101_000000"
       ∧ last (recommendations r)
         = Some "Create clear boundaries between work and personal time".
Proof.
  destruct (predict "id" 0 Examples.one_model_service "user-1"
              Examples.long_hours "latest") as [r|e] eqn:E;
    [|vm_compute in E; discriminate E].
  destruct (prediction_is_consistent _ _ _ _ _ _ _ E)
    as (_ & _ & _ & Hv & _ & _ & _ & Hb).
  exists r. split; [reflexivity|]. split; [exact Hv|].
  by apply Hb.
Defined.

(** X17. With a model that predicts class labels (0 or 1, as the
    classifiers that the training service saves do), a prediction is
    low with score 0 or critical with score 1: the levels medium and
    high are never reported. *)
Theorem label_models_report_two_levels (uuid4 : string) (utcnow : Z)
    (self : PredictionService.t) (user : string)
    (features : gmap string pyval) (version : string) (r : Prediction) :
  (∀ v model X labels,
     models self !! v = Some model → Model.predict model X = Ok labels →
     Forall (fun label => label = 0%Q ∨ label = 1%Q) labels) →
  predict uuid4 utcnow self user features version = Ok r →
  (risk_score r = 0%Q ∧ risk_level r = "low")
  ∨ (risk_score r = 1%Q ∧ risk_level r = "critical").
Proof.
  intros Hlabels.
  unfold predict, predict_body, try_except.
  set (v := if String.eqb version "latest" then _ else _).
  destruct (models self !! v) as [model|] eqn:Em; [|discriminate].
  destruct (_prepare_features features) as [vector|]; simpl; [|discriminate].
  destruct (Model.predict model _) as [labels|] eqn:Ep; simpl; [|discriminate].
  pose proof (Hlabels _ _ _ _ Em Ep) as Hl.
  destruct labels as [|score labels]; simpl; [discriminate|].
  apply Forall_cons in Hl as [Hs _].
  destruct (Model.predict_proba model _) as [probabilities|]; simpl; [|discriminate].
  destruct (first probabilities) as [row|]; simpl; [|discriminate].
  destruct (_analyze_factors features score) as [F|]; simpl; [|discriminate].
  intros [= <-]. simpl. destruct Hs as [-> | ->]; [left|right]; by split.
Qed.

Lemma label_models_report_two_levels_witness :
  ∃ r, predict "id" 0 Examples.one_model_service "user-1"
         Examples.long_hours "latest" = Ok r
       ∧ risk_level r = "critical".
Proof.
  destruct (predict "id" 0 Examples.one_model_service "user-1"
              Examples.long_hours "latest") as [r|e] eqn:E;
    [|vm_compute in E; discriminate E].
  exists r. split; [reflexivity|].
  destruct (label_models_report_two_levels "id" 0 Examples.one_model_service
              "user-1" Examples.long_hours "latest" r) as [[H0 _]|[_ H1]].
  - intros v model X labels Hm Hp.
    unfold Examples.one_model_service in Hm. simpl in Hm.
    apply lookup_singleton_Some in Hm as [_ <-].
    simpl in Hp. injection Hp as <-.
    apply Forall_forall. intros x Hx. apply list_elem_of_In in Hx.
    apply in_map_iff in Hx as [_ [<- _]]. by right.
  - exact E.
  - vm_compute in E. injection E as <-. discriminate H0.
  - exact H1.
Defined.

(** ** predict.py: the registry of models *)

Import PredictionServiceRegistry.

Lemma register_keeps (version : string) (model : Model.t) (s : PredictionService.t) :
  (∀ v, v ∈ model_versions s ↔ is_Some (models s !! v)) →
  ∀ v, v ∈ model_versions (register version model s).2
       ↔ is_Some (models (register version model s).2 !! v).
Proof.
  intros H v. unfold register, append. simpl.
  rewrite elem_of_app, list_elem_of_singleton, lookup_insert_is_Some', H.
  split; intros [?|?]; auto.
Qed.

Lemma load_file_keeps (E : Env) (filename : string) (s : PredictionService.t) :
  (∀ v, v ∈ model_versions s ↔ is_Some (models s !! v)) →
  (load_file E filename s).1 = Ok tt
  ∧ (∀ v, v ∈ model_versions (load_file E filename s).2
          ↔ is_Some (models (load_file E filename s).2 !! v))
  ∧ (∀ v, is_Some (models s !! v) → is_Some (models (load_file E filename s).2 !! v)).
Proof.
  intros H. unfold load_file.
  destruct (endswith filename ".joblib");
    [|simpl; split; [done|]; split; [exact H|done]].
  unfold try_, bind, lift. destruct (joblib_load E _) as [model|e].
  - split; [reflexivity|]. split; [by apply register_keeps|].
    intros v Hv. unfold register. simpl. rewrite lookup_insert_is_Some'. by right.
  - simpl; split; [done|]; split; [exact H|done].
Qed.

Lemma load_files_keeps (E : Env) (filenames : list string) (s : PredictionService.t) :
  (∀ v, v ∈ model_versions s ↔ is_Some (models s !! v)) →
  (load_files E filenames s).1 = Ok tt
  ∧ (∀ v, v ∈ model_versions (load_files E filenames s).2
          ↔ is_Some (models (load_files E filenames s).2 !! v))
  ∧ (∀ v, is_Some (models s !! v) →
          is_Some (models (load_files E filenames s).2 !! v)).
Proof.
  revert s. induction filenames as [|f fs IH]; intros s H;
    [simpl; split; [done|]; split; [exact H|done]|].
  simpl. unfold bind.
  destruct (load_file_keeps E f s H) as (R & K & G).
  destruct (load_file E f s) as [r s1]. simpl in *. subst r.
  destruct (IH s1 K) as (R' & K' & G'). repeat split; auto; apply K'.
Qed.

Lemma no_models_empty (s : PredictionService.t) :
  no_models s = true ↔ models s = ∅.
Proof.
  unfold no_models. rewrite <- map_to_list_empty_iff.
  destruct (map_to_list (models s)); split; intros; done.
Qed.

Lemma last_in_list (l : list string) (d : string) : l ≠ [] → List.last l d ∈ l.
Proof.
  induction l as [|x [|y l] IH]; intros H; [done| by left |].
  right. apply IH. discriminate.
Qed.

(** X18. [initialize] fails only when the models directory cannot be
    made. Otherwise it succeeds whatever the directory holds (files that
    do not load are skipped; a listing that fails gives the dummy model),
    it forgets no model that was loaded before, the versions listed are
    exactly the keys of the models, and there is at least one: "latest"
    resolves to a loaded model, so that [predict] with "latest" or with
    any listed version does not fail for a missing model. *)
Theorem registry_after_initialize (E : Env) (s : PredictionService.t) :
  (∀ v, v ∈ model_versions s ↔ is_Some (models s !! v)) →
  (∀ e, makedirs E models_dir = Raise e → initialize E s = (Raise e, s))
  ∧ (makedirs E models_dir = Ok tt →
     let s' := (initialize E s).2 in
     (initialize E s).1 = Ok tt
     ∧ (∀ v, v ∈ model_versions s' ↔ is_Some (models s' !! v))
     ∧ (∀ v, is_Some (models s !! v) → is_Some (models s' !! v))
     ∧ model_versions s' ≠ []
     ∧ is_Some (models s' !! List.last (model_versions s') "dummy")).
Proof.
  intros H. split.
  - intros e He. unfold initialize, bind, lift. by rewrite He.
  - intros Hm. cbv zeta.
    assert (I : initialize E s = _load_models E s)
      by (unfold initialize, bind, lift; by rewrite Hm).
    rewrite I. clear I.
    assert (L : (_load_models E s).1 = Ok tt
      ∧ (∀ v, v ∈ model_versions (_load_models E s).2
              ↔ is_Some (models (_load_models E s).2 !! v))
      ∧ (∀ v, is_Some (models s !! v) →
              is_Some (models (_load_models E s).2 !! v))
      ∧ models (_load_models E s).2 ≠ ∅).
    { unfold _load_models, try_, bind, lift, ret.
      assert (D : ∀ s0, (∀ v, v ∈ model_versions s0 ↔ is_Some (models s0 !! v)) →
                models (_create_dummy_model E s0).2 ≠ ∅).
      { intros s0 _. unfold _create_dummy_model, register. simpl.
        apply insert_non_empty. }
      assert (G : ∀ s0 v, is_Some (models s0 !! v) →
                is_Some (models (_create_dummy_model E s0).2 !! v)).
      { intros s0 v Hv. unfold _create_dummy_model, register. simpl.
        rewrite lookup_insert_is_Some'. by right. }
      assert (P : ∀ s1, (∀ v, v ∈ model_versions s1 ↔ is_Some (models s1 !! v)) →
                (∀ v, is_Some (models s !! v) → is_Some (models s1 !! v)) →
                let r := (if no_models s1 then _create_dummy_model E s1
                          else (Ok tt, s1)) in
                r.1 = Ok tt
                ∧ (∀ v, v ∈ model_versions r.2 ↔ is_Some (models r.2 !! v))
                ∧ (∀ v, is_Some (models s !! v) → is_Some (models r.2 !! v))
                ∧ models r.2 ≠ ∅).
      { intros s1 K1 G1. cbv zeta. destruct (no_models s1) eqn:N.
        - split; [reflexivity|]. split; [by apply register_keeps|].
          split; [intros v Hv; by apply G, G1|by apply D].
        - split; [reflexivity|]. split; [exact K1|]. split; [exact G1|].
          intros Hemp. simpl in Hemp. apply no_models_empty in Hemp.
          congruence. }
      destruct (path_exists E models_dir).
      - destruct (listdir E models_dir) as [filenames|e].
        + destruct (load_files_keeps E filenames s H) as (R & K & G1).
          destruct (load_files E filenames s) as [r s1]. simpl in *. subst r.
          destruct (P s1 K G1) as (R2 & K2 & G2 & N2).
          destruct (if no_models s1 then _ else _) as [r2 s2]. simpl in *.
          subst r2. split; [reflexivity|]. split; [exact K2|].
          split; [exact G2|exact N2].
        + split; [reflexivity|]. split; [by apply register_keeps|].
          split; [intros v Hv; by apply G|by apply D].
      - destruct (P s H (fun v Hv => Hv)) as (R2 & K2 & G2 & N2).
        destruct (if no_models s then _ else _) as [r2 s2]. simpl in *.
        subst r2. split; [reflexivity|]. split; [exact K2|].
        split; [exact G2|exact N2]. }
    destruct L as (R & K & G & N).
    destruct (_load_models E s) as [r s']. simpl in *. subst r.
    assert (V : model_versions s' ≠ []).
    { intros Hnil. apply N. apply map_eq. intros v. rewrite lookup_empty.
      destruct (models s' !! v) eqn:Ev; [|reflexivity].
      assert (Hin : v ∈ model_versions s') by (apply K; by eexists).
      rewrite Hnil in Hin. by apply elem_of_nil in Hin. }
    split; [reflexivity|]. split; [exact K|]. split; [exact G|].
    split; [exact V|]. apply K. by apply last_in_list.
Qed.

Lemma registry_after_initialize_witness :
  model_versions (initialize Examples.models_directory fresh).2
  = ["legacy_0a1b2c3d_20240101_000000"]
  ∧ is_Some (models (initialize Examples.models_directory fresh).2
             !! "legacy_0a1b2c3d_20240101_000000").
Proof.
  destruct (registry_after_initialize Examples.models_directory fresh)
    as (_ & H).
  - intros v. simpl. rewrite elem_of_nil, lookup_empty. split; [done|].
    intros [? ?]. discriminate.
  - destruct H as (_ & K & _); [reflexivity|].
    split; [reflexivity|]. apply K. left.
Defined.

(** X19. After [cleanup] the service has no model: whatever the version
    asked for, "latest" included (it then stands for "dummy"), [predict]
    and [get_model_info] raise the not-found [ValueError], and
    [list_models] is empty. *)
Theorem nothing_after_cleanup (E : Env) (s : PredictionService.t)
    (uuid4 : string) (utcnow : Z) (user : string)
    (features : gmap string pyval) (version : string) :
  let s' := (cleanup s).2 in
  predict uuid4 utcnow s' user features version
  = Raise (ValueError ("Model version "
                       ++ (if String.eqb version "latest" then "dummy" else version)
                       ++ " not found"))
  ∧ get_model_info E version s'
    = (Raise (ValueError ("Model version " ++ version ++ " not found")), s')
  ∧ list_models E s' = (Ok [], s').
Proof.
  cbv zeta. unfold cleanup. simpl. split; [|split].
  - unfold predict, predict_body, try_except. simpl.
    by destruct (String.eqb version "latest"); rewrite lookup_empty.
  - unfold get_model_info. simpl. by rewrite lookup_empty.
  - reflexivity.
Qed.

(** ** From the file a training job saves to the version it is served under *)

Lemma endswith_joblib (v : string) : endswith (v ++ ".joblib") ".joblib" = true.
Proof.
  unfold endswith.
  assert (L : String.length (v ++ ".joblib") = (String.length v + 7)%nat).
  { induction v as [|c v IH]; [reflexivity|]. simpl. by rewrite IH. }
  rewrite L. change (String.length ".joblib") with 7%nat.
  replace (7 <=? String.length v + 7)%nat with true
    by (symmetry; apply Nat.leb_le; lia).
  replace (String.length v + 7 - 7)%nat with (String.length v) by lia.
  clear L. induction v as [|c v IH]; [reflexivity|]. exact IH.
Qed.

Lemma remove_all_joblib (v : string) :
  Forall (fun c => c ≠ "."%char) (list_ascii_of_string v) →
  remove_all ".joblib" (v ++ ".joblib") = v.
Proof.
  unfold remove_all. induction v as [|c v IH]; intros H; [reflexivity|].
  simpl in H. apply Forall_cons in H as [Hc H].
  change (String c v ++ ".joblib") with (String c (v ++ ".joblib")).
  cbn [remove_from String.prefix].
  destruct (Ascii.ascii_dec "." c) as [<-|_]; [done|].
  by rewrite (IH H).
Qed.

(** X20. The file a training job saves is served under the job's model
    version. For a version [v] without a dot (as "legacy_<8 characters
    of the id>_<date>_<time>" is), the file [models/<v>.joblib], which is
    where [_train_model] dumps the model and where [evaluate] looks for
    it, is registered by the prediction service under [v] itself when it
    loads: the version is listed last and [get_model_info] knows it. *)
Theorem saved_model_is_served_under_its_version (E : Env) (v : string)
    (model : Model.t) (s : PredictionService.t) :
  Forall (fun c => c ≠ "."%char) (list_ascii_of_string v) →
  joblib_load E (TrainingService.path_join TrainingService.models_dir
                   (v ++ ".joblib")) = Ok model →
  TrainingService.path_join TrainingService.models_dir (v ++ ".joblib")
  = EvaluationService.path_join EvaluationService.models_dir (v ++ ".joblib")
  ∧ load_file E (v ++ ".joblib") s
    = (Ok tt, {| models := <[v := model]> (models s);
                 model_versions := model_versions s ++ [v] |})
  ∧ List.last (model_versions (load_file E (v ++ ".joblib") s).2) "dummy" = v
  ∧ ∃ info, (get_model_info E v (load_file E (v ++ ".joblib") s).2).1 = Ok info.
Proof.
  intros Hdot Hload.
  assert (L : load_file E (v ++ ".joblib") s
              = (Ok tt, {| models := <[v := model]> (models s);
                           model_versions := model_versions s ++ [v] |})).
  { unfold load_file. rewrite endswith_joblib, (remove_all_joblib v Hdot).
    unfold try_, bind, lift.
    change (path_join models_dir (v ++ ".joblib"))
      with (TrainingService.path_join TrainingService.models_dir (v ++ ".joblib")).
    by rewrite Hload. }
  split; [reflexivity|]. split; [exact L|]. rewrite L. simpl. split.
  - apply last_last.
  - unfold get_model_info. simpl. rewrite lookup_insert_eq. by eexists.
Qed.

Lemma saved_model_is_served_under_its_version_witness :
  load_file Examples.models_directory
    "legacy_0a1b2c3d_20240101_000000.joblib" fresh
  = (Ok tt, {| models := {[ "legacy_0a1b2c3d_20240101_000000"
                            := Examples.leaning_positive ]};
               model_versions := ["legacy_0a1b2c3d_20240101_000000"] |}).
Proof.
  destruct (saved_model_is_served_under_its_version Examples.models_directory
              "legacy_0a1b2c3d_20240101_000000" Examples.leaning_positive fresh)
    as (_ & L & _).
  - repeat (constructor; [discriminate|]). constructor.
  - reflexivity.
  - exact L.
Defined.

(** ** simple_model.py *)

Module BPM := BurnoutPredictionModel.

Lemma feature_array_missing (features : gmap string Q) (fs : list string) (f : string) :
  f ∈ fs → features !! f = None →
  ∃ g, BPM.feature_array features fs = Raise (KeyError g)
       ∧ g ∈ fs ∧ features !! g = None.
Proof.
  induction fs as [|a fs IH]; intros Hin Hnone; [by apply elem_of_nil in Hin|].
  simpl. destruct (features !! a) as [x|] eqn:Ea.
  - apply elem_of_cons in Hin as [->|Hin]; [congruence|].
    destruct (IH Hin Hnone) as (g & -> & Hg & Hgn). simpl.
    exists g. split; [reflexivity|]. split; [by right|exact Hgn].
  - exists a. split; [reflexivity|]. split; [by left|exact Ea].
Qed.

Lemma feature_array_agree (features features' : gmap string Q) (fs : list string) :
  (∀ f, f ∈ fs → features !! f = features' !! f) →
  BPM.feature_array features fs = BPM.feature_array features' fs.
Proof.
  induction fs as [|a fs IH]; intros H; [reflexivity|]. simpl.
  rewrite <- (H a) by left. rewrite IH; [reflexivity|].
  intros f Hf. apply H. by right.
Qed.

Lemma feature_array_present (features : gmap string Q) (fs : list string) :
  (∀ f, f ∈ fs → is_Some (features !! f)) →
  ∃ row, BPM.feature_array features fs = Ok row ∧ length row = length fs.
Proof.
  induction fs as [|a fs IH]; intros H; [by exists []|]. simpl.
  destruct (H a) as [x ->]; [by left|].
  destruct IH as (row & -> & Hl); [intros f Hf; apply H; by right|].
  simpl. exists (x :: row). simpl. by rewrite Hl.
Qed.

(** X21. [predict_single] reads the ten named features and nothing
    else: on a trained model, a mapping that lacks one of them raises
    [KeyError] for a feature that is missing (there is no default, unlike
    in the prediction service), a mapping that has them all is never
    refused for its features, and two mappings that agree on the ten
    names get the same answer, whatever else they hold. *)
Theorem predict_single_reads_named_features (self : BPM.t)
    (features : gmap string Q) :
  BPM.is_trained self = true →
  (∀ f, f ∈ BPM.names self → features !! f = None →
        ∃ g, BPM.predict_single self features = Raise (KeyError g)
             ∧ g ∈ BPM.names self ∧ features !! g = None)
  ∧ ((∀ f, f ∈ BPM.names self → is_Some (features !! f)) →
     ∀ k, BPM.predict_single self features ≠ Raise (KeyError k))
  ∧ (∀ features' : gmap string Q,
       (∀ f, f ∈ BPM.names self → features !! f = features' !! f) →
       BPM.predict_single self features = BPM.predict_single self features').
Proof.
  intros Ht. unfold BPM.predict_single. rewrite Ht. cbn [negb].
  split; [|split].
  - intros f Hin Hnone.
    destruct (feature_array_missing features _ f Hin Hnone) as (g & -> & Hg).
    by exists g.
  - intros Hall k. destruct (feature_array_present features _ Hall) as (row & -> & _).
    simpl. destruct (BPM.scaler_transform self _) as [scaled|]; simpl; [|discriminate].
    destruct (BPM.model_predict self _) as [[|p ?]|]; simpl; try discriminate.
    destruct (BPM.model_predict_proba self _) as [[|pp ?]|]; simpl; discriminate.
  - intros features' H. by rewrite (feature_array_agree features features' _ H).
Qed.

Lemma predict_single_reads_named_features_witness :
  (∃ g, BPM.predict_single Examples.trained_model
          (delete "team_size" Examples.low_risk_features) = Raise (KeyError g))
  ∧ BPM.predict_single Examples.trained_model
      (<["department" := 3%Q]> Examples.low_risk_features)
    = BPM.predict_single Examples.trained_model Examples.low_risk_features.
Proof.
  split.
  - destruct (predict_single_reads_named_features Examples.trained_model
                (delete "team_size" Examples.low_risk_features) eq_refl)
      as (H & _).
    destruct (H "team_size") as (g & Hg & _); [|reflexivity|by exists g].
    simpl. unfold BPM.feature_names. rewrite !elem_of_cons. tauto.
  - destruct (predict_single_reads_named_features Examples.trained_model
                (<["department" := 3%Q]> Examples.low_risk_features) eq_refl)
      as (_ & _ & H).
    apply H. intros f Hf. apply lookup_insert_ne. intros <-.
    simpl in Hf. unfold BPM.feature_names in Hf.
    repeat (apply elem_of_cons in Hf as [Hf|Hf]; [discriminate Hf|]).
    by apply elem_of_nil in Hf.
Defined.

(** X22. A model is of no use until [train] (or [load_model]) has
    succeeded: on an untrained object [predict], [predict_single],
    [evaluate] and [save_model] raise [ValueError] before they touch the
    scaler, the forest or the disk. [train] sets [is_trained] last: when
    a fit raises, whatever it has done to the scaler and the forest, the
    object is still untrained and refuses as before; when both fits
    succeed it is trained, with the feature names it had, and [predict]
    answers what the fitted scaler and forest answer, raising only where
    they reject the matrix. *)
Theorem untrained_until_trained {D} (K : BPM.Sk) (J : BPM.Joblib D)
    (self : BPM.t) (X : matrix) (y : list Z) :
  BPM.is_trained self = false →
  (∀ features, BPM.predict_single self features
     = Raise (ValueError "Model must be trained before making predictions"))
  ∧ (∀ X', BPM.predict self X'
       = Raise (ValueError "Model must be trained before making predictions"))
  ∧ (∀ X' y', BPM.evaluate K self X' y'
       = Raise (ValueError "Model must be trained before evaluation"))
  ∧ (∀ filepath disk, BPM.save_model J self filepath disk
       = (Raise (ValueError "Model must be trained before saving"), disk))
  ∧ match BPM.train K self X y with
    | (Ok _, self') =>
        BPM.is_trained self' = true
        ∧ BPM.names self' = BPM.names self
        ∧ (∀ X',
             BPM.predict self' X'
             = (X_scaled ← BPM.validated (BPM.scaler_transform self' X');
                predictions ← BPM.validated (BPM.model_predict self' X_scaled);
                probabilities ←
                  BPM.validated (BPM.model_predict_proba self' X_scaled);
                Ok (predictions, probabilities)))
        ∧ (∀ X' e, BPM.predict self' X' = Raise e → ∃ msg, e = ValueError msg)
    | (Raise e, self') =>
        BPM.is_trained self' = false
        ∧ BPM.names self' = BPM.names self
        ∧ (∀ features, BPM.predict_single self' features
             = Raise (ValueError "Model must be trained before making predictions"))
        ∧ (∀ X', BPM.predict self' X'
             = Raise (ValueError "Model must be trained before making predictions"))
        ∧ (∀ filepath disk, BPM.save_model J self' filepath disk
             = (Raise (ValueError "Model must be trained before saving"), disk))
    end.
Proof.
  intros Hu.
  unfold BPM.predict_single, BPM.predict, BPM.evaluate, BPM.save_model, BPM.train.
  rewrite Hu. cbn [negb].
  repeat (split; [reflexivity|]).
  destruct (BPM.fit_transform K (BPM.scaler_transform self) X) as [[X_scaled|e] scaler'];
    [|by repeat split].
  destruct (BPM.fit K _ X_scaled y) as [[[]|e] [predict' predict_proba']]; simpl;
    [|by repeat split].
  repeat (split; [reflexivity|]).
  intros X' e.
  destruct (scaler' X') as [Xs|]; simpl; [|intros [= <-]; eauto].
  destruct (predict' Xs); simpl; [|intros [= <-]; eauto].
  destruct (predict_proba' Xs); simpl; [discriminate|intros [= <-]; eauto].
Qed.

Lemma untrained_until_trained_witness :
  BPM.predict_single Examples.untrained_model Examples.low_risk_features
  = Raise (ValueError "Model must be trained before making predictions")
  ∧ BPM.is_trained
      (BPM.train Examples.constant_fit Examples.untrained_model
         [[1; 2; 3; 4; 5; 6; 7; 8; 9; 10]%Q] [0%Z]).2 = true
  ∧ BPM.is_trained
      (BPM.train Examples.constant_fit Examples.untrained_model [] []).2 = false.
Proof.
  destruct (untrained_until_trained Examples.constant_fit Examples.disk_joblib
              Examples.untrained_model [[1; 2; 3; 4; 5; 6; 7; 8; 9; 10]%Q] [0%Z]
              eq_refl)
    as (H1 & _ & _ & _ & H5).
  destruct (untrained_until_trained Examples.constant_fit Examples.disk_joblib
              Examples.untrained_model [] [] eq_refl)
    as (_ & _ & _ & _ & H6).
  split; [apply H1|]. split; [apply H5|apply H6].
Defined.

(** After a training on one row of ten columns, the model answers a
    matrix of ten columns and rejects an empty one and a narrower one. *)
Example trained_model_checks_its_input :
  let model :=
    (BPM.train Examples.constant_fit Examples.untrained_model
       [[1; 2; 3; 4; 5; 6; 7; 8; 9; 10]%Q] [0%Z]).2 in
  BPM.predict model [[0; 0; 0; 0; 0; 0; 0; 0; 0; 0]%Q]
  = Ok ([0%Z], [(9 # 10, 1 # 10)%Q])
  ∧ (∃ msg, BPM.predict model [] = Raise (ValueError msg))
  ∧ (∃ msg, BPM.predict model [[1%Q]] = Raise (ValueError msg)).
Proof. cbv zeta. split; [reflexivity|]. split; by eexists. Qed.

(** X23. What [save_model] writes, [load_model] reads back: provided
    [joblib.load] returns what [joblib.dump] stored under the same path,
    a model saved with success was trained, and any other object that
    loads the file becomes that model - its own feature names, scaler and
    forest are all replaced - so it gives the same answers. *)
Theorem save_then_load {D} (J : BPM.Joblib D) (self other : BPM.t)
    (filepath : string) (disk disk' : D) :
  (∀ data path d d', BPM.dump J data path d = Ok d' →
                     BPM.load J path d' = Ok data) →
  BPM.save_model J self filepath disk = (Ok tt, disk') →
  BPM.is_trained self = true
  ∧ BPM.load_model J other filepath disk' = (Ok tt, self)
  ∧ ∀ features,
      BPM.predict_single (BPM.load_model J other filepath disk').2 features
      = BPM.predict_single self features.
Proof.
  intros Law. unfold BPM.save_model.
  destruct (BPM.is_trained self) eqn:Ht; cbn [negb]; [|intros H; discriminate H].
  destruct (BPM.dump J _ filepath disk) as [d|e] eqn:Ed; [|intros H; discriminate H].
  intros [= <-]. apply Law in Ed.
  assert (L : BPM.load_model J other filepath d = (Ok tt, self)).
  { unfold BPM.load_model. rewrite Ed. clear Ed Law.
    destruct self. simpl in *. by subst. }
  split; [reflexivity|]. split; [exact L|]. intros features. by rewrite L.
Qed.

Lemma save_then_load_witness :
  BPM.load_model Examples.disk_joblib Examples.untrained_model
    "models/burnout_model.pkl"
    (<["models/burnout_model.pkl" := Examples.trained_model]> ∅)
  = (Ok tt, Examples.trained_model).
Proof.
  apply (save_then_load Examples.disk_joblib Examples.trained_model
           Examples.untrained_model "models/burnout_model.pkl" ∅).
  - intros data path d d' [= <-]. simpl. by rewrite lookup_insert_eq.
  - reflexivity.
Defined.

(** ** The targets derived from a dataset without a target column *)

Lemma target_of_row_short (L : Lib.t) (row : list Q) :
  (length row < 5)%nat → ∃ msg, target_of_row L row = Raise (IndexError msg).
Proof.
  intros H. unfold target_of_row, item.
  destruct row as [|x0 [|x1 [|x2 [|x3 [|x4 row]]]]]; simpl in H; try lia;
    simpl; eauto.
Qed.

Lemma target_of_row_binary (L : Lib.t) (row : list Q) (y : Z) :
  target_of_row L row = Ok y → (y = 0 ∨ y = 1)%Z.
Proof.
  unfold target_of_row.
  destruct (item row 0) as [x0|]; simpl; [|discriminate].
  destruct (item row 3) as [x3|]; simpl; [|discriminate].
  destruct (item row 4) as [x4|]; simpl; [|discriminate].
  intros [= <-]. destruct (Qltb _ _); auto.
Qed.

(** X24. When a dataset has no [burnout_risk] column, both services
    derive the targets by the same rule: provided every row has the five
    leading columns, one label per row, each 0 or 1, and 1 exactly when
    the float sum x0 * 0.3 + x3 * 0.4 + x4 * 0.3, as numpy computes it
    from left to right, exceeds 0.5. A row with fewer columns makes the
    derivation raise [IndexError] (which the loaders turn into the dummy
    dataset). *)
Theorem derived_targets_are_binary (L : Lib.t) (X : matrix) :
  TrainingService._generate_target L X = EvaluationService._generate_target L X
  ∧ (Forall (fun row => (5 <= length row)%nat) X →
     ∃ y, TrainingService._generate_target L X = Ok y
          ∧ length y = length X
          ∧ Forall (fun label => (label = 0 ∨ label = 1)%Z) y
          ∧ ∀ (i : nat) row label, X !! i = Some row → y !! i = Some label →
              ∃ x0 x3 x4, row !! 0%nat = Some x0 ∧ row !! 3%nat = Some x3
                ∧ row !! 4%nat = Some x4
                ∧ (label = 1%Z
                   ↔ (5 # 10
                      < Lib.fl_add L
                          (Lib.fl_add L (Lib.fl_mul L x0 (3 # 10))
                                        (Lib.fl_mul L x3 (4 # 10)))
                          (Lib.fl_mul L x4 (3 # 10)))%Q))
  ∧ (∀ row, row ∈ X → (length row < 5)%nat →
     ∃ msg, TrainingService._generate_target L X = Raise (IndexError msg)).
Proof.
  split; [reflexivity|]. unfold TrainingService._generate_target. split.
  - induction 1 as [|row X Hrow HX (ys & IH & Hl & Hb & Hm)]; simpl.
    + exists []. repeat split; [constructor|]. intros i row label H.
      by rewrite lookup_nil in H.
    + destruct (target_of_row_ok L row Hrow) as [y Ey]. rewrite Ey, IH. simpl.
      exists (y :: ys). split; [reflexivity|]. split; [simpl; by rewrite Hl|].
      split; [constructor; [by eapply target_of_row_binary|exact Hb]|].
      intros [|i] row' label; simpl; [|by apply Hm].
      intros [= <-] [= <-].
      destruct row as [|x0 [|x1 [|x2 [|x3 [|x4 row]]]]];
        simpl in Hrow; try lia.
      exists x0, x3, x4. repeat (split; [reflexivity|]).
      unfold target_of_row in Ey. simpl in Ey. injection Ey as <-.
      rewrite <- Qltb_lt. destruct (Qltb _ _); [done|].
      split; intros H; discriminate H.
  - intros row Hin Hshort. induction X as [|r X IH]; [by apply elem_of_nil in Hin|].
    simpl. destruct (target_of_row L r) as [y|e] eqn:Er.
    + apply elem_of_cons in Hin as [->|Hin].
      * destruct (target_of_row_short L r Hshort) as [msg Hm]. congruence.
      * destruct (IH Hin) as [msg ->]. simpl. by exists msg.
    + simpl. unfold target_of_row, item in Er.
      destruct (r !! 0%nat); simpl in Er; [|injection Er as <-; eauto].
      destruct (r !! 3%nat); simpl in Er; [|injection Er as <-; eauto].
      destruct (r !! 4%nat); simpl in Er; [|injection Er as <-; eauto].
      discriminate Er.
Qed.

Lemma derived_targets_are_binary_witness :
  ∃ y, TrainingService._generate_target Examples.spreadsheet_only
         [[1; 0; 0; 1; 1; 0]%Q; [0; 1; 1; 0; 0; 1]%Q] = Ok y
       ∧ length y = 2%nat.
Proof.
  destruct (derived_targets_are_binary Examples.spreadsheet_only
              [[1; 0; 0; 1; 1; 0]%Q; [0; 1; 1; 0; 0; 1]%Q])
    as (_ & H & _).
  destruct H as (y & Hy & Hl & _).
  - repeat constructor; simpl; lia.
  - exists y. split; [exact Hy|exact Hl].
Defined.
